(** * Fyers-Algo-Bot: signal pipeline

    A shallow embedding of the risk manager, the strategy base class, the
    Bollinger-band strategy, the backtest driver, the tick aggregator and
    the consensus tally, followed by the properties proved about them.

    Python [float] values are modelled as exact rationals ([Q]); Python
    [int] values as [Z]; [dict]s keyed by strings as [gmap string _];
    [None] as [option]; a raised exception as [Raise].  Where a result
    depends on how a double rounds (the position size, the Bollinger
    bands of a constant series), the code is modelled a second time on
    IEEE 754 binary64 values, in the modules under [InDoubles]. *)

From Stdlib Require Import QArith Qround Qabs Qminmax Lia Lqa ZArith SpecFloat.
From stdpp Require Import gmap strings list fin_maps.

(** ** Python primitives *)

Module Py.

Inductive exn : Type :=
  ZeroDivisionError | KeyError | AssertionError | OverflowError | ValueError.

Inductive result (A : Type) : Type :=
| Ok (a : A)
| Raise (e : exn).
Arguments Ok {A} a.
Arguments Raise {A} e.

Definition bind {A B : Type} (r : result A) (k : A -> result B) : result B :=
  match r with
  | Ok a => k a
  | Raise e => Raise e
  end.

Definition raises {A : Type} (r : result A) : Prop :=
  match r with
  | Ok _ => False
  | Raise _ => True
  end.

(** [a < b] on numbers. *)
Definition ltb (a b : Q) : bool := negb (Qle_bool b a).

(** [a / b]: true division, raising on a zero divisor. *)
Definition div (a b : Q) : result Q :=
  if Qeq_bool b 0 then Raise ZeroDivisionError else Ok (a / b)%Q.

(** [int(x)]: truncation toward zero. *)
Definition int (x : Q) : Z := (Qnum x ÷ Zpos (Qden x))%Z.

(** [max(a, b)] and [min(a, b)]: the first argument is kept unless the
    second is strictly better. *)
Definition max (a b : Q) : Q := if ltb a b then b else a.
Definition min (a b : Q) : Q := if ltb b a then b else a.

(** [sum(l)]: left-to-right accumulation from 0. *)
Definition sum (l : list Q) : Q := fold_left Qplus l 0%Q.

(** [len(l)] as a number. *)
Definition len {A : Type} (l : list A) : Z := Z.of_nat (length l).

(** [l[i:]] for any integer [i] (negative indices count from the end). *)
Definition slice_from {A : Type} (i : Z) (l : list A) : list A :=
  if (i <? 0)%Z then drop (Z.to_nat (Z.max 0 (len l + i))) l
  else drop (Z.to_nat i) l.

(** [l[:i]] for any integer [i]. *)
Definition slice_to {A : Type} (i : Z) (l : list A) : list A :=
  if (i <? 0)%Z then take (Z.to_nat (Z.max 0 (len l + i))) l
  else take (Z.to_nat i) l.

(** [a or b] where truthiness of a present value is given by [truthy]. *)
Definition or {A : Type} (truthy : A -> bool) (a b : option A) : option A :=
  match a with
  | Some x => if truthy x then a else b
  | None => b
  end.

(** [d[k]] on a dict: raises when the key is absent. *)
Definition getitem {V : Type} (d : gmap string V) (k : string) : result V :=
  match d !! k with
  | Some v => Ok v
  | None => Raise KeyError
  end.

(** [d.get(k, dflt)]. *)
Definition get {V : Type} (d : gmap string V) (k : string) (dflt : V) : V :=
  default dflt (d !! k).

Definition truthy_str (s : string) : bool := negb (String.eqb s EmptyString).
Definition truthy_num (x : Q) : bool := negb (Qeq_bool x 0).
Definition truthy_int (x : Z) : bool := negb (x =? 0)%Z.

End Py.

#[export] Instance result_ret : MRet Py.result := @Py.Ok.
#[export] Instance result_bind : MBind Py.result :=
  fun A B k r => Py.bind r k.

(** ** analytics/risk/manager.py

    Numbers are exact rationals here.  [calculate_position_size], whose
    result depends on how the quotient rounds, is modelled a second time on
    doubles in [InDoubles.RiskManager]. *)

Module RiskManager.
Import Py.
Local Open Scope Q_scope.

Record Position : Type := mkPosition {
  side : string;
  entry_price : Q;
  quantity : Z;
  stop_loss : Q;
  take_profit : Q
}.

Record Trade : Type := mkTrade {
  trade_symbol : string;
  trade_side : string;
  trade_entry : Q;
  trade_exit : Q;
  trade_quantity : Z;
  trade_pnl : Q
}.

Record State : Type := mkState {
  initial_capital : Q;
  current_capital : Q;
  max_risk_per_trade : Q;
  max_portfolio_risk : Q;
  stop_loss_pct : Q;
  take_profit_pct : Q;
  open_positions : gmap string Position;
  closed_trades : list Trade
}.

(** [__init__] *)
Definition init (initial_capital max_risk_per_trade max_portfolio_risk
                 stop_loss_pct take_profit_pct : Q) : State :=
  {| initial_capital := initial_capital;
     current_capital := initial_capital;
     max_risk_per_trade := max_risk_per_trade;
     max_portfolio_risk := max_portfolio_risk;
     stop_loss_pct := stop_loss_pct;
     take_profit_pct := take_profit_pct;
     open_positions := ∅;
     closed_trades := [] |}.

(** [RiskManager()] with the default arguments. *)
Definition default : State :=
  init 100000 (2 # 100) (6 # 100) (2 # 100) (4 # 100).

Definition set_capital (rm : State) (c : Q) : State :=
  {| initial_capital := initial_capital rm;
     current_capital := c;
     max_risk_per_trade := max_risk_per_trade rm;
     max_portfolio_risk := max_portfolio_risk rm;
     stop_loss_pct := stop_loss_pct rm;
     take_profit_pct := take_profit_pct rm;
     open_positions := open_positions rm;
     closed_trades := closed_trades rm |}.

Definition set_open_positions (rm : State) (m : gmap string Position) : State :=
  {| initial_capital := initial_capital rm;
     current_capital := current_capital rm;
     max_risk_per_trade := max_risk_per_trade rm;
     max_portfolio_risk := max_portfolio_risk rm;
     stop_loss_pct := stop_loss_pct rm;
     take_profit_pct := take_profit_pct rm;
     open_positions := m;
     closed_trades := closed_trades rm |}.

Definition set_closed_trades (rm : State) (l : list Trade) : State :=
  {| initial_capital := initial_capital rm;
     current_capital := current_capital rm;
     max_risk_per_trade := max_risk_per_trade rm;
     max_portfolio_risk := max_portfolio_risk rm;
     stop_loss_pct := stop_loss_pct rm;
     take_profit_pct := take_profit_pct rm;
     open_positions := open_positions rm;
     closed_trades := l |}.

Definition calculate_position_size (rm : State) (entry_price : Q) : result Z :=
  let risk_amount := current_capital rm * max_risk_per_trade rm in
  let stop_loss_distance := entry_price * stop_loss_pct rm in
  if Qeq_bool stop_loss_distance 0 then Ok 1%Z
  else
    q ← div risk_amount stop_loss_distance;
    let quantity := int q in
    Ok (Z.max 1 quantity).

Definition calculate_stop_loss (rm : State) (entry_price : Q) (side : string) : Q :=
  if String.eqb side "BUY" then entry_price * (1 - stop_loss_pct rm)
  else entry_price * (1 + stop_loss_pct rm).

Definition calculate_take_profit (rm : State) (entry_price : Q) (side : string) : Q :=
  if String.eqb side "BUY" then entry_price * (1 + take_profit_pct rm)
  else entry_price * (1 - take_profit_pct rm).

Definition check_stop_loss (rm : State) (symbol : string) (current_price : Q) : bool :=
  match open_positions rm !! symbol with
  | None => false
  | Some pos =>
      if String.eqb (side pos) "BUY" then Qle_bool current_price (stop_loss pos)
      else Qle_bool (stop_loss pos) current_price
  end.

Definition check_take_profit (rm : State) (symbol : string) (current_price : Q) : bool :=
  match open_positions rm !! symbol with
  | None => false
  | Some pos =>
      if String.eqb (side pos) "BUY" then Qle_bool (take_profit pos) current_price
      else Qle_bool current_price (take_profit pos)
  end.

Definition open_position (rm : State) (symbol side : string)
    (entry_price : Q) (quantity : Z) : State :=
  let stop_loss := calculate_stop_loss rm entry_price side in
  let take_profit := calculate_take_profit rm entry_price side in
  set_open_positions rm
    (<[symbol := {| side := side;
                    entry_price := entry_price;
                    quantity := quantity;
                    stop_loss := stop_loss;
                    take_profit := take_profit |}]> (open_positions rm)).

(** The realized PnL computed by [close_position] for [pos]. *)
Definition realized_pnl (pos : Position) (exit_price : Q) : Q :=
  if String.eqb (side pos) "BUY"
  then (exit_price - entry_price pos) * inject_Z (quantity pos)
  else (entry_price pos - exit_price) * inject_Z (quantity pos).

Definition close_position (rm : State) (symbol : string) (exit_price : Q)
    : State * option Trade :=
  match open_positions rm !! symbol with
  | None => (rm, None)
  | Some pos =>
      let rm := set_open_positions rm (delete symbol (open_positions rm)) in
      let pnl := realized_pnl pos exit_price in
      let rm := set_capital rm (current_capital rm + pnl) in
      let trade := {| trade_symbol := symbol;
                      trade_side := side pos;
                      trade_entry := entry_price pos;
                      trade_exit := exit_price;
                      trade_quantity := quantity pos;
                      trade_pnl := pnl |} in
      let rm := set_closed_trades rm (closed_trades rm ++ [trade]) in
      (rm, Some trade)
  end.

(** [get_stats]: the returned dict, keyed by the source's key strings;
    counts are stored as numbers. *)
Definition get_stats (rm : State) : result (gmap string Q) :=
  match closed_trades rm with
  | [] =>
      Ok (<["total_trades" := 0]> (<["winning_trades" := 0]>
         (<["losing_trades" := 0]> (<["win_rate" := 0]>
         (<["total_pnl" := 0]> (<["avg_win" := 0]>
         (<["avg_loss" := 0]> (<["profit_factor" := 0]> ∅))))))))
  | _ :: _ =>
      let total := len (closed_trades rm) in
      let wins := filter (fun t => ltb 0 (trade_pnl t) = true) (closed_trades rm) in
      let losses := filter (fun t => ltb (trade_pnl t) 0 = true) (closed_trades rm) in
      let total_pnl := sum (map trade_pnl (closed_trades rm)) in
      avg_win ← match wins with
                | [] => Ok 0
                | _ => div (sum (map trade_pnl wins)) (inject_Z (len wins))
                end;
      avg_loss ← match losses with
                 | [] => Ok 0
                 | _ => div (sum (map trade_pnl losses)) (inject_Z (len losses))
                 end;
      let gross_profit := sum (map trade_pnl wins) in
      let gross_loss := Qabs (sum (map trade_pnl losses)) in
      profit_factor ← (if ltb 0 gross_loss then div gross_profit gross_loss
                       else Ok 0);
      win_rate ← (if (0 <? total)%Z
                  then r ← div (inject_Z (len wins)) (inject_Z total); Ok (r * 100)
                  else Ok 0);
      Ok (<["total_trades" := inject_Z total]>
         (<["winning_trades" := inject_Z (len wins)]>
         (<["losing_trades" := inject_Z (len losses)]>
         (<["win_rate" := win_rate]>
         (<["total_pnl" := total_pnl]>
         (<["avg_win" := avg_win]>
         (<["avg_loss" := avg_loss]>
         (<["profit_factor" := profit_factor]>
         (<["final_capital" := current_capital rm]> ∅)))))))))
  end.

(** Number of open positions recorded for [symbol]: the entries of the
    map whose key is [symbol]. *)
Definition open_count (rm : State) (symbol : string) : nat :=
  length (filter (fun kv => kv.1 = symbol) (map_to_list (open_positions rm))).

(** A call made on the manager by its user, and a sequence of such calls
    applied in order ([close_position]'s returned trade is dropped). *)
Inductive Op : Type :=
| OpOpen (symbol side : string) (entry_price : Q) (quantity : Z)
| OpClose (symbol : string) (exit_price : Q).

Definition apply_op (rm : State) (op : Op) : State :=
  match op with
  | OpOpen symbol side entry_price quantity =>
      open_position rm symbol side entry_price quantity
  | OpClose symbol exit_price => (close_position rm symbol exit_price).1
  end.

Definition apply_ops (rm : State) (ops : list Op) : State :=
  fold_left apply_op ops rm.

End RiskManager.

(** ** analytics/strategies/base_strategy.py *)

Module BaseStrategy.
Import Py.
Local Open Scope Q_scope.

(** A candle row as returned by [fetch_candles]. *)
Record Candle : Type := mkCandle {
  time : Z;
  symbol : string;
  exchange : string;
  open : Q;
  high : Q;
  low : Q;
  close : Q;
  volume : Z
}.

Record Position : Type := mkPosition {
  side : string;
  entry_price : Q;
  quantity : Z;
  entry_time : Z
}.

Record Trade : Type := mkTrade {
  trade_symbol : string;
  trade_side : string;
  trade_entry_price : Q;
  trade_exit_price : Q;
  trade_quantity : Z;
  trade_pnl : Q;
  trade_entry_time : Z;
  trade_exit_time : Z
}.

Record State : Type := mkState {
  self_symbol : string;
  name : string;
  position : option Position;
  trades : list Trade
}.

(** [__init__] *)
Definition init (symbol name : string) : State :=
  {| self_symbol := symbol; name := name; position := None; trades := [] |}.

Definition set_position (st : State) (p : option Position) : State :=
  {| self_symbol := self_symbol st; name := name st;
     position := p; trades := trades st |}.

Definition set_trades (st : State) (l : list Trade) : State :=
  {| self_symbol := self_symbol st; name := name st;
     position := position st; trades := l |}.

Definition _close_position (st : State) (candle : Candle) : State :=
  match position st with
  | None => st
  | Some pos =>
      let exit_price := close candle in
      let entry_price := entry_price pos in
      let quantity := quantity pos in
      let side := side pos in
      let pnl :=
        if String.eqb side "BUY"
        then (exit_price - entry_price) * inject_Z quantity
        else (entry_price - exit_price) * inject_Z quantity in
      let trade := {| trade_symbol := self_symbol st;
                      trade_side := side;
                      trade_entry_price := entry_price;
                      trade_exit_price := exit_price;
                      trade_quantity := quantity;
                      trade_pnl := pnl;
                      trade_entry_time := entry_time pos;
                      trade_exit_time := time candle |} in
      let st := set_trades st (trades st ++ [trade]) in
      set_position st None
  end.

Definition _handle_buy_signal (st : State) (candle : Candle) (quantity : Z) : State :=
  let open_long (st : State) :=
    set_position st (Some {| side := "BUY";
                             entry_price := close candle;
                             quantity := quantity;
                             entry_time := time candle |}) in
  match position st with
  | Some pos =>
      if String.eqb (side pos) "SELL"
      then open_long (_close_position st candle)
      else st
  | None => open_long st
  end.

Definition _handle_sell_signal (st : State) (candle : Candle) (quantity : Z) : State :=
  let open_short (st : State) :=
    set_position st (Some {| side := "SELL";
                             entry_price := close candle;
                             quantity := quantity;
                             entry_time := time candle |}) in
  match position st with
  | Some pos =>
      if String.eqb (side pos) "BUY"
      then open_short (_close_position st candle)
      else st
  | None => open_short st
  end.

Definition get_stats (st : State) : result (gmap string Q) :=
  match trades st with
  | [] =>
      Ok (<["total_trades" := 0]> (<["winning_trades" := 0]>
         (<["losing_trades" := 0]> (<["win_rate" := 0]>
         (<["total_pnl" := 0]> (<["avg_win" := 0]>
         (<["avg_loss" := 0]> ∅)))))))
  | _ :: _ =>
      let total_trades := len (trades st) in
      let winning_trades := filter (fun t => ltb 0 (trade_pnl t) = true) (trades st) in
      let losing_trades := filter (fun t => ltb (trade_pnl t) 0 = true) (trades st) in
      let total_pnl := sum (map trade_pnl (trades st)) in
      avg_win ← match winning_trades with
                | [] => Ok 0
                | _ => div (sum (map trade_pnl winning_trades))
                           (inject_Z (len winning_trades))
                end;
      avg_loss ← match losing_trades with
                 | [] => Ok 0
                 | _ => div (sum (map trade_pnl losing_trades))
                            (inject_Z (len losing_trades))
                 end;
      win_rate ← (if (0 <? total_trades)%Z
                  then r ← div (inject_Z (len winning_trades)) (inject_Z total_trades);
                       Ok (r * 100)
                  else Ok 0);
      Ok (<["total_trades" := inject_Z total_trades]>
         (<["winning_trades" := inject_Z (len winning_trades)]>
         (<["losing_trades" := inject_Z (len losing_trades)]>
         (<["win_rate" := win_rate]>
         (<["total_pnl" := total_pnl]>
         (<["avg_win" := avg_win]>
         (<["avg_loss" := avg_loss]> ∅)))))))
  end.

(** Returns [Ok None] for the source's [None]. *)
Definition _calculate_ema (values : list Q) (period : Z) : result (option Q) :=
  if (len values <? period)%Z then Ok None
  else
    multiplier ← div 2 (inject_Z (period + 1));
    ema ← div (sum (slice_to period values)) (inject_Z period);
    Ok (Some (fold_left (fun ema value => (value - ema) * multiplier + ema)
                (slice_from period values) ema)).

Definition _calculate_sma (values : list Q) (period : Z) : result (option Q) :=
  if (len values <? period)%Z then Ok None
  else
    r ← div (sum (slice_from (- period) values)) (inject_Z period);
    Ok (Some r).

(** Number of open positions the engine holds. *)
Definition open_count (st : State) : nat :=
  match position st with
  | Some _ => 1
  | None => 0
  end.

End BaseStrategy.

(** The interface the drivers use: a strategy object exposes the base-class
    state and consumes candles (the value [on_candle] returns is ignored by
    every driver modelled here). *)
Class Strategy (S : Type) : Type := {
  base : S -> BaseStrategy.State;
  on_candle : S -> BaseStrategy.Candle -> Py.result S
}.

(** ** analytics/strategies/intraday/scalping_mean_reversion.py

    Numbers are exact rationals here.  The strategy is modelled a second
    time on doubles in [InDoubles.ScalpingMeanReversionStrategy], for the
    bands of a constant series, which depend on how the mean rounds. *)

Module ScalpingMeanReversionStrategy.
Import Py.
Local Open Scope Q_scope.

Record Signal : Type := mkSignal {
  action : string;
  price : Q;
  upper : Q;
  middle : Q;
  lower : Q
}.

Record State : Type := mkState {
  super : BaseStrategy.State;
  bb_period : Z;
  bb_std : Q;
  price_history : list Q
}.

(** [__init__] *)
Definition init (symbol : string) (bb_period : Z) (bb_std : Q) : State :=
  {| super := BaseStrategy.init symbol "scalping_mean_reversion";
     bb_period := bb_period;
     bb_std := bb_std;
     price_history := [] |}.

Definition set_super (st : State) (b : BaseStrategy.State) : State :=
  {| super := b; bb_period := bb_period st; bb_std := bb_std st;
     price_history := price_history st |}.

Definition set_price_history (st : State) (h : list Q) : State :=
  {| super := super st; bb_period := bb_period st; bb_std := bb_std st;
     price_history := h |}.

Section WithSqrt.
(** The float operation [variance ** 0.5], taken as a parameter. *)
Variable sqrt : Q -> Q.

(** Returns [None] for the source's [(None, None, None)]. *)
Definition calculate_bollinger_bands (st : State) (prices : list Q)
    : result (option (Q * Q * Q)) :=
  if (len prices <? bb_period st)%Z then Ok None
  else
    let recent := slice_from (- bb_period st) prices in
    ma ← div (sum recent) (inject_Z (len recent));
    variance ← div (sum (map (fun x => (x - ma) ^ 2) recent))
                   (inject_Z (len recent));
    let std := sqrt variance in
    let upper := ma + bb_std st * std in
    let lower := ma - bb_std st * std in
    Ok (Some (upper, ma, lower)).

Definition on_candle (st : State) (candle : BaseStrategy.Candle)
    : result (State * option Signal) :=
  let close := BaseStrategy.close candle in
  let st := set_price_history st (price_history st ++ [close]) in
  let st :=
    if (100 <? len (price_history st))%Z
    then set_price_history st (slice_from (-100) (price_history st))
    else st in
  bands ← calculate_bollinger_bands st (price_history st);
  match bands with
  | None => Ok (st, None)
  | Some (upper, middle, lower) =>
      if negb (truthy_num upper) then Ok (st, None)
      else
        match BaseStrategy.position (super st) with
        | None =>
            if Qle_bool close lower
            then Ok (set_super st (BaseStrategy._handle_buy_signal (super st) candle 1),
                     Some {| action := "BUY"; price := close; upper := upper;
                             middle := middle; lower := lower |})
            else Ok (st, None)
        | Some _ =>
            if Qle_bool upper close || Qle_bool middle close
            then Ok (set_super st (BaseStrategy._handle_sell_signal (super st) candle 1),
                     Some {| action := "SELL"; price := close; upper := upper;
                             middle := middle; lower := lower |})
            else Ok (st, None)
        end
  end.

(** [generate_signals]: feeds the candles in order and collects the
    signals that are not [None]; also returns the final strategy. *)
Fixpoint generate_signals (st : State) (candles : list BaseStrategy.Candle)
    : result (State * list Signal) :=
  match candles with
  | [] => Ok (st, [])
  | candle :: rest =>
      '(st, signal) ← on_candle st candle;
      '(st, signals) ← generate_signals st rest;
      Ok (st, match signal with
              | Some s => s :: signals
              | None => signals
              end)
  end.

(** The candles fed one by one, keeping every value [on_candle] returns. *)
Fixpoint on_candles (st : State) (candles : list BaseStrategy.Candle)
    : result (State * list (option Signal)) :=
  match candles with
  | [] => Ok (st, [])
  | candle :: rest =>
      '(st, signal) ← on_candle st candle;
      '(st, signals) ← on_candles st rest;
      Ok (st, signal :: signals)
  end.

#[export] Instance strategy : Strategy State :=
  Build_Strategy State super
    (fun st candle => '(st, _) ← on_candle st candle; Ok st).
End WithSqrt.

(** A computable instance of the square root, used to run the strategy on
    concrete candles: the root rounded down to six decimal places. *)
Definition sqrt6 (x : Q) : Q :=
  (Z.sqrt (Qnum x * Zpos (Qden x) * 10 ^ 12) # (Qden x * 10 ^ 6))%Q.

End ScalpingMeanReversionStrategy.

(** ** strategies/base_strategy.py and core/models.py: the dataclass-based
    base class, which carries the end-of-backtest [finalize] *)

Module LegacyBaseStrategy.
Import Py.
Local Open Scope Q_scope.

Inductive Side : Type := BUY | SELL.

#[export] Instance Side_eq_dec : EqDecision Side.
Proof. solve_decision. Defined.

Record Position : Type := mkPosition {
  pos_symbol : string;
  pos_exchange : string;
  pos_side : Side;
  pos_quantity : Z;
  pos_entry_price : Q;
  pos_entry_time : Z;
  pos_stop_loss : option Q;
  pos_target : option Q;
  pos_strategy_name : string
}.

Record Trade : Type := mkTrade {
  trade_time : Z;
  trade_symbol : string;
  trade_exchange : string;
  trade_side : Side;
  trade_quantity : Z;
  trade_price : Q;
  trade_strategy_name : string;
  trade_pnl : Q;
  trade_is_entry : bool
}.

Record State : Type := mkState {
  name : string;
  symbol : string;
  exchange : string;
  position : option Position;
  trades : list Trade
}.

(** [Position.direction] *)
Definition direction (pos : Position) : Z :=
  if decide (pos_side pos = BUY) then 1%Z else (-1)%Z.

(** [Position.unrealized_pnl] *)
Definition unrealized_pnl (pos : Position) (last_price : Q) : Q :=
  (last_price - pos_entry_price pos) * inject_Z (pos_quantity pos)
  * inject_Z (direction pos).

Definition _close_position (st : State) (candle : BaseStrategy.Candle)
    : result (State * Trade) :=
  match position st with
  | None => Raise AssertionError
  | Some pos =>
      let exit_price := BaseStrategy.close candle in
      let pnl := unrealized_pnl pos exit_price in
      let side := if decide (pos_side pos = BUY) then SELL else BUY in
      let trade := {| trade_time := BaseStrategy.time candle;
                      trade_symbol := symbol st;
                      trade_exchange := exchange st;
                      trade_side := side;
                      trade_quantity := pos_quantity pos;
                      trade_price := exit_price;
                      trade_strategy_name := name st;
                      trade_pnl := pnl;
                      trade_is_entry := false |} in
      Ok ({| name := name st; symbol := symbol st; exchange := exchange st;
             position := None; trades := trades st ++ [trade] |}, trade)
  end.

Definition finalize (st : State) (last_candle : BaseStrategy.Candle)
    : result (State * list Trade) :=
  match position st with
  | Some _ =>
      '(st, trade) ← _close_position st last_candle;
      Ok (st, [trade])
  | None => Ok (st, [])
  end.

End LegacyBaseStrategy.

(** ** analytics/backtest/engine.py *)

Module BacktestEngine.
Import Py.
Local Open Scope Q_scope.

(** The [for candle in candles] loop of [run]. *)
Fixpoint run_loop {S : Type} `{Strategy S} (strategy : S)
    (candles : list BaseStrategy.Candle) : result S :=
  match candles with
  | [] => Ok strategy
  | candle :: rest =>
      strategy ← on_candle strategy candle;
      run_loop strategy rest
  end.

(** [run], given the constructed strategy and the candles fetched from the
    store: the strategy object as [run] leaves it, and the report. *)
Definition run {S : Type} `{Strategy S} (strategy : S)
    (candles : list BaseStrategy.Candle) : result (S * gmap string Q) :=
  match candles with
  | [] =>
      Ok (strategy,
          <["total_trades" := 0]> (<["pnl" := 0]> (<["win_rate" := 0]>
          (<["wins" := 0]> (<["losses" := 0]> ∅)))))
  | _ :: _ =>
      strategy ← run_loop strategy candles;
      stats ← BaseStrategy.get_stats (base strategy);
      total_trades ← getitem stats "total_trades";
      pnl ← getitem stats "total_pnl";
      win_rate ← getitem stats "win_rate";
      wins ← getitem stats "winning_trades";
      losses ← getitem stats "losing_trades";
      Ok (strategy,
          <["total_trades" := total_trades]> (<["pnl" := pnl]>
          (<["win_rate" := win_rate]> (<["wins" := wins]>
          (<["losses" := losses]>
          (<["avg_win" := get stats "avg_win" 0]>
          (<["avg_loss" := get stats "avg_loss" 0]> ∅)))))))
  end.

End BacktestEngine.

(** ** scripts/realtime_trading_engine.py: tick aggregation and vote tally *)

Module RealtimeTradingEngine.
Import Py.
Local Open Scope Q_scope.

(** The nested dict a tick may carry under the key [v]. *)
Record TickV : Type := mkTickV {
  v_lp : option Q;
  v_volume : option Z
}.

(** A tick message: each field is [None] when the key is absent.  [tick_v]
    is [None] when the key [v] is absent or does not hold a dict. *)
Record Tick : Type := mkTick {
  tick_symbol : option string;
  tick_fyToken : option string;
  tick_s : option string;
  tick_id : option string;
  tick_type : option string;
  tick_ltp : option Q;
  tick_last_traded_price : option Q;
  tick_last_price : option Q;
  tick_lp : option Q;
  tick_v : option TickV;
  tick_vol_traded_today : option Z;
  tick_volume : option Z
}.

Record Candle : Type := mkCandle {
  symbol : string;
  timestamp : Z;
  open : Q;
  high : Q;
  low : Q;
  close : Q;
  volume : Z;
  timeframe : string
}.

(** The part of the engine the aggregator touches.  [current_candles] has
    no entry for a symbol whose in-progress candle is [None]; [closed] lists
    the [on_candle_close] calls scheduled so far, oldest first; [loop] tells
    whether the event loop is set. *)
Record State : Type := mkState {
  symbols : list string;
  current_candles : gmap string Candle;
  last_tick_time : gmap string Z;
  loop : bool;
  closed : list (string * Candle)
}.

(** [timestamp.replace(second=0, microsecond=0)], on microseconds since the
    epoch. *)
Definition minute_of (timestamp : Z) : Z := (timestamp - timestamp mod 60000000)%Z.

Definition extract_symbol (tick : Tick) : option string :=
  or truthy_str (tick_symbol tick)
    (or truthy_str (tick_fyToken tick)
       (or truthy_str (tick_s tick) (tick_id tick))).

Definition extract_ltp (tick : Tick) : option Q :=
  or truthy_num (tick_ltp tick)
    (or truthy_num (tick_last_traded_price tick)
       (or truthy_num (tick_last_price tick)
          (or truthy_num (tick_lp tick)
             (match tick_v tick with
              | Some v => v_lp v
              | None => None
              end)))).

Definition extract_volume (tick : Tick) : option Z :=
  or truthy_int (tick_vol_traded_today tick)
    (or truthy_int (tick_volume tick)
       (match tick_v tick with
        | Some v => v_volume v
        | None => Some 0%Z
        end)).

(** [_process_single_tick], with the clock reading [now] made explicit. *)
Definition _process_single_tick (eng : State) (now : Z) (tick : Tick) : State :=
  let symbol := extract_symbol tick in
  if bool_decide (tick_type tick = Some "sub") && bool_decide (tick_s tick = Some "ok")
  then eng
  else
    let ltp := extract_ltp tick in
    let volume := extract_volume tick in
    match symbol with
    | None => eng
    | Some symbol =>
        if negb (truthy_str symbol) || negb (bool_decide (symbol ∈ symbols eng))
        then eng
        else
          match ltp with
          | None => eng
          | Some ltp =>
              if negb (truthy_num ltp) then eng
              else
                let timestamp := now in
                let last_tick_time := <[symbol := timestamp]> (last_tick_time eng) in
                let candle_time := minute_of timestamp in
                let start_new (closed : list (string * Candle)) :=
                  {| symbols := symbols eng;
                     current_candles :=
                       <[symbol := {| symbol := symbol;
                                      timestamp := candle_time;
                                      open := ltp;
                                      high := ltp;
                                      low := ltp;
                                      close := ltp;
                                      volume := match volume with
                                                | Some v => if truthy_int v then v else 0%Z
                                                | None => 0%Z
                                                end;
                                      timeframe := "1m" |}]> (current_candles eng);
                     last_tick_time := last_tick_time;
                     loop := loop eng;
                     closed := closed |} in
                match current_candles eng !! symbol with
                | None => start_new (closed eng)
                | Some candle =>
                    if negb (RealtimeTradingEngine.timestamp candle =? candle_time)%Z
                    then start_new (if loop eng
                                    then closed eng ++ [(symbol, candle)]
                                    else closed eng)
                    else
                      {| symbols := symbols eng;
                         current_candles :=
                           <[symbol := {| symbol := RealtimeTradingEngine.symbol candle;
                                          timestamp := RealtimeTradingEngine.timestamp candle;
                                          open := open candle;
                                          high := max (high candle) ltp;
                                          low := min (low candle) ltp;
                                          close := ltp;
                                          volume := match volume with
                                                    | Some v => if truthy_int v then v
                                                                else RealtimeTradingEngine.volume candle
                                                    | None => RealtimeTradingEngine.volume candle
                                                    end;
                                          timeframe := timeframe candle |}]>
                             (current_candles eng);
                         last_tick_time := last_tick_time;
                         loop := loop eng;
                         closed := closed eng |}
                end
          end
    end.

(** Feeding a sequence of (clock reading, tick) pairs in order. *)
Definition process_ticks (eng : State) (ticks : list (Z * Tick)) : State :=
  fold_left (fun eng nt => _process_single_tick eng (fst nt) (snd nt)) ticks eng.

(** The price and the volume a tick reports, as the aggregator reads them
    ([float(ltp)]; [int(volume) if volume else 0]). *)
Definition tick_price (tick : Tick) : Q := default 0 (extract_ltp tick).

Definition tick_reported_volume (tick : Tick) : Z := default 0%Z (extract_volume tick).

(** A tick the aggregator accepts for [symbol]: not a subscription
    acknowledgement, resolving to [symbol] and to a non-zero price. *)
Definition well_formed (symbol : string) (tick : Tick) : Prop :=
  ~ (tick_type tick = Some "sub" /\ tick_s tick = Some "ok")
  /\ extract_symbol tick = Some symbol
  /\ symbol <> EmptyString
  /\ exists ltp : Q, extract_ltp tick = Some ltp /\ ~ ltp == 0.

(** The volume rule of the update branch: the reported volume replaces the
    candle's volume unless it is zero. *)
Definition keep_or_replace (previous reported : Z) : Z :=
  if truthy_int reported then reported else previous.

(** The reported volumes behave as a counter: non-negative and never
    decreasing, starting at or above [a]. *)
Fixpoint counter_from (a : Z) (l : list Z) : Prop :=
  match l with
  | [] => True
  | v :: rest => (a <= v)%Z /\ counter_from v rest
  end.

(** [h] is the greatest (resp. least) element of [l]. *)
Definition is_max (h : Q) (l : list Q) : Prop := h ∈ l /\ Forall (fun q => q <= h) l.
Definition is_min (h : Q) (l : list Q) : Prop := h ∈ l /\ Forall (fun q => h <= q) l.

(** A tick with only the keys [symbol], [ltp] and [vol_traded_today]. *)
Definition simple_tick (symbol : string) (ltp : Q) (volume : Z) : Tick :=
  {| tick_symbol := Some symbol; tick_fyToken := None; tick_s := None;
     tick_id := None; tick_type := None; tick_ltp := Some ltp;
     tick_last_traded_price := None; tick_last_price := None; tick_lp := None;
     tick_v := None; tick_vol_traded_today := Some volume; tick_volume := None |}.

(** [__init__], restricted to the aggregator's fields. *)
Definition init : State :=
  {| symbols := ["NSE:RELIANCE-EQ"; "NSE:TCS-EQ"; "NSE:INFY-EQ";
                 "NSE:HDFCBANK-EQ"; "NSE:ICICIBANK-EQ"];
     current_candles := ∅;
     last_tick_time := ∅;
     loop := false;
     closed := [] |}.

(** [check_consensus]: the tally and the action handed to [execute_trade], if
    any.  Each strategy object is seen through its [current_signal]
    attribute: [None] when the object has no such attribute, [Some None]
    when the attribute is falsy or carries no action, [Some (Some a)] when
    its action is [a]. *)
Definition tally (signals : list (option (option string))) : Z * Z :=
  fold_left
    (fun votes s =>
       let '(buy_votes, sell_votes) := votes in
       match s with
       | Some (Some a) =>
           if String.eqb a "BUY" then ((buy_votes + 1)%Z, sell_votes)
           else if String.eqb a "SELL" then (buy_votes, (sell_votes + 1)%Z)
           else votes
       | _ => votes
       end)
    signals (0%Z, 0%Z).

Definition check_consensus (active_positions : gset string) (symbol : string)
    (signals : list (option (option string))) : option string :=
  let '(buy_votes, sell_votes) := tally signals in
  if (2 <=? buy_votes)%Z && negb (bool_decide (symbol ∈ active_positions))
  then Some "BUY"
  else if (2 <=? sell_votes)%Z && bool_decide (symbol ∈ active_positions)
  then Some "SELL"
  else None.

(** A candle stored under the key [key] is well-shaped: it carries that
    symbol, starts on a minute boundary, and its open and close lie between
    its low and its high. *)
Definition candle_sane (key : string) (c : Candle) : Prop :=
  symbol c = key
  /\ minute_of (timestamp c) = timestamp c
  /\ low c <= open c /\ open c <= high c
  /\ low c <= close c /\ close c <= high c.

(** The engine holds only well-shaped candles. *)
Definition candles_sane (eng : State) : Prop :=
  (forall (s : string) (c : Candle), current_candles eng !! s = Some c -> candle_sane s c)
  /\ Forall (fun sc => candle_sane sc.1 sc.2) (closed eng).

(** The position the engine holds for a symbol ([order] is absent in paper
    mode), an entry of the session's trade log, and the order handed to the
    broker. *)
Record ActivePosition : Type := mkActivePosition {
  qty : Z;
  entry_price : Q;
  entry_time : Z;
  order : option string
}.

Record LogEntry : Type := mkLogEntry {
  log_time : Z;
  log_symbol : string;
  log_side : string;
  log_qty : Z;
  log_price : Q;
  log_mode : string;
  log_pnl : Q
}.

Record Order : Type := mkOrder {
  order_symbol : string;
  order_qty : Z;
  order_type : Z;
  order_side : Z;
  order_productType : string;
  order_limitPrice : Z;
  order_stopPrice : Z;
  order_validity : string;
  order_disclosedQty : Z;
  order_offlineOrder : bool
}.

(** The part of the engine [execute_trade] touches. *)
Record Trader : Type := mkTrader {
  mode : string;
  position_size : Q;
  live_buy_only : bool;
  active_positions : gmap string ActivePosition;
  trade_log : list LogEntry
}.

Definition set_trades (self : Trader) (positions : gmap string ActivePosition)
    (log : list LogEntry) : Trader :=
  {| mode := mode self; position_size := position_size self;
     live_buy_only := live_buy_only self;
     active_positions := positions; trade_log := log |}.

Definition market_order (symbol : string) (qty side : Z) : Order :=
  {| order_symbol := symbol; order_qty := qty; order_type := 1; order_side := side;
     order_productType := "INTRADAY"; order_limitPrice := 0; order_stopPrice := 0;
     order_validity := "DAY"; order_disclosedQty := 0; order_offlineOrder := false |}.

(** [execute_trade], with the broker call [place_order] and the two clock
    readings made explicit.  Every exception raised in the body is caught
    and logged there, leaving the state as it was when it was raised. *)
Definition execute_trade (place_order : Order -> result string) (self : Trader)
    (entry_now log_now : Z) (symbol action : string) (price : Q) : Trader :=
  match div (position_size self) price with
  | Raise _ => self
  | Ok q =>
      let qty := Z.max 1 (int q) in
      if String.eqb (mode self) "live" && live_buy_only self && String.eqb action "SELL"
      then self
      else if String.eqb action "BUY" then
        if String.eqb (mode self) "paper" then
          set_trades self
            (<[symbol := {| qty := qty; entry_price := price;
                            entry_time := entry_now; order := None |}]>
               (active_positions self))
            (trade_log self ++
               [{| log_time := log_now; log_symbol := symbol; log_side := "BUY";
                   log_qty := qty; log_price := price; log_mode := mode self;
                   log_pnl := 0 |}])
        else
          match place_order (market_order symbol qty 1) with
          | Raise _ => self
          | Ok resp =>
              set_trades self
                (<[symbol := {| qty := qty; entry_price := price;
                                entry_time := entry_now; order := Some resp |}]>
                   (active_positions self))
                (trade_log self ++
                   [{| log_time := log_now; log_symbol := symbol; log_side := "BUY";
                       log_qty := qty; log_price := price; log_mode := mode self;
                       log_pnl := 0 |}])
          end
      else if String.eqb action "SELL" then
        match active_positions self !! symbol with
        | None => self
        | Some position =>
            let qty := RealtimeTradingEngine.qty position in
            let pnl := (price - entry_price position) * inject_Z qty in
            let sold :=
              set_trades self (delete symbol (active_positions self))
                (trade_log self ++
                   [{| log_time := log_now; log_symbol := symbol; log_side := "SELL";
                       log_qty := qty; log_price := price; log_mode := mode self;
                       log_pnl := pnl |}]) in
            if String.eqb (mode self) "paper" then sold
            else
              match place_order (market_order symbol qty (-1)) with
              | Raise _ => self
              | Ok _ => sold
              end
        end
      else self
  end.

End RealtimeTradingEngine.

(** ** scripts/auto_trader.py: consensus over the strategies' positions *)

Module AutoTrader.
Import Py.
Local Open Scope Q_scope.

Record State : Type := mkState {
  mode : string;
  position_size : Q;
  min_move_pct : Q;
  min_net_profit : Q;
  brokerage : Q;
  live_buy_only : bool
}.

(** [__init__] *)
Definition init (mode : string) : State :=
  {| mode := mode;
     position_size := 5000;
     min_move_pct := 5 # 10;
     min_net_profit := 25;
     brokerage := 48;
     live_buy_only := true |}.

Record Signal : Type := mkSignal {
  strategy : string;
  side : string;
  entry : Q;
  current : Q
}.

Record Opportunity : Type := mkOpportunity {
  opp_symbol : string;
  opp_side : string;
  opp_entry : Q;
  opp_current : Q;
  opp_qty : Z;
  opp_net_pnl : Q;
  opp_move_pct : Q;
  opp_strategies : list string
}.

(** The [signals] list built from the strategies (class name, base state)
    once every candle has been fed: one row per strategy holding a position. *)
Fixpoint collect_signals (strategies : list (string * BaseStrategy.State))
    (last_close : Q) : list Signal :=
  match strategies with
  | [] => []
  | (cls, st) :: rest =>
      match BaseStrategy.position st with
      | Some pos =>
          {| strategy := cls;
             side := BaseStrategy.side pos;
             entry := BaseStrategy.entry_price pos;
             current := last_close |} :: collect_signals rest last_close
      | None => collect_signals rest last_close
      end
  end.

Definition buy_signals (signals : list Signal) : list Signal :=
  filter (fun s => side s = "BUY") signals.

Definition sell_signals (signals : list Signal) : list Signal :=
  filter (fun s => side s = "SELL") signals.

Definition dominant_signals (self : State) (signals : list Signal) : list Signal :=
  if String.eqb (mode self) "live" && live_buy_only self
  then (if (2 <=? len (buy_signals signals))%Z then buy_signals signals else [])
  else (if (2 <=? len (buy_signals signals))%Z then buy_signals signals
        else if (2 <=? len (sell_signals signals))%Z then sell_signals signals
        else []).

(** The body of the per-symbol loop after the tally: the opportunity
    appended for [symbol], if any. *)
Definition evaluate (self : State) (symbol : string) (signals : list Signal)
    (current_price : Q) : result (option Opportunity) :=
  let dominant_signals := dominant_signals self signals in
  match dominant_signals with
  | first :: _ =>
      if (2 <=? len dominant_signals)%Z then
        avg_entry ← div (sum (map entry dominant_signals))
                        (inject_Z (len dominant_signals));
        let side := side first in
        move_pct ← (if String.eqb side "BUY"
                    then r ← div (current_price - avg_entry) avg_entry; Ok (r * 100)
                    else r ← div (avg_entry - current_price) avg_entry; Ok (r * 100));
        q ← div (position_size self) current_price;
        let qty := int q in
        let gross_pnl := Qabs (current_price - avg_entry) * inject_Z qty in
        let net_pnl := gross_pnl - brokerage self in
        let min_move_threshold :=
          if String.eqb (mode self) "live" && String.eqb side "BUY"
          then 3 # 10 else min_move_pct self in
        if Qle_bool min_move_threshold (Qabs move_pct) && ltb (min_net_profit self) net_pnl
        then Ok (Some {| opp_symbol := symbol;
                         opp_side := side;
                         opp_entry := avg_entry;
                         opp_current := current_price;
                         opp_qty := qty;
                         opp_net_pnl := net_pnl;
                         opp_move_pct := move_pct;
                         opp_strategies := map strategy dominant_signals |})
        else Ok None
      else Ok None
  | [] => Ok None
  end.

(** [scan_opportunities], given for each symbol the fetched candles and the
    strategy objects (class name, base state) as they stand once every
    candle has been fed to them. *)
Fixpoint scan_opportunities (self : State)
    (symbols : list (string * list BaseStrategy.Candle
                     * list (string * BaseStrategy.State)))
    : result (list Opportunity) :=
  match symbols with
  | [] => Ok []
  | (symbol, candles, strategies) :: rest =>
      match last candles with
      | None => scan_opportunities self rest
      | Some last_candle =>
          if (len candles <? 100)%Z then scan_opportunities self rest
          else
            let signals :=
              collect_signals strategies (BaseStrategy.close last_candle) in
            found ← evaluate self symbol signals (BaseStrategy.close last_candle);
            opportunities ← scan_opportunities self rest;
            Ok (match found with
                | Some o => o :: opportunities
                | None => opportunities
                end)
      end
  end.

(** The loop of [run] over the opportunities of one scan: [place_order] is
    called for every opportunity whose symbol is not yet in
    [active_positions], and the opportunity is then recorded there whatever
    the call returned.  Returns the new [active_positions] and the
    opportunities handed to [place_order], in order. *)
Fixpoint take_opportunities (active_positions : gmap string Opportunity)
    (opportunities : list Opportunity) : gmap string Opportunity * list Opportunity :=
  match opportunities with
  | [] => (active_positions, [])
  | opp :: rest =>
      if bool_decide (opp_symbol opp ∈ dom active_positions)
      then take_opportunities active_positions rest
      else
        let '(active_positions, placed) :=
          take_opportunities (<[opp_symbol opp := opp]> active_positions) rest in
        (active_positions, opp :: placed)
  end.

End AutoTrader.

(** ** analytics/strategies/intraday/ema_crossover.py *)

Module EmaCrossoverStrategy.
Import Py.
Local Open Scope Q_scope.

Record Signal : Type := mkSignal {
  action : string;
  price : Q
}.

Record State : Type := mkState {
  super : BaseStrategy.State;
  fast_period : Z;
  slow_period : Z;
  price_history : list Q;
  prev_fast_ema : option Q;
  prev_slow_ema : option Q
}.

(** [__init__] *)
Definition init (symbol : string) (fast_period slow_period : Z) : State :=
  {| super := BaseStrategy.init symbol "ema_crossover";
     fast_period := fast_period;
     slow_period := slow_period;
     price_history := [];
     prev_fast_ema := None;
     prev_slow_ema := None |}.

Definition set_price_history (st : State) (h : list Q) : State :=
  {| super := super st; fast_period := fast_period st; slow_period := slow_period st;
     price_history := h; prev_fast_ema := prev_fast_ema st;
     prev_slow_ema := prev_slow_ema st |}.

Definition set_super (st : State) (b : BaseStrategy.State) : State :=
  {| super := b; fast_period := fast_period st; slow_period := slow_period st;
     price_history := price_history st; prev_fast_ema := prev_fast_ema st;
     prev_slow_ema := prev_slow_ema st |}.

Definition set_prev (st : State) (fast_ema slow_ema : Q) : State :=
  {| super := super st; fast_period := fast_period st; slow_period := slow_period st;
     price_history := price_history st; prev_fast_ema := Some fast_ema;
     prev_slow_ema := Some slow_ema |}.

Definition on_candle (st : State) (candle : BaseStrategy.Candle)
    : result (State * option Signal) :=
  let close := BaseStrategy.close candle in
  let st := set_price_history st (price_history st ++ [close]) in
  let max_period := Z.max (fast_period st) (slow_period st) in
  let st :=
    if (max_period * 3 <? len (price_history st))%Z
    then set_price_history st (slice_from (- max_period * 3) (price_history st))
    else st in
  fast_ema ← BaseStrategy._calculate_ema (price_history st) (fast_period st);
  slow_ema ← BaseStrategy._calculate_ema (price_history st) (slow_period st);
  match fast_ema, slow_ema with
  | Some fast_ema, Some slow_ema =>
      match prev_fast_ema st, prev_slow_ema st with
      | Some prev_fast, Some prev_slow =>
          if truthy_num prev_fast && truthy_num prev_slow then
            if Qle_bool prev_fast prev_slow && ltb slow_ema fast_ema
            then Ok (set_prev (set_super st
                                 (BaseStrategy._handle_buy_signal (super st) candle 1))
                       fast_ema slow_ema,
                     Some {| action := "BUY"; price := close |})
            else if Qle_bool prev_slow prev_fast && ltb fast_ema slow_ema
            then Ok (set_prev (set_super st
                                 (BaseStrategy._handle_sell_signal (super st) candle 1))
                       fast_ema slow_ema,
                     Some {| action := "SELL"; price := close |})
            else Ok (set_prev st fast_ema slow_ema, None)
          else Ok (set_prev st fast_ema slow_ema, None)
      | _, _ => Ok (set_prev st fast_ema slow_ema, None)
      end
  | _, _ => Ok (st, None)
  end.

(** The candles fed one by one, keeping every value [on_candle] returns. *)
Fixpoint on_candles (st : State) (candles : list BaseStrategy.Candle)
    : result (State * list (option Signal)) :=
  match candles with
  | [] => Ok (st, [])
  | candle :: rest =>
      '(st, signal) ← on_candle st candle;
      '(st, signals) ← on_candles st rest;
      Ok (st, signal :: signals)
  end.

(** The state [on_candle] works on once the close is appended and the
    history is cut to three times the longer period. *)
Definition ema_history_step (st : State) (close : Q) : State :=
  let st1 := set_price_history st (price_history st ++ [close]) in
  if (Z.max (fast_period st1) (slow_period st1) * 3 <? len (price_history st1))%Z
  then set_price_history st1
         (slice_from (- Z.max (fast_period st1) (slow_period st1) * 3) (price_history st1))
  else st1.

#[export] Instance strategy : Strategy State :=
  Build_Strategy State super
    (fun st candle => '(st, _) ← on_candle st candle; Ok st).

End EmaCrossoverStrategy.

(** ** analytics/strategies/intraday/swing_trend.py *)

Module SwingTrendStrategy.
Import Py.
Local Open Scope Q_scope.

Record Signal : Type := mkSignal {
  action : string;
  price : Q;
  rsi : Q;
  ma : Q
}.

Record State : Type := mkState {
  super : BaseStrategy.State;
  rsi_period : Z;
  ma_period : Z;
  price_history : list Q
}.

(** [__init__] *)
Definition init (symbol : string) (rsi_period ma_period : Z) : State :=
  {| super := BaseStrategy.init symbol "swing_trend";
     rsi_period := rsi_period;
     ma_period := ma_period;
     price_history := [] |}.

Definition set_price_history (st : State) (h : list Q) : State :=
  {| super := super st; rsi_period := rsi_period st; ma_period := ma_period st;
     price_history := h |}.

Definition set_super (st : State) (b : BaseStrategy.State) : State :=
  {| super := b; rsi_period := rsi_period st; ma_period := ma_period st;
     price_history := price_history st |}.

(** [prices[i] - prices[i-1]] for [i] from 1. *)
Fixpoint diffs (prices : list Q) : list Q :=
  match prices with
  | a :: (b :: _) as rest => (b - a) :: diffs rest
  | _ => []
  end.

Definition gains (prices : list Q) : list Q :=
  map (fun diff => if ltb 0 diff then diff else 0) (diffs prices).

Definition losses (prices : list Q) : list Q :=
  map (fun diff => if ltb 0 diff then 0 else Qabs diff) (diffs prices).

Definition calculate_rsi (prices : list Q) (period : Z) : result Q :=
  if (len prices <? period + 1)%Z then Ok 50
  else
    avg_gain ← div (sum (slice_from (- period) (gains prices))) (inject_Z period);
    avg_loss ← div (sum (slice_from (- period) (losses prices))) (inject_Z period);
    if Qeq_bool avg_loss 0 then Ok 100
    else
      rs ← div avg_gain avg_loss;
      r ← div 100 (1 + rs);
      Ok (100 - r).

Definition calculate_ma (prices : list Q) (period : Z) : result Q :=
  if (len prices <? period)%Z then Ok (default 0 (last prices))
  else div (sum (slice_from (- period) prices)) (inject_Z period).

Definition on_candle (st : State) (candle : BaseStrategy.Candle)
    : result (State * option Signal) :=
  let close := BaseStrategy.close candle in
  let st := set_price_history st (price_history st ++ [close]) in
  let st :=
    if (200 <? len (price_history st))%Z
    then set_price_history st (slice_from (-200) (price_history st))
    else st in
  rsi ← calculate_rsi (price_history st) (rsi_period st);
  ma ← calculate_ma (price_history st) (ma_period st);
  match BaseStrategy.position (super st) with
  | None =>
      if ltb rsi 30 && ltb ma close
      then Ok (set_super st (BaseStrategy._handle_buy_signal (super st) candle 1),
               Some {| action := "BUY"; price := close; rsi := rsi; ma := ma |})
      else Ok (st, None)
  | Some _ =>
      if ltb 70 rsi || ltb close ma
      then Ok (set_super st (BaseStrategy._handle_sell_signal (super st) candle 1),
               Some {| action := "SELL"; price := close; rsi := rsi; ma := ma |})
      else Ok (st, None)
  end.

(** The candles fed one by one, keeping every value [on_candle] returns. *)
Fixpoint on_candles (st : State) (candles : list BaseStrategy.Candle)
    : result (State * list (option Signal)) :=
  match candles with
  | [] => Ok (st, [])
  | candle :: rest =>
      '(st, signal) ← on_candle st candle;
      '(st, signals) ← on_candles st rest;
      Ok (st, signal :: signals)
  end.

(** The closes never go down from one candle to the next. *)
Fixpoint nondecreasing (prices : list Q) : Prop :=
  match prices with
  | a :: (b :: _) as rest => a <= b /\ nondecreasing rest
  | _ => True
  end.

#[export] Instance strategy : Strategy State :=
  Build_Strategy State super
    (fun st candle => '(st, _) ← on_candle st candle; Ok st).

End SwingTrendStrategy.

(** ** scripts/realtime_trading_engine.py: the strategy objects and their votes *)

Module RealtimeStrategies.
Import Py.

(** A strategy object of [self.strategies[symbol]]: an instance of one of
    the three classes [__init__] constructs for every symbol. *)
Inductive StrategyObject : Type :=
| EmaCrossover (st : EmaCrossoverStrategy.State)
| SwingTrend (st : SwingTrendStrategy.State)
| ScalpingMeanReversion (st : ScalpingMeanReversionStrategy.State).

Definition class_name (o : StrategyObject) : string :=
  match o with
  | EmaCrossover _ => "EmaCrossoverStrategy"
  | SwingTrend _ => "SwingTrendStrategy"
  | ScalpingMeanReversion _ => "ScalpingMeanReversionStrategy"
  end.

(** The base-class part of the object. *)
Definition base (o : StrategyObject) : BaseStrategy.State :=
  match o with
  | EmaCrossover st => EmaCrossoverStrategy.super st
  | SwingTrend st => SwingTrendStrategy.super st
  | ScalpingMeanReversion st => ScalpingMeanReversionStrategy.super st
  end.

(** The names defined on a strategy object, besides those every Python
    object has: the instance attributes [BaseStrategy.__init__] and the
    class's own [__init__] assign (the methods assign to these names
    only), and the methods of the class and of [BaseStrategy]. *)
Definition attributes (o : StrategyObject) : list string :=
  ["symbol"; "name"; "position"; "trades";
   "generate_signals"; "on_candle"; "_calculate_ema"; "_calculate_sma";
   "_handle_buy_signal"; "_handle_sell_signal"; "_close_position"; "get_stats"]
  ++ match o with
     | EmaCrossover _ =>
         ["fast_period"; "slow_period"; "price_history"; "prev_fast_ema";
          "prev_slow_ema"]
     | SwingTrend _ =>
         ["rsi_period"; "ma_period"; "price_history"; "calculate_rsi"; "calculate_ma"]
     | ScalpingMeanReversion _ =>
         ["bb_period"; "bb_std"; "price_history"; "calculate_bollinger_bands"]
     end.

(** [hasattr(strategy, name)] *)
Definition hasattr (o : StrategyObject) (name : string) : bool :=
  bool_decide (name ∈ attributes o).

(** What [check_consensus] reads from one strategy: [None] when the object
    has no attribute [current_signal]; when it has one, the action of the
    signal it holds, and none of the attributes above holds a signal. *)
Definition current_signal (o : StrategyObject) : option (option string) :=
  if hasattr o "current_signal" then Some None else None.

(** [check_consensus] over the strategy objects of the symbol: the action
    handed to [execute_trade], if any. *)
Definition check_consensus (active_positions : gset string) (symbol : string)
    (strategies : list StrategyObject) : option string :=
  RealtimeTradingEngine.check_consensus active_positions symbol
    (map current_signal strategies).

(** The rows [AutoTrader.scan_opportunities] builds from the same objects. *)
Definition rows (strategies : list StrategyObject)
    : list (string * BaseStrategy.State) :=
  map (fun o => (class_name o, base o)) strategies.

End RealtimeStrategies.

(** ** analytics/paper_trading/engine.py *)

Module PaperTradingEngine.
Import Py.
Local Open Scope Q_scope.

(** The body of the polling loop of [start] for the candles one fetch
    returned: the risk manager after it, and the strategy after it or the
    exception its [on_candle] raised (which the loop catches and logs). *)
Definition poll_once {S : Type} `{Strategy S} (strategy : S) (rm : RiskManager.State)
    (symbol : string) (candles : list BaseStrategy.Candle)
    : RiskManager.State * result S :=
  match last candles with
  | None => (rm, Ok strategy)
  | Some latest =>
      if RiskManager.check_stop_loss rm symbol (BaseStrategy.close latest)
      then ((RiskManager.close_position rm symbol (BaseStrategy.close latest)).1,
            on_candle strategy latest)
      else if RiskManager.check_take_profit rm symbol (BaseStrategy.close latest)
      then ((RiskManager.close_position rm symbol (BaseStrategy.close latest)).1,
            on_candle strategy latest)
      else (rm, on_candle strategy latest)
  end.

(** The figures [stop] logs. *)
Record Summary : Type := mkSummary {
  total_trades : Q;
  winning_trades : Q;
  losing_trades : Q;
  win_rate : Q;
  total_pnl : Q;
  final_capital : Q;
  return_pct : Q
}.

Definition stop (rm : RiskManager.State) : result Summary :=
  stats ← RiskManager.get_stats rm;
  let final_capital := get stats "final_capital" (RiskManager.current_capital rm) in
  let initial_capital := RiskManager.initial_capital rm in
  r ← div (final_capital - initial_capital) initial_capital;
  let return_pct := r * 100 in
  Ok {| total_trades := get stats "total_trades" 0;
        winning_trades := get stats "winning_trades" 0;
        losing_trades := get stats "losing_trades" 0;
        win_rate := get stats "win_rate" 0;
        total_pnl := get stats "total_pnl" 0;
        final_capital := final_capital;
        return_pct := return_pct |}.

End PaperTradingEngine.

(** ** Double-precision arithmetic

    Python's [float] is an IEEE 754 binary64 value.  [SpecFloat] is the
    standard library's executable specification of that format; the
    operations below are its instances at 53 bits of precision (round to
    nearest, ties to even), together with what Python adds to them: true
    division raises on a zero divisor, [int] raises on an infinity and on
    NaN. *)

Module Float64.
Import Py.

Definition float : Type := spec_float.
Definition prec : Z := 53.
Definition emax : Z := 1024.

Definition add : float -> float -> float := SFadd prec emax.
Definition sub : float -> float -> float := SFsub prec emax.
Definition mul : float -> float -> float := SFmul prec emax.
Definition div : float -> float -> float := SFdiv prec emax.
Definition sqrt : float -> float := SFsqrt prec emax.
Definition eqb : float -> float -> bool := SFeqb.
Definition ltb : float -> float -> bool := SFltb.
Definition leb : float -> float -> bool := SFleb.

Definition zero : float := S754_zero false.

(** [float(z)] for an integer [z]. *)
Definition of_int (z : Z) : float := binary_normalize prec emax z 0 false.

(** The double a decimal literal denotes: the quotient of its numerator
    and denominator, rounded once. *)
Definition literal (q : Q) : float :=
  match Qnum q with
  | Z0 => zero
  | Zpos n => SFdiv prec emax (S754_finite false n 0) (S754_finite false (Qden q) 0)
  | Zneg n => SFdiv prec emax (S754_finite true n 0) (S754_finite false (Qden q) 0)
  end.

Definition is_zero (x : float) : bool :=
  match x with
  | S754_zero _ => true
  | _ => false
  end.

Definition is_nan (x : float) : bool :=
  match x with
  | S754_nan => true
  | _ => false
  end.

Definition is_finite (x : float) : bool :=
  match x with
  | S754_zero _ | S754_finite _ _ _ => true
  | _ => false
  end.

(** The exact value of a finite double. *)
Definition to_Q (x : float) : Q :=
  match x with
  | S754_finite s m e =>
      let v := (inject_Z (Zpos m) * 2 ^ e)%Q in
      if s then (- v)%Q else v
  | _ => 0%Q
  end.

(** [a / b] *)
Definition truediv (a b : float) : result float :=
  if is_zero b then Raise ZeroDivisionError else Ok (div a b).

(** [int(x)] *)
Definition int (x : float) : result Z :=
  match x with
  | S754_nan => Raise ValueError
  | S754_infinity _ => Raise OverflowError
  | _ => Ok (Py.int (to_Q x))
  end.

(** [sum(l)]: the items are added from left to right, starting from 0, each
    addition rounded (the accumulation of the built-in up to Python 3.11;
    later versions carry a correction term along). *)
Definition sum (l : list float) : float := fold_left add l zero.

(** Truthiness: only the two zeros are falsy. *)
Definition truthy (x : float) : bool := negb (is_zero x).

(** [x ** y] for the two exponents the strategies use: the square as the
    rounded product and the power 0.5 as the rounded square root. *)
Definition pow (x y : float) : float :=
  if eqb y (of_int 2) then mul x x
  else if eqb y (literal (5 # 10)) then sqrt x
  else S754_nan.

End Float64.

(** ** The code on doubles *)

Module InDoubles.

(** *** analytics/risk/manager.py *)

Module RiskManager.
Import Py Float64.

(** The numeric attributes of the risk manager. *)
Record State : Type := mkState {
  initial_capital : float;
  current_capital : float;
  max_risk_per_trade : float;
  max_portfolio_risk : float;
  stop_loss_pct : float;
  take_profit_pct : float
}.

(** [__init__] *)
Definition init (initial_capital max_risk_per_trade max_portfolio_risk
                 stop_loss_pct take_profit_pct : float) : State :=
  {| initial_capital := initial_capital;
     current_capital := initial_capital;
     max_risk_per_trade := max_risk_per_trade;
     max_portfolio_risk := max_portfolio_risk;
     stop_loss_pct := stop_loss_pct;
     take_profit_pct := take_profit_pct |}.

Definition calculate_position_size (self : State) (entry_price : float) : result Z :=
  let risk_amount := mul (current_capital self) (max_risk_per_trade self) in
  let stop_loss_distance := mul entry_price (stop_loss_pct self) in
  if eqb stop_loss_distance (of_int 0) then Ok 1%Z
  else
    q ← truediv risk_amount stop_loss_distance;
    quantity ← int q;
    Ok (Z.max 1 quantity).

End RiskManager.

(** *** analytics/strategies/base_strategy.py *)

Module BaseStrategy.
Import Py Float64.

Record Candle : Type := mkCandle {
  time : Z;
  symbol : string;
  open : float;
  high : float;
  low : float;
  close : float;
  volume : Z
}.

Record Position : Type := mkPosition {
  side : string;
  entry_price : float;
  quantity : Z;
  entry_time : Z
}.

Record Trade : Type := mkTrade {
  trade_symbol : string;
  trade_side : string;
  trade_entry_price : float;
  trade_exit_price : float;
  trade_quantity : Z;
  trade_pnl : float;
  trade_entry_time : Z;
  trade_exit_time : Z
}.

Record State : Type := mkState {
  self_symbol : string;
  name : string;
  position : option Position;
  trades : list Trade
}.

(** [__init__] *)
Definition init (symbol name : string) : State :=
  {| self_symbol := symbol; name := name; position := None; trades := [] |}.

Definition set_position (st : State) (p : option Position) : State :=
  {| self_symbol := self_symbol st; name := name st;
     position := p; trades := trades st |}.

Definition set_trades (st : State) (l : list Trade) : State :=
  {| self_symbol := self_symbol st; name := name st;
     position := position st; trades := l |}.

Definition _close_position (st : State) (candle : Candle) : State :=
  match position st with
  | None => st
  | Some pos =>
      let exit_price := close candle in
      let entry_price := entry_price pos in
      let quantity := quantity pos in
      let side := side pos in
      let pnl :=
        if String.eqb side "BUY"
        then mul (sub exit_price entry_price) (of_int quantity)
        else mul (sub entry_price exit_price) (of_int quantity) in
      let trade := {| trade_symbol := self_symbol st;
                      trade_side := side;
                      trade_entry_price := entry_price;
                      trade_exit_price := exit_price;
                      trade_quantity := quantity;
                      trade_pnl := pnl;
                      trade_entry_time := entry_time pos;
                      trade_exit_time := time candle |} in
      let st := set_trades st (trades st ++ [trade]) in
      set_position st None
  end.

Definition _handle_buy_signal (st : State) (candle : Candle) (quantity : Z) : State :=
  let open_long (st : State) :=
    set_position st (Some {| side := "BUY";
                             entry_price := close candle;
                             quantity := quantity;
                             entry_time := time candle |}) in
  match position st with
  | Some pos =>
      if String.eqb (side pos) "SELL"
      then open_long (_close_position st candle)
      else st
  | None => open_long st
  end.

Definition _handle_sell_signal (st : State) (candle : Candle) (quantity : Z) : State :=
  let open_short (st : State) :=
    set_position st (Some {| side := "SELL";
                             entry_price := close candle;
                             quantity := quantity;
                             entry_time := time candle |}) in
  match position st with
  | Some pos =>
      if String.eqb (side pos) "BUY"
      then open_short (_close_position st candle)
      else st
  | None => open_short st
  end.

End BaseStrategy.

(** *** analytics/strategies/intraday/scalping_mean_reversion.py *)

Module ScalpingMeanReversionStrategy.
Import Py Float64.

Record Signal : Type := mkSignal {
  action : string;
  price : float;
  upper : float;
  middle : float;
  lower : float
}.

Record State : Type := mkState {
  super : BaseStrategy.State;
  bb_period : Z;
  bb_std : float;
  price_history : list float
}.

(** [__init__] *)
Definition init (symbol : string) (bb_period : Z) (bb_std : float) : State :=
  {| super := BaseStrategy.init symbol "scalping_mean_reversion";
     bb_period := bb_period;
     bb_std := bb_std;
     price_history := [] |}.

Definition set_super (st : State) (b : BaseStrategy.State) : State :=
  {| super := b; bb_period := bb_period st; bb_std := bb_std st;
     price_history := price_history st |}.

Definition set_price_history (st : State) (h : list float) : State :=
  {| super := super st; bb_period := bb_period st; bb_std := bb_std st;
     price_history := h |}.

Section WithPow.
(** The operator [**], taken as a parameter. *)
Variable pow : float -> float -> float.

(** Returns [None] for the source's [(None, None, None)]. *)
Definition calculate_bollinger_bands (st : State) (prices : list float)
    : result (option (float * float * float)) :=
  if (len prices <? bb_period st)%Z then Ok None
  else
    let recent := slice_from (- bb_period st) prices in
    ma ← truediv (sum recent) (of_int (len recent));
    variance ← truediv (sum (map (fun x => pow (sub x ma) (of_int 2)) recent))
                       (of_int (len recent));
    let std := pow variance (literal (5 # 10)) in
    let upper := add ma (mul (bb_std st) std) in
    let lower := sub ma (mul (bb_std st) std) in
    Ok (Some (upper, ma, lower)).

Definition on_candle (st : State) (candle : BaseStrategy.Candle)
    : result (State * option Signal) :=
  let close := BaseStrategy.close candle in
  let st := set_price_history st (price_history st ++ [close]) in
  let st :=
    if (100 <? len (price_history st))%Z
    then set_price_history st (slice_from (-100) (price_history st))
    else st in
  bands ← calculate_bollinger_bands st (price_history st);
  match bands with
  | None => Ok (st, None)
  | Some (upper, middle, lower) =>
      if negb (truthy upper) then Ok (st, None)
      else
        match BaseStrategy.position (super st) with
        | None =>
            if leb close lower
            then Ok (set_super st (BaseStrategy._handle_buy_signal (super st) candle 1),
                     Some {| action := "BUY"; price := close; upper := upper;
                             middle := middle; lower := lower |})
            else Ok (st, None)
        | Some _ =>
            if leb upper close || leb middle close
            then Ok (set_super st (BaseStrategy._handle_sell_signal (super st) candle 1),
                     Some {| action := "SELL"; price := close; upper := upper;
                             middle := middle; lower := lower |})
            else Ok (st, None)
        end
  end.

(** The candles fed one by one, keeping every value [on_candle] returns. *)
Fixpoint on_candles (st : State) (candles : list BaseStrategy.Candle)
    : result (State * list (option Signal)) :=
  match candles with
  | [] => Ok (st, [])
  | candle :: rest =>
      '(st, signal) ← on_candle st candle;
      '(st, signals) ← on_candles st rest;
      Ok (st, signal :: signals)
  end.

End WithPow.

(** The mean of a window as [calculate_bollinger_bands] takes it. *)
Definition mean (recent : list float) : result float :=
  truediv (sum recent) (of_int (len recent)).

(** What a constant series at price [p] makes [on_candle] return on the
    candle number [k] (counting from 1), as an action, when the bands of a
    full window collapse to [p]. *)
Definition constant_series_action (bb_period : Z) (p : float) (k : Z) : option string :=
  if truthy p && (bb_period <=? 100)%Z
  then (if (k <? bb_period)%Z then None
        else if (k =? bb_period)%Z then Some "BUY"
        else Some "SELL")
  else None.

(** The position a constant series at price [p] leaves after [k] candles. *)
Definition constant_series_position (bb_period : Z) (p : float) (k : Z)
    (pos : option BaseStrategy.Position) : Prop :=
  match constant_series_action bb_period p k with
  | None => pos = None
  | Some a =>
      exists q : BaseStrategy.Position,
        pos = Some q /\ BaseStrategy.side q = a
        /\ BaseStrategy.quantity q = 1%Z /\ BaseStrategy.entry_price q = p
  end.

(** The strategy state a constant series at price [p] leaves after [k]
    candles. *)
Definition constant_series_state (bb_period : Z) (p : float) (k : Z) (st : State) : Prop :=
  ScalpingMeanReversionStrategy.bb_period st = bb_period
  /\ Forall (fun x => x = p) (price_history st)
  /\ len (price_history st) = Z.min k 100
  /\ constant_series_position bb_period p k (BaseStrategy.position (super st)).

End ScalpingMeanReversionStrategy.

End InDoubles.


(** * Properties *)

(** ** Python primitives *)

Section PyFacts.
Import Py.
Local Open Scope Q_scope.

Lemma ltb_lt (a b : Q) : ltb a b = true <-> a < b.
Proof.
  unfold ltb. rewrite negb_true_iff. split.
  - intros H. apply Qnot_le_lt. intros Hle.
    apply Qle_bool_iff in Hle. congruence.
  - intros H. destruct (Qle_bool b a) eqn:E; [|reflexivity].
    apply Qle_bool_iff in E. lra.
Qed.

Lemma ltb_ge (a b : Q) : ltb a b = false <-> b <= a.
Proof.
  unfold ltb. rewrite negb_false_iff. apply Qle_bool_iff.
Qed.

Lemma div_ok (a b : Q) : ~ b == 0 -> div a b = Ok (a / b).
Proof.
  intros H. unfold div. destruct (Qeq_bool b 0) eqn:E; [|reflexivity].
  apply Qeq_bool_iff in E. contradiction.
Qed.

(** Truncation and floor differ only below zero, where both stay under 1. *)
Lemma max_one_int_floor (q : Q) : Z.max 1 (int q) = Z.max 1 (Qfloor q).
Proof.
  destruct q as [n d]. unfold int, Qfloor. simpl.
  destruct (Z_lt_le_dec n 0) as [Hneg | Hpos].
  - assert (n ÷ Zpos d <= 0)%Z.
    { rewrite <- (Z.opp_involutive n), Z.quot_opp_l by lia.
      pose proof (Z.quot_pos (- n) (Zpos d)). lia. }
    assert (n / Zpos d < 0)%Z by (apply Z.div_lt_upper_bound; lia).
    lia.
  - rewrite Z.quot_div_nonneg by lia. reflexivity.
Qed.

Lemma inject_len_nonzero {A : Type} (x : A) (l : list A) :
  ~ inject_Z (len (x :: l)) == 0.
Proof.
  unfold len, Qeq. simpl. lia.
Qed.

End PyFacts.

(** ** Risk manager *)

Section RiskManagerFacts.
Import Py RiskManager.
Local Open Scope Q_scope.

(** C1.  Closing an open position realizes the side-aware PnL
    ([(exit - entry) * quantity] for BUY, [(entry - exit) * quantity] for
    SELL), adds exactly that PnL to the capital, appends one trade and
    removes the position; BUY 10 @100 closed @110 and SELL 10 @100 closed
    @90 both realize +100 and raise the capital by 100. *)
Theorem close_position_realizes_pnl
    (rm : State) (symbol : string) (exit_price : Q) (pos : Position) :
  open_positions rm !! symbol = Some pos ->
  (exists (trade : Trade) (rm' : State),
      close_position rm symbol exit_price = (rm', Some trade)
      /\ (side pos = "BUY" ->
          trade_pnl trade = (exit_price - entry_price pos) * inject_Z (quantity pos))
      /\ (side pos = "SELL" ->
          trade_pnl trade = (entry_price pos - exit_price) * inject_Z (quantity pos))
      /\ current_capital rm' = current_capital rm + trade_pnl trade
      /\ closed_trades rm' = closed_trades rm ++ [trade]
      /\ open_positions rm' = delete symbol (open_positions rm))
  /\ (forall (rm0 : State) (s : string),
        exists (trade : Trade) (rm1 : State),
          close_position (open_position rm0 s "BUY" 100 10) s 110 = (rm1, Some trade)
          /\ trade_pnl trade == 100
          /\ current_capital rm1 == current_capital rm0 + 100)
  /\ (forall (rm0 : State) (s : string),
        exists (trade : Trade) (rm1 : State),
          close_position (open_position rm0 s "SELL" 100 10) s 90 = (rm1, Some trade)
          /\ trade_pnl trade == 100
          /\ current_capital rm1 == current_capital rm0 + 100).
Proof.
  intros Hpos. split; [|split].
  - unfold close_position. rewrite Hpos.
    eexists _, _. split; [reflexivity|]. simpl.
    unfold realized_pnl. repeat split.
    + intros ->. reflexivity.
    + intros ->. reflexivity.
  - intros rm0 s. unfold close_position, open_position. simpl.
    rewrite lookup_insert_eq. eexists _, _. split; [reflexivity|].
    simpl. split; reflexivity.
  - intros rm0 s. unfold close_position, open_position. simpl.
    rewrite lookup_insert_eq. eexists _, _. split; [reflexivity|].
    simpl. split; reflexivity.
Qed.

Lemma close_position_realizes_pnl_witness :
  let rm := open_position default "NSE:TCS-EQ" "BUY" 100 10 in
  let pos := {| side := "BUY"; entry_price := 100; quantity := 10;
                stop_loss := calculate_stop_loss default 100 "BUY";
                take_profit := calculate_take_profit default 100 "BUY" |} in
  open_positions rm !! "NSE:TCS-EQ" = Some pos
  /\ exists (trade : Trade) (rm' : State),
      close_position rm "NSE:TCS-EQ" 110 = (rm', Some trade)
      /\ trade_pnl trade = (110 - entry_price pos) * inject_Z (quantity pos)
      /\ current_capital rm' = current_capital rm + trade_pnl trade.
Proof.
  intros rm pos.
  assert (Hpos : open_positions rm !! "NSE:TCS-EQ" = Some pos)
    by (vm_compute; reflexivity).
  split; [exact Hpos|].
  destruct (close_position_realizes_pnl rm "NSE:TCS-EQ" 110 pos Hpos)
    as [(trade & rm' & Hc & Hbuy & _ & Hcap & _) _].
  exists trade, rm'. split; [exact Hc|]. split; [apply Hbuy; reflexivity|exact Hcap].
Defined.

(** C3.  [close_position] on a symbol with no open position returns no
    trade and leaves the whole state (capital, positions, closed trades)
    unchanged. *)
Theorem close_position_absent_noop
    (rm : State) (symbol : string) (exit_price : Q) :
  open_positions rm !! symbol = None ->
  close_position rm symbol exit_price = (rm, None).
Proof.
  intros Hnone. unfold close_position. rewrite Hnone. reflexivity.
Qed.

Lemma close_position_absent_noop_witness :
  open_positions default !! "NSE:INFY-EQ" = None
  /\ close_position default "NSE:INFY-EQ" 1500 = (default, None).
Proof.
  split; [reflexivity|].
  apply (close_position_absent_noop default "NSE:INFY-EQ" 1500). reflexivity.
Defined.

(** C7 as stated fails: a second [open_position] for a symbol that already
    holds BUY 10 @100 replaces the recorded position. *)
Lemma open_position_existing_counterexample :
  let rm := open_position default "NSE:TCS-EQ" "BUY" 100 10 in
  let pos := {| side := "BUY"; entry_price := 100; quantity := 10;
                stop_loss := calculate_stop_loss default 100 "BUY";
                take_profit := calculate_take_profit default 100 "BUY" |} in
  open_positions rm !! "NSE:TCS-EQ" = Some pos
  /\ open_positions (open_position rm "NSE:TCS-EQ" "SELL" 200 5) !! "NSE:TCS-EQ"
     = Some {| side := "SELL"; entry_price := 200; quantity := 5;
               stop_loss := calculate_stop_loss default 200 "SELL";
               take_profit := calculate_take_profit default 200 "SELL" |}
  /\ open_positions (open_position rm "NSE:TCS-EQ" "SELL" 200 5) !! "NSE:TCS-EQ"
     <> Some pos.
Proof.
  intros rm pos. split; [|split].
  - vm_compute. reflexivity.
  - vm_compute. reflexivity.
  - vm_compute. intros H. discriminate H.
Qed.

(** C7, amended.  [open_position] has no guard: for a symbol that already
    has an open position it overwrites the record with the new side, entry
    price, quantity, stop-loss and take-profit; every other symbol, the
    capital and the closed trades are unchanged, and the map still holds
    the same number of positions. *)
Theorem open_position_existing_overwrites
    (rm : State) (symbol side : string) (entry_price : Q) (quantity : Z)
    (pos : Position) :
  open_positions rm !! symbol = Some pos ->
  let rm' := open_position rm symbol side entry_price quantity in
  open_positions rm' !! symbol
    = Some {| RiskManager.side := side;
              RiskManager.entry_price := entry_price;
              RiskManager.quantity := quantity;
              stop_loss := calculate_stop_loss rm entry_price side;
              take_profit := calculate_take_profit rm entry_price side |}
  /\ (forall other : string, other <> symbol ->
        open_positions rm' !! other = open_positions rm !! other)
  /\ size (open_positions rm') = size (open_positions rm)
  /\ current_capital rm' = current_capital rm
  /\ closed_trades rm' = closed_trades rm.
Proof.
  intros Hpos rm'. subst rm'. unfold open_position. simpl.
  repeat split.
  - apply lookup_insert_eq.
  - intros other Hne. apply lookup_insert_ne. congruence.
  - rewrite <- (insert_delete_id (open_positions rm) symbol pos Hpos) at 2.
    rewrite <- (insert_delete_eq (open_positions rm) symbol).
    rewrite !map_size_insert_None by apply lookup_delete_eq. reflexivity.
Qed.

Lemma open_position_existing_overwrites_witness :
  let rm := open_position default "NSE:TCS-EQ" "BUY" 100 10 in
  let pos := {| side := "BUY"; entry_price := 100; quantity := 10;
                stop_loss := calculate_stop_loss default 100 "BUY";
                take_profit := calculate_take_profit default 100 "BUY" |} in
  open_positions rm !! "NSE:TCS-EQ" = Some pos
  /\ open_positions (open_position rm "NSE:TCS-EQ" "SELL" 200 5) !! "NSE:TCS-EQ"
     = Some {| side := "SELL"; entry_price := 200; quantity := 5;
               stop_loss := calculate_stop_loss rm 200 "SELL";
               take_profit := calculate_take_profit rm 200 "SELL" |}.
Proof.
  intros rm pos.
  assert (Hpos : open_positions rm !! "NSE:TCS-EQ" = Some pos)
    by (vm_compute; reflexivity).
  split; [exact Hpos|].
  exact (proj1 (open_position_existing_overwrites rm "NSE:TCS-EQ" "SELL" 200 5 pos Hpos)).
Defined.

(** Every division in [get_stats] is guarded: it never raises, whatever the
    trade history. *)
Lemma get_stats_never_raises (rm : State) : ~ raises (get_stats rm).
Proof.
  unfold get_stats. destruct (closed_trades rm) as [|t l] eqn:Hl; [simpl; tauto|].
  set (wins := filter _ (t :: l)). set (losses := filter _ (t :: l)).
  assert (Hw : exists x, match wins with
                         | [] => Ok 0
                         | _ :: _ => div (sum (map trade_pnl wins)) (inject_Z (len wins))
                         end = Ok x).
  { destruct wins as [|w ws]; [eauto|].
    rewrite div_ok by apply inject_len_nonzero. eauto. }
  assert (Hlo : exists x, match losses with
                          | [] => Ok 0
                          | _ :: _ => div (sum (map trade_pnl losses)) (inject_Z (len losses))
                          end = Ok x).
  { destruct losses as [|w ws]; [eauto|].
    rewrite div_ok by apply inject_len_nonzero. eauto. }
  assert (Hpf : exists x,
             (if ltb 0 (Qabs (sum (map trade_pnl losses)))
              then div (sum (map trade_pnl wins)) (Qabs (sum (map trade_pnl losses)))
              else Ok 0) = Ok x).
  { destruct (ltb 0 (Qabs (sum (map trade_pnl losses)))) eqn:E; [|eauto].
    apply ltb_lt in E. rewrite div_ok by lra. eauto. }
  assert (Hwr : exists x,
             (if (0 <? len (t :: l))%Z
              then r ← div (inject_Z (len wins)) (inject_Z (len (t :: l))); Ok (r * 100)
              else Ok 0) = Ok x).
  { destruct (0 <? len (t :: l))%Z; [|eauto].
    rewrite div_ok by apply inject_len_nonzero. simpl. eauto. }
  destruct Hw as [aw ->]. destruct Hlo as [al ->].
  destruct Hpf as [pf ->]. destruct Hwr as [wr ->]. simpl. tauto.
Qed.

(** With at least one closed trade the report carries the final capital. *)
Lemma get_stats_nonempty_final_capital (rm : State) :
  closed_trades rm <> [] ->
  exists stats : gmap string Q,
    get_stats rm = Ok stats /\ stats !! "final_capital" = Some (current_capital rm).
Proof.
  intros Hne. pose proof (get_stats_never_raises rm) as Hnr.
  unfold get_stats in *. destruct (closed_trades rm) as [|t l]; [congruence|].
  repeat match type of Hnr with
  | context [mbind _ ?r] =>
      let E := fresh "E" in destruct r eqn:E; simpl in Hnr |- *; [|tauto]
  end.
  eexists. split; [reflexivity|]. reflexivity.
Qed.

(** C10: the report for an empty trade history.  All eight aggregates are
    explicit zeros, but the key [final_capital] is absent, although the
    branch for a non-empty history returns it
    ([get_stats_nonempty_final_capital]). *)
Theorem get_stats_empty_lacks_final_capital (rm : State) :
  exists stats : gmap string Q,
    get_stats (set_closed_trades rm []) = Ok stats
    /\ stats !! "total_trades" = Some 0
    /\ stats !! "winning_trades" = Some 0
    /\ stats !! "losing_trades" = Some 0
    /\ stats !! "win_rate" = Some 0
    /\ stats !! "total_pnl" = Some 0
    /\ stats !! "avg_win" = Some 0
    /\ stats !! "avg_loss" = Some 0
    /\ stats !! "profit_factor" = Some 0
    /\ stats !! "final_capital" = None.
Proof.
  eexists. split; [reflexivity|]. repeat split; vm_compute; reflexivity.
Qed.

End RiskManagerFacts.

(** ** Position size on doubles *)

Section PositionSizeFacts.
Import Py Float64 InDoubles.RiskManager.

Lemma eqb_zero (x : float) : eqb x (of_int 0) = is_zero x.
Proof. destruct x as [[|]|[|]| |[|] m e]; reflexivity. Qed.

Lemma int_finite (x : float) :
  is_finite x = true -> int x = Ok (Py.int (to_Q x)).
Proof. destruct x; simpl; intros H; try discriminate; reflexivity. Qed.

Lemma int_not_finite (x : float) :
  is_finite x = false ->
  int x = Raise (if is_nan x then ValueError else OverflowError).
Proof. destruct x; simpl; intros H; try discriminate; reflexivity. Qed.

(** C8, amended.  [calculate_position_size] returns 1 without dividing
    when the stop-loss distance, the double [entry_price * stop_loss_pct],
    is zero.  Otherwise it returns [max 1 (floor q)] for the double [q]
    obtained by dividing the double [current_capital * max_risk_per_trade]
    by that distance, each operation rounded; it raises [OverflowError]
    when [q] is an infinity and [ValueError] when [q] is NaN.  A returned
    quantity is never below 1. *)
Theorem calculate_position_size_floor (self : State) (entry_price : float) :
  let stop_loss_distance := mul entry_price (stop_loss_pct self) in
  let q := div (mul (current_capital self) (max_risk_per_trade self))
               stop_loss_distance in
  calculate_position_size self entry_price
  = (if is_zero stop_loss_distance then Ok 1%Z
     else if is_finite q then Ok (Z.max 1 (Qfloor (to_Q q)))
     else if is_nan q then Raise ValueError
     else Raise OverflowError)
  /\ forall quantity : Z,
       calculate_position_size self entry_price = Ok quantity -> (1 <= quantity)%Z.
Proof.
  intros stop_loss_distance q. unfold calculate_position_size.
  fold stop_loss_distance. rewrite eqb_zero. unfold truediv.
  destruct (is_zero stop_loss_distance) eqn:Ez.
  - split; [reflexivity|]. intros quantity [= <-]. lia.
  - cbn [mbind result_bind bind]. fold q.
    destruct (is_finite q) eqn:Ef.
    + rewrite (int_finite q Ef). cbn [mbind result_bind bind].
      rewrite max_one_int_floor. split; [reflexivity|].
      intros quantity [= <-]. lia.
    + rewrite (int_not_finite q Ef). cbn [mbind result_bind bind].
      split; [destruct (is_nan q); reflexivity|]. discriminate.
Qed.

(** C8 as stated fails.  With capital 1000, 3% risk per trade, a 5% stop
    and entry price 3.0 the code returns 199: the products are 30.0 and
    0.15000000000000002, and their quotient rounds to
    199.99999999999997.  The formula of the claim gives
    [floor (1000 * 0.03 / (3 * 0.05)) = 200]. *)
Lemma calculate_position_size_counterexample :
  let self := init (literal 1000) (literal (3 # 100)) (literal (6 # 100))
                (literal (5 # 100)) (literal (4 # 100)) in
  calculate_position_size self (literal 3) = Ok 199%Z
  /\ mul (current_capital self) (max_risk_per_trade self) = literal 30
  /\ mul (literal 3) (stop_loss_pct self) = literal (15000000000000002 # 10 ^ 17)
  /\ div (literal 30) (literal (15000000000000002 # 10 ^ 17))
     = literal (19999999999999997 # 10 ^ 14)
  /\ Z.max 1 (Qfloor (1000 * (3 # 100) / (3 * (5 # 100)))) = 200%Z.
Proof. repeat split; vm_compute; reflexivity. Qed.

(** The call can raise for a non-negative entry price: with the default
    settings and the subnormal entry price 1e-320 the distance is not
    zero and the quotient overflows. *)
Lemma calculate_position_size_overflow :
  let self := init (literal 100000) (literal (2 # 100)) (literal (6 # 100))
                (literal (2 # 100)) (literal (4 # 100)) in
  let entry_price := literal (1 # 10 ^ 320) in
  ltb zero entry_price = true
  /\ calculate_position_size self entry_price = Raise OverflowError.
Proof. split; vm_compute; reflexivity. Qed.

End PositionSizeFacts.

(** ** One open position per owner and symbol *)

Section OnePositionFacts.
Import Py.
Local Open Scope Q_scope.

Lemma filter_key_length {V : Type} (k : string) (l : list (string * V)) :
  NoDup l.*1 -> (length (filter (fun kv => kv.1 = k) l) <= 1)%nat.
Proof.
  induction l as [|[k' v] l IH]; simpl; [lia|].
  intros Hnd. apply NoDup_cons in Hnd as [Hnotin Hnd].
  rewrite filter_cons. simpl. destruct (decide (k' = k)) as [->|Hne].
  - assert (Hnil : filter (fun kv : string * V => kv.1 = k) l = []).
    { destruct (filter (fun kv : string * V => kv.1 = k) l) as [|[k2 v2] r] eqn:E;
        [reflexivity|].
      assert (Hin : (k2, v2) ∈ filter (fun kv : string * V => kv.1 = k) l)
        by (rewrite E; left).
      apply list_elem_of_filter in Hin as [Heq Hin]. simpl in Heq. subst k2.
      exfalso. apply Hnotin. apply list_elem_of_fmap. exists (k, v2).
      split; [reflexivity|exact Hin]. }
    rewrite Hnil. simpl. lia.
  - apply IH, Hnd.
Qed.

Lemma risk_open_count_le_1 (rm : RiskManager.State) (symbol : string) :
  (RiskManager.open_count rm symbol <= 1)%nat.
Proof.
  unfold RiskManager.open_count. apply filter_key_length, NoDup_fst_map_to_list.
Qed.

Lemma strategy_open_count_le_1 (st : BaseStrategy.State) :
  (BaseStrategy.open_count st <= 1)%nat.
Proof.
  unfold BaseStrategy.open_count. destruct (BaseStrategy.position st); lia.
Qed.

(** C2.  Each owner holds at most one open position per symbol after every
    operation.  For a strategy engine: a same-side open leaves the engine
    unchanged, and an opposite-side open appends exactly one closing trade
    (PnL realized against the candle's close) and then holds the new
    position only.  For the risk manager: after [open_position] and after
    [close_position] the map holds at most one position per symbol. *)
Theorem one_open_position_per_owner :
  (forall (st : BaseStrategy.State) (candle : BaseStrategy.Candle) (quantity : Z),
      (BaseStrategy.open_count (BaseStrategy._handle_buy_signal st candle quantity) <= 1)%nat
      /\ (BaseStrategy.open_count (BaseStrategy._handle_sell_signal st candle quantity) <= 1)%nat
      /\ (BaseStrategy.open_count (BaseStrategy._close_position st candle) = 0)%nat)
  /\ (forall (st : BaseStrategy.State) (candle : BaseStrategy.Candle) (quantity : Z)
             (pos : BaseStrategy.Position),
        BaseStrategy.position st = Some pos ->
        (BaseStrategy.side pos = "BUY" ->
           BaseStrategy._handle_buy_signal st candle quantity = st)
        /\ (BaseStrategy.side pos = "SELL" ->
            BaseStrategy._handle_sell_signal st candle quantity = st)
        /\ (BaseStrategy.side pos = "SELL" ->
            let st' := BaseStrategy._handle_buy_signal st candle quantity in
            (exists trade : BaseStrategy.Trade,
                BaseStrategy.trades st' = BaseStrategy.trades st ++ [trade]
                /\ BaseStrategy.trade_side trade = "SELL"
                /\ BaseStrategy.trade_exit_price trade = BaseStrategy.close candle
                /\ BaseStrategy.trade_pnl trade
                   = (BaseStrategy.entry_price pos - BaseStrategy.close candle)
                     * inject_Z (BaseStrategy.quantity pos))
            /\ BaseStrategy.position st'
               = Some {| BaseStrategy.side := "BUY";
                         BaseStrategy.entry_price := BaseStrategy.close candle;
                         BaseStrategy.quantity := quantity;
                         BaseStrategy.entry_time := BaseStrategy.time candle |})
        /\ (BaseStrategy.side pos = "BUY" ->
            let st' := BaseStrategy._handle_sell_signal st candle quantity in
            (exists trade : BaseStrategy.Trade,
                BaseStrategy.trades st' = BaseStrategy.trades st ++ [trade]
                /\ BaseStrategy.trade_side trade = "BUY"
                /\ BaseStrategy.trade_exit_price trade = BaseStrategy.close candle
                /\ BaseStrategy.trade_pnl trade
                   = (BaseStrategy.close candle - BaseStrategy.entry_price pos)
                     * inject_Z (BaseStrategy.quantity pos))
            /\ BaseStrategy.position st'
               = Some {| BaseStrategy.side := "SELL";
                         BaseStrategy.entry_price := BaseStrategy.close candle;
                         BaseStrategy.quantity := quantity;
                         BaseStrategy.entry_time := BaseStrategy.time candle |}))
  /\ (forall (rm : RiskManager.State) (symbol other side : string)
             (price : Q) (quantity : Z),
        (RiskManager.open_count
           (RiskManager.open_position rm symbol side price quantity) other <= 1)%nat
        /\ (RiskManager.open_count
              (RiskManager.close_position rm symbol price).1 other <= 1)%nat
        /\ RiskManager.open_positions
             (RiskManager.close_position rm symbol price).1 !! symbol = None).
Proof.
  split; [|split].
  - intros st candle quantity. repeat split.
    + apply strategy_open_count_le_1.
    + apply strategy_open_count_le_1.
    + unfold BaseStrategy._close_position, BaseStrategy.open_count.
      destruct (BaseStrategy.position st) eqn:E; simpl; [reflexivity|].
      now rewrite E.
  - intros st candle quantity pos Hpos.
    unfold BaseStrategy._handle_buy_signal, BaseStrategy._handle_sell_signal,
      BaseStrategy._close_position.
    rewrite Hpos. split; [|split; [|split]]; intros Hside; rewrite Hside; simpl.
    + reflexivity.
    + reflexivity.
    + split; [|reflexivity]. eexists. split; [reflexivity|]. simpl. auto.
    + split; [|reflexivity]. eexists. split; [reflexivity|]. simpl. auto.
  - intros rm symbol other side price quantity. repeat split.
    + apply risk_open_count_le_1.
    + apply risk_open_count_le_1.
    + unfold RiskManager.close_position.
      destruct (RiskManager.open_positions rm !! symbol) eqn:E; simpl.
      * apply lookup_delete_eq.
      * exact E.
Qed.

End OnePositionFacts.

(** ** Mean reversion on a constant price series *)

Section SumFacts.
Import Py.
Local Open Scope Q_scope.

Lemma inject_len_cons {A : Type} (x : A) (l : list A) :
  inject_Z (len (x :: l)) == inject_Z (len l) + 1.
Proof.
  unfold len. simpl length. rewrite Nat2Z.inj_succ, <- Z.add_1_r.
  rewrite inject_Z_plus. reflexivity.
Qed.

Lemma fold_sum_constant (p : Q) (l : list Q) (a : Q) :
  Forall (fun x => x == p) l ->
  fold_left Qplus l a == a + inject_Z (len l) * p.
Proof.
  revert a. induction l as [|x l IH]; intros a Hall.
  - unfold len. simpl. ring.
  - apply Forall_cons in Hall as [Hx Hall]. simpl fold_left.
    rewrite (IH _ Hall), inject_len_cons, Hx. ring.
Qed.

Lemma sum_constant (p : Q) (l : list Q) :
  Forall (fun x => x == p) l -> sum l == inject_Z (len l) * p.
Proof.
  intros Hall. unfold sum. rewrite (fold_sum_constant p l 0 Hall). ring.
Qed.

Lemma len_app_one {A : Type} (l : list A) (x : A) : len (l ++ [x]) = (len l + 1)%Z.
Proof. unfold len. rewrite length_app. simpl. lia. Qed.

Lemma slice_from_neg_length {A : Type} (n : Z) (l : list A) :
  (1 <= n <= len l)%Z -> len (slice_from (- n) l) = n.
Proof.
  intros Hn. unfold slice_from.
  destruct (- n <? 0)%Z eqn:E; [|apply Z.ltb_ge in E; lia].
  unfold len in *. rewrite length_drop. lia.
Qed.

Lemma slice_from_Forall {A : Type} (P : A -> Prop) (i : Z) (l : list A) :
  Forall P l -> Forall P (slice_from i l).
Proof.
  intros H. unfold slice_from. destruct (i <? 0)%Z; apply Forall_drop, H.
Qed.

End SumFacts.

Section DoubleFacts.
Import Py Float64.

Lemma sub_diag (x : float) : is_finite x = true -> sub x x = zero.
Proof.
  destruct x as [[|]|s| |s m e]; intros H; try discriminate; try reflexivity.
  unfold sub, SFsub. rewrite Z.sub_diag. reflexivity.
Qed.

Lemma leb_refl (s : bool) (m : positive) (e : Z) :
  leb (S754_finite s m e) (S754_finite s m e) = true.
Proof.
  unfold leb, SFleb, SFcompare.
  destruct s; rewrite Z.compare_refl, Pos.compare_cont_refl; reflexivity.
Qed.

Lemma add_zero_r (s b : bool) (m : positive) (e : Z) :
  add (S754_finite s m e) (S754_zero b) = S754_finite s m e.
Proof. reflexivity. Qed.

Lemma sub_zero_r (s b : bool) (m : positive) (e : Z) :
  sub (S754_finite s m e) (S754_zero b) = S754_finite s m e.
Proof. reflexivity. Qed.

Lemma mul_zero_r (x : float) :
  is_finite x = true -> is_zero (mul x zero) = true.
Proof. destruct x as [[|]|s| |[|] m e]; intros H; try discriminate; reflexivity. Qed.

Lemma sum_zeros (n : nat) : sum (replicate n zero) = zero.
Proof.
  unfold sum. induction n as [|n IH]; [reflexivity|]. exact IH.
Qed.

(** The lengths of the windows the strategy keeps (at most 100 prices)
    convert to positive doubles. *)
Lemma of_int_small (n : Z) :
  (1 <= n <= 100)%Z -> exists (m : positive) (e : Z), of_int n = S754_finite false m e.
Proof.
  intros Hn.
  assert (H : forallb (fun k => match of_int (Z.of_nat k) with
                                | S754_finite false _ _ => true
                                | _ => false
                                end) (seq 1 100) = true) by (vm_compute; reflexivity).
  rewrite forallb_forall in H. specialize (H (Z.to_nat n)).
  rewrite Z2Nat.id in H by lia.
  destruct (of_int n) as [?|?| |[|] m e]; try (discriminate H; apply in_seq; lia).
  eauto.
Qed.

Lemma Forall_eq_replicate {A : Type} (x : A) (l : list A) :
  Forall (fun y => y = x) l -> l = replicate (length l) x.
Proof.
  induction 1 as [|y l Hy Hl IH]; [reflexivity|]. simpl. congruence.
Qed.

End DoubleFacts.

Section ConstantSeries.
Import Py Float64 InDoubles.ScalpingMeanReversionStrategy.

Variable pow : float -> float -> float.
Hypothesis pow_zero_two : pow zero (of_int 2) = zero.
Hypothesis pow_zero_half : pow zero (literal (5 # 10)) = zero.

(** On a history of prices all equal to [p] the bands are those of a
    window of [bb_period] copies of [p]. *)
Lemma bands_of_window (st : State) (p : float) (prices : list float) :
  (1 <= bb_period st <= len prices)%Z ->
  Forall (fun x => x = p) prices ->
  calculate_bollinger_bands pow st prices
  = calculate_bollinger_bands pow st (replicate (Z.to_nat (bb_period st)) p).
Proof.
  intros Hbb Hall.
  assert (Hrec : slice_from (- bb_period st) prices
                 = replicate (Z.to_nat (bb_period st)) p).
  { rewrite (Forall_eq_replicate p (slice_from (- bb_period st) prices))
      by (apply slice_from_Forall, Hall).
    f_equal. pose proof (slice_from_neg_length (bb_period st) prices Hbb) as H.
    unfold len in H. lia. }
  assert (Hlen : len (replicate (Z.to_nat (bb_period st)) p) = bb_period st).
  { unfold len. rewrite length_replicate. lia. }
  assert (Hrec' : slice_from (- bb_period st) (replicate (Z.to_nat (bb_period st)) p)
                  = replicate (Z.to_nat (bb_period st)) p).
  { unfold slice_from. destruct (- bb_period st <? 0)%Z eqn:E;
      [|apply Z.ltb_ge in E; lia].
    rewrite Hlen. replace (Z.to_nat (Z.max 0 (bb_period st + - bb_period st))) with 0%nat
      by lia. reflexivity. }
  unfold calculate_bollinger_bands. rewrite Hrec, Hrec', Hlen.
  destruct (len prices <? bb_period st)%Z eqn:E1; [apply Z.ltb_lt in E1; lia|].
  destruct (bb_period st <? bb_period st)%Z eqn:E2; [apply Z.ltb_lt in E2; lia|].
  reflexivity.
Qed.

(** When the mean of the window is [p] itself, the deviations, the
    variance and the band offsets are zero: the bands collapse to [p]. *)
Lemma bands_collapse (st : State) (p : float) :
  (1 <= bb_period st <= 100)%Z ->
  is_finite p = true -> is_finite (bb_std st) = true ->
  mean (replicate (Z.to_nat (bb_period st)) p) = Ok p ->
  exists u l : float,
    calculate_bollinger_bands pow st (replicate (Z.to_nat (bb_period st)) p)
    = Ok (Some (u, p, l))
    /\ (truthy p = true -> u = p /\ l = p)
    /\ (truthy p = false -> truthy u = false).
Proof.
  intros Hbb Hp Hstd Hmean.
  assert (Hlen : len (replicate (Z.to_nat (bb_period st)) p) = bb_period st).
  { unfold len. rewrite length_replicate. lia. }
  assert (Hrec' : slice_from (- bb_period st) (replicate (Z.to_nat (bb_period st)) p)
                  = replicate (Z.to_nat (bb_period st)) p).
  { unfold slice_from. destruct (- bb_period st <? 0)%Z eqn:E;
      [|apply Z.ltb_ge in E; lia].
    rewrite Hlen. replace (Z.to_nat (Z.max 0 (bb_period st + - bb_period st))) with 0%nat
      by lia. reflexivity. }
  unfold calculate_bollinger_bands. rewrite Hrec', Hlen.
  destruct (bb_period st <? bb_period st)%Z eqn:E; [apply Z.ltb_lt in E; lia|].
  unfold mean in Hmean. rewrite Hlen in Hmean. rewrite Hmean.
  cbn [mbind result_bind bind].
  assert (Hdev : map (fun x => pow (sub x p) (of_int 2))
                   (replicate (Z.to_nat (bb_period st)) p)
                 = replicate (Z.to_nat (bb_period st)) zero).
  { generalize (Z.to_nat (bb_period st)). intros n.
    induction n as [|n IH]; [reflexivity|].
    change (replicate (S n) p) with (p :: replicate n p).
    rewrite map_cons, IH, (sub_diag p Hp), pow_zero_two. reflexivity. }
  rewrite Hdev, sum_zeros.
  destruct (of_int_small (bb_period st) Hbb) as (m & e & Hn). rewrite Hn.
  unfold truediv. cbn [is_zero mbind result_bind bind].
  change (div zero (S754_finite false m e)) with zero.
  rewrite pow_zero_half.
  pose proof (mul_zero_r (bb_std st) Hstd) as Hw.
  destruct (mul (bb_std st) zero) as [b| | |]; try discriminate Hw.
  eexists _, _. split; [reflexivity|].
  destruct p as [sp| | |sp mp ep]; try discriminate Hp.
  - split; [discriminate|]. intros _. destruct sp, b; reflexivity.
  - split; [|discriminate]. intros _. split; reflexivity.
Qed.

Lemma constant_history_step (p : float) (k : Z) (h : list float) (c : float) :
  (0 <= k)%Z ->
  Forall (fun x => x = p) h -> len h = Z.min k 100 -> c = p ->
  let h1 := h ++ [c] in
  let h2 := if (100 <? len h1)%Z then slice_from (-100) h1 else h1 in
  Forall (fun x => x = p) h2 /\ len h2 = Z.min (k + 1) 100.
Proof.
  intros Hk Hall Hlen Hc h1 h2.
  assert (Hall1 : Forall (fun x => x = p) h1).
  { apply Forall_app. split; [exact Hall|]. constructor; [exact Hc|constructor]. }
  assert (Hlen1 : len h1 = (Z.min k 100 + 1)%Z).
  { unfold h1. rewrite len_app_one. lia. }
  subst h2. destruct (100 <? len h1)%Z eqn:E.
  - apply Z.ltb_lt in E. split; [apply slice_from_Forall, Hall1|].
    rewrite (slice_from_neg_length 100) by lia. lia.
  - apply Z.ltb_ge in E. split; [exact Hall1|]. lia.
Qed.

Lemma action_inactive (bb : Z) (p : float) (k : Z) :
  truthy p = false \/ (100 < bb)%Z -> constant_series_action bb p k = None.
Proof.
  intros H. unfold constant_series_action.
  destruct (truthy p) eqn:Ep; [|reflexivity].
  destruct (bb <=? 100)%Z eqn:Eb; [|reflexivity].
  apply Z.leb_le in Eb. destruct H as [H|H]; [discriminate|lia].
Qed.

Lemma action_active (bb : Z) (p : float) (k : Z) :
  truthy p = true -> (bb <= 100)%Z ->
  constant_series_action bb p k
  = if (k <? bb)%Z then None else if (k =? bb)%Z then Some "BUY" else Some "SELL".
Proof.
  intros Hp Hb. unfold constant_series_action.
  apply Z.leb_le in Hb. rewrite Hp, Hb. reflexivity.
Qed.

Lemma constant_step (bb : Z) (std p : float) (k : Z) (st : State)
    (candle : InDoubles.BaseStrategy.Candle) :
  (1 <= bb)%Z -> (0 <= k)%Z ->
  is_finite p = true -> is_finite std = true ->
  ((bb <= 100)%Z -> mean (replicate (Z.to_nat bb) p) = Ok p) ->
  bb_std st = std ->
  constant_series_state bb p k st ->
  InDoubles.BaseStrategy.close candle = p ->
  exists (st' : State) (sig : option Signal),
    on_candle pow st candle = Ok (st', sig)
    /\ bb_std st' = std
    /\ constant_series_state bb p (k + 1) st'
    /\ option_map action sig = constant_series_action bb p (k + 1)
    /\ (forall s : Signal, sig = Some s ->
          upper s = p /\ middle s = p /\ lower s = p).
Proof.
  intros Hbb Hk Hfin Hsfin Hmean Hstd (Hbbp & Hall & Hlen & Hpos) Hc.
  destruct (constant_history_step p k (price_history st) (InDoubles.BaseStrategy.close candle)
              Hk Hall Hlen Hc) as [Hall2 Hlen2].
  unfold on_candle. cbv zeta.
  set (st1 := set_price_history st (price_history st ++ [InDoubles.BaseStrategy.close candle])).
  set (st2 := if (100 <? len (price_history st1))%Z
              then set_price_history st1 (slice_from (-100) (price_history st1))
              else st1).
  assert (Hh2 : price_history st2
                = if (100 <? len (price_history st ++ [InDoubles.BaseStrategy.close candle]))%Z
                  then slice_from (-100) (price_history st ++ [InDoubles.BaseStrategy.close candle])
                  else price_history st ++ [InDoubles.BaseStrategy.close candle]).
  { unfold st2, st1. simpl. destruct (100 <? _)%Z; reflexivity. }
  assert (Hbb2 : bb_period st2 = bb).
  { unfold st2, st1. destruct (100 <? _)%Z; simpl; exact Hbbp. }
  assert (Hstd2 : bb_std st2 = std).
  { unfold st2, st1. destruct (100 <? _)%Z; simpl; exact Hstd. }
  assert (Hsup2 : super st2 = super st).
  { unfold st2, st1. destruct (100 <? _)%Z; reflexivity. }
  rewrite <- Hh2 in Hall2, Hlen2. clear Hh2.
  unfold constant_series_position in Hpos.
  destruct (Z_lt_le_dec (len (price_history st2)) bb) as [Hshort | Hlong].
  - (* not enough history: no bands, no signal *)
    unfold calculate_bollinger_bands. rewrite Hbb2.
    apply Z.ltb_lt in Hshort as Hb. rewrite Hb. cbn [mbind result_bind bind].
    exists st2, None. split; [reflexivity|]. split; [exact Hstd2|].
    assert (Hact : forall j : Z, (j <= k + 1)%Z -> constant_series_action bb p j = None).
    { intros j Hj. destruct (truthy p) eqn:Hp; [|apply action_inactive; auto].
      destruct (Z_lt_le_dec 100 bb); [apply action_inactive; auto|].
      rewrite action_active by assumption.
      destruct (j <? bb)%Z eqn:Ej; [reflexivity|]. apply Z.ltb_ge in Ej. lia. }
    rewrite (Hact k) in Hpos by lia.
    split; [|split; [rewrite Hact by lia; reflexivity|discriminate]].
    repeat split; [exact Hbb2|exact Hall2|exact Hlen2|].
    unfold constant_series_position. rewrite Hact by lia. rewrite Hsup2. exact Hpos.
  - assert (Hb100 : (bb <= 100)%Z) by lia.
    rewrite (bands_of_window st2 p (price_history st2))
      by (rewrite ?Hbb2; first [lia | exact Hall2]).
    destruct (bands_collapse st2 p) as (u & l & Hb & Hcol & Hzero);
      [rewrite Hbb2; lia|exact Hfin|rewrite Hstd2; exact Hsfin
      |rewrite Hbb2; apply Hmean, Hb100|].
    rewrite Hb. cbn [mbind result_bind bind].
    destruct (truthy p) eqn:Hp.
    + destruct (Hcol eq_refl) as [-> ->]. rewrite Hp. cbn [negb].
      assert (Hk1 : (bb <= k + 1)%Z) by lia.
      rewrite action_active in Hpos by assumption.
      rewrite action_active by assumption.
      rewrite Hsup2.
      assert (Hle : leb (InDoubles.BaseStrategy.close candle) p = true).
      { rewrite Hc. destruct p as [?|?| |sp mp ep]; try discriminate.
        apply leb_refl. }
      destruct (k <? bb)%Z eqn:Ek.
      * (* the history has just reached bb_period: the entry test holds *)
        apply Z.ltb_lt in Ek. rewrite Hpos, Hle.
        eexists _, _. split; [reflexivity|]. split; [exact Hstd2|].
        assert (E1 : (k + 1 <? bb)%Z = false) by (apply Z.ltb_ge; lia).
        assert (E2 : (k + 1 =? bb)%Z = true) by (apply Z.eqb_eq; lia).
        rewrite E1, E2.
        split; [|split; [reflexivity|]].
        -- repeat split; [exact Hbb2|exact Hall2|exact Hlen2|].
           unfold constant_series_position. rewrite action_active by assumption.
           rewrite E1, E2. cbn [super set_super].
           unfold InDoubles.BaseStrategy._handle_buy_signal. rewrite Hpos.
           eexists. split; [reflexivity|]. cbn. auto.
        -- intros s [= <-]. cbn. auto.
      * (* a position is held: the exit test holds *)
        apply Z.ltb_ge in Ek.
        assert (Hpos' : exists q : InDoubles.BaseStrategy.Position,
                   InDoubles.BaseStrategy.position (super st) = Some q
                   /\ (InDoubles.BaseStrategy.side q = "BUY" \/ InDoubles.BaseStrategy.side q = "SELL")
                   /\ InDoubles.BaseStrategy.quantity q = 1%Z /\ InDoubles.BaseStrategy.entry_price q = p).
        { destruct (k =? bb)%Z; destruct Hpos as (q & Hq & Hs & Hqty & He);
            exists q; auto. }
        clear Hpos. destruct Hpos' as (q & Hq & Hs & Hqty & He). rewrite Hq.
        assert (Hge : leb p (InDoubles.BaseStrategy.close candle)
                      || leb p (InDoubles.BaseStrategy.close candle) = true).
        { apply orb_true_iff. left. rewrite Hc. rewrite Hc in Hle. exact Hle. }
        rewrite Hge. eexists _, _. split; [reflexivity|]. split; [exact Hstd2|].
        assert (E1 : (k + 1 <? bb)%Z = false) by (apply Z.ltb_ge; lia).
        assert (E2 : (k + 1 =? bb)%Z = false) by (apply Z.eqb_neq; lia).
        rewrite E1, E2.
        split; [|split; [reflexivity|]].
        -- repeat split; [exact Hbb2|exact Hall2|exact Hlen2|].
           unfold constant_series_position. rewrite action_active by assumption.
           rewrite E1, E2. cbn [super set_super].
           unfold InDoubles.BaseStrategy._handle_sell_signal. rewrite Hq.
           destruct Hs as [Hs|Hs]; rewrite Hs; cbn.
           ++ eexists. split; [reflexivity|]. cbn. auto.
           ++ exists q. rewrite Hq. auto.
        -- intros s [= <-]. cbn. auto.
    + (* price 0: the upper band is falsy *)
      rewrite (Hzero eq_refl). cbn [negb].
      exists st2, None. split; [reflexivity|]. split; [exact Hstd2|].
      rewrite (action_inactive bb p k) in Hpos by auto.
      split; [|split; [rewrite action_inactive by auto; reflexivity|discriminate]].
      repeat split; [exact Hbb2|exact Hall2|exact Hlen2|].
      unfold constant_series_position. rewrite action_inactive by auto.
      rewrite Hsup2. exact Hpos.
Qed.

Lemma constant_trace (bb : Z) (std p : float) (candles : list InDoubles.BaseStrategy.Candle) :
  (1 <= bb)%Z ->
  is_finite p = true -> is_finite std = true ->
  ((bb <= 100)%Z -> mean (replicate (Z.to_nat bb) p) = Ok p) ->
  Forall (fun c => InDoubles.BaseStrategy.close c = p) candles ->
  forall (k : Z) (st : State),
    (0 <= k)%Z ->
    bb_std st = std ->
    constant_series_state bb p k st ->
    exists (st' : State) (sigs : list (option Signal)),
      on_candles pow st candles = Ok (st', sigs)
      /\ constant_series_state bb p (k + len candles) st'
      /\ length sigs = length candles
      /\ (forall (i : nat) (sig : option Signal),
            sigs !! i = Some sig ->
            option_map action sig = constant_series_action bb p (k + Z.of_nat i + 1)
            /\ forall s : Signal, sig = Some s ->
                 upper s = p /\ middle s = p /\ lower s = p).
Proof.
  intros Hbb Hfin Hsfin Hmean Hall.
  induction Hall as [|c cs Hc Hcs IH]; intros k st Hk Hstd Hst.
  - exists st, []. simpl. split; [reflexivity|].
    split; [unfold len; simpl; rewrite Z.add_0_r; exact Hst|].
    split; [reflexivity|]. intros i sig Hi. destruct i; discriminate Hi.
  - destruct (constant_step bb std p k st c Hbb Hk Hfin Hsfin Hmean Hstd Hst Hc)
      as (st1 & sig1 & Hon & Hstd1 & Hst1 & Hact1 & Hb1).
    destruct (IH (k + 1)%Z st1 ltac:(lia) Hstd1 Hst1)
      as (st2 & sigs & Hons & Hst2 & Hlen & Hsigs).
    exists st2, (sig1 :: sigs). simpl. rewrite Hon. simpl. rewrite Hons. simpl.
    split; [reflexivity|].
    split; [replace (k + len (c :: cs))%Z with (k + 1 + len cs)%Z
              by (unfold len; simpl length; lia); exact Hst2|].
    split; [congruence|].
    intros [|i] sig Hi; simpl in Hi.
    + injection Hi as <-. rewrite Z.add_0_r. auto.
    + replace (k + Z.of_nat (S i) + 1)%Z with (k + 1 + Z.of_nat i + 1)%Z by lia.
      apply Hsigs, Hi.
Qed.

(** C6, amended.  On a constant series at a finite price [p], starting
    flat with [bb_period >= 1] and a finite [bb_std], and with doubles
    throughout: when the mean of [bb_period] copies of [p], as the code
    takes it, is [p] itself, every computed band triple collapses to
    upper = middle = lower = p.  The entry test is [close <= lower], so
    the candle that brings the history to [bb_period] prices returns BUY
    and opens a long position, provided [p] is not 0 and
    [bb_period <= 100]; no other candle returns BUY; with [p = 0] or
    [bb_period > 100] no candle returns any signal and no position is
    opened. *)
Theorem constant_prices_buy_at_period
    (symbol : string) (bb_period : Z) (bb_std p : float)
    (candles : list InDoubles.BaseStrategy.Candle) :
  (1 <= bb_period)%Z ->
  is_finite p = true -> is_finite bb_std = true ->
  ((bb_period <= 100)%Z -> mean (replicate (Z.to_nat bb_period) p) = Ok p) ->
  Forall (fun c => InDoubles.BaseStrategy.close c = p) candles ->
  exists (st' : State) (sigs : list (option Signal)),
    on_candles pow (init symbol bb_period bb_std) candles = Ok (st', sigs)
    /\ length sigs = length candles
    /\ (forall (i : nat) (s : Signal), sigs !! i = Some (Some s) ->
          upper s = p /\ middle s = p /\ lower s = p)
    /\ (forall (i : nat) (s : Signal), sigs !! i = Some (Some s) ->
          action s = "BUY" -> (Z.of_nat i + 1)%Z = bb_period)
    /\ (truthy p = true -> (bb_period <= 100)%Z ->
        forall i : nat, (Z.of_nat i + 1)%Z = bb_period -> (i < length candles)%nat ->
          exists s : Signal, sigs !! i = Some (Some s) /\ action s = "BUY")
    /\ (truthy p = true -> (bb_period <= 100)%Z -> len candles = bb_period ->
        exists q : InDoubles.BaseStrategy.Position,
          InDoubles.BaseStrategy.position (super st') = Some q
          /\ InDoubles.BaseStrategy.side q = "BUY" /\ InDoubles.BaseStrategy.entry_price q = p)
    /\ (truthy p = false \/ (100 < bb_period)%Z ->
        (forall (i : nat) (sig : option Signal), sigs !! i = Some sig -> sig = None)
        /\ InDoubles.BaseStrategy.position (super st') = None).
Proof.
  intros Hbb Hfin Hsfin Hmean Hall.
  assert (Hinit : constant_series_state bb_period p 0 (init symbol bb_period bb_std)).
  { repeat split; try constructor.
    unfold constant_series_position, constant_series_action.
    destruct (truthy p && (bb_period <=? 100)%Z); [|reflexivity].
    destruct (0 <? bb_period)%Z eqn:E; [reflexivity|]. apply Z.ltb_ge in E. lia. }
  destruct (constant_trace bb_period bb_std p candles Hbb Hfin Hsfin Hmean Hall 0%Z
              (init symbol bb_period bb_std) ltac:(lia) eq_refl Hinit)
    as (st' & sigs & Hon & (_ & _ & _ & Hpos) & Hlen & Hsigs).
  exists st', sigs. split; [exact Hon|]. split; [exact Hlen|].
  split; [|split; [|split; [|split]]].
  - intros i s Hi. exact (proj2 (Hsigs i _ Hi) s eq_refl).
  - intros i s Hi Hbuy. destruct (Hsigs i _ Hi) as [Hact _]. simpl in Hact.
    rewrite Hbuy in Hact. unfold constant_series_action in Hact.
    destruct (truthy p && (bb_period <=? 100)%Z); [|discriminate].
    destruct (0 + Z.of_nat i + 1 <? bb_period)%Z; [discriminate|].
    destruct (0 + Z.of_nat i + 1 =? bb_period)%Z eqn:E; [|discriminate].
    apply Z.eqb_eq in E. lia.
  - intros Hp Hb100 i Hi Hlt.
    destruct (lookup_lt_is_Some_2 sigs i ltac:(lia)) as [sig Hsig].
    destruct (Hsigs i _ Hsig) as [Hact _].
    rewrite action_active in Hact by assumption.
    assert (E1 : (0 + Z.of_nat i + 1 <? bb_period)%Z = false) by (apply Z.ltb_ge; lia).
    assert (E2 : (0 + Z.of_nat i + 1 =? bb_period)%Z = true) by (apply Z.eqb_eq; lia).
    rewrite E1, E2 in Hact. destruct sig as [s|]; [|discriminate].
    exists s. split; [exact Hsig|]. simpl in Hact. congruence.
  - intros Hp Hb100 Hn. unfold constant_series_position in Hpos.
    rewrite action_active in Hpos by assumption.
    assert (E1 : (0 + len candles <? bb_period)%Z = false) by (apply Z.ltb_ge; lia).
    assert (E2 : (0 + len candles =? bb_period)%Z = true) by (apply Z.eqb_eq; lia).
    rewrite E1, E2 in Hpos. destruct Hpos as (q & Hq & Hs & _ & He).
    exists q. auto.
  - intros Hin. split.
    + intros i sig Hi. destruct (Hsigs i _ Hi) as [Hact _].
      rewrite action_inactive in Hact by assumption.
      destruct sig; [discriminate|reflexivity].
    + unfold constant_series_position in Hpos.
      rewrite action_inactive in Hpos by assumption. exact Hpos.
Qed.

(** When the entry test [close <= lower] fails on the bands of a full
    window, a constant series never produces a signal. *)
Lemma constant_without_entry (symbol : string) (bb : Z) (std p u m l : float)
    (candles : list InDoubles.BaseStrategy.Candle) :
  (1 <= bb)%Z ->
  calculate_bollinger_bands pow (init symbol bb std) (replicate (Z.to_nat bb) p)
  = Ok (Some (u, m, l)) ->
  leb p l = false ->
  Forall (fun c => InDoubles.BaseStrategy.close c = p) candles ->
  exists st' : State,
    on_candles pow (init symbol bb std) candles
    = Ok (st', replicate (length candles) None)
    /\ InDoubles.BaseStrategy.position (super st') = None
    /\ InDoubles.BaseStrategy.trades (super st') = [].
Proof.
  intros Hbb Hbands Hle Hall.
  assert (Hgen : forall (k : Z) (st : State),
             (0 <= k)%Z ->
             bb_period st = bb -> bb_std st = std ->
             super st = InDoubles.BaseStrategy.init symbol "scalping_mean_reversion" ->
             Forall (fun x => x = p) (price_history st) ->
             len (price_history st) = Z.min k 100 ->
             exists st' : State,
               on_candles pow st candles = Ok (st', replicate (length candles) None)
               /\ InDoubles.BaseStrategy.position (super st') = None
               /\ InDoubles.BaseStrategy.trades (super st') = []).
  { induction Hall as [|c cs Hc Hcs IH]; intros k st Hk Hbbp Hstd Hsup Hh Hlen.
    - exists st. rewrite Hsup. repeat split.
    - destruct (constant_history_step p k (price_history st) (InDoubles.BaseStrategy.close c)
                  Hk Hh Hlen Hc) as [Hall2 Hlen2].
      simpl on_candles. unfold on_candle. cbv zeta.
      set (st1 := set_price_history st (price_history st ++ [InDoubles.BaseStrategy.close c])).
      set (st2 := if (100 <? len (price_history st1))%Z
                  then set_price_history st1 (slice_from (-100) (price_history st1))
                  else st1).
      assert (Hh2 : price_history st2
                    = if (100 <? len (price_history st ++ [InDoubles.BaseStrategy.close c]))%Z
                      then slice_from (-100) (price_history st ++ [InDoubles.BaseStrategy.close c])
                      else price_history st ++ [InDoubles.BaseStrategy.close c]).
      { unfold st2, st1. simpl. destruct (100 <? _)%Z; reflexivity. }
      assert (Hbb2 : bb_period st2 = bb).
      { unfold st2, st1. destruct (100 <? _)%Z; simpl; exact Hbbp. }
      assert (Hstd2 : bb_std st2 = std).
      { unfold st2, st1. destruct (100 <? _)%Z; simpl; exact Hstd. }
      assert (Hsup2 : super st2 = InDoubles.BaseStrategy.init symbol "scalping_mean_reversion").
      { unfold st2, st1. destruct (100 <? _)%Z; exact Hsup. }
      rewrite <- Hh2 in Hall2, Hlen2. clear Hh2.
      lazymatch goal with
      | |- context [mbind ?f (calculate_bollinger_bands pow st2 ?h)] =>
          assert (Hstep : mbind f (calculate_bollinger_bands pow st2 h) = Ok (st2, None));
          [|rewrite Hstep; cbn [mbind result_bind bind];
            destruct (IH (k + 1)%Z st2 ltac:(lia) Hbb2 Hstd2 Hsup2 Hall2 Hlen2)
              as (st' & Hon & Hpos & Htr);
            rewrite Hon; cbn [mbind result_bind bind]; exists st'; auto]
      end.
      destruct (Z_lt_le_dec (len (price_history st2)) bb) as [Hshort | Hlong].
      + unfold calculate_bollinger_bands. rewrite Hbb2.
        apply Z.ltb_lt in Hshort. rewrite Hshort. reflexivity.
      + rewrite (bands_of_window st2 p (price_history st2))
          by (rewrite ?Hbb2; first [lia | exact Hall2]).
        assert (Hsame : calculate_bollinger_bands pow st2
                          (replicate (Z.to_nat (bb_period st2)) p)
                        = calculate_bollinger_bands pow (init symbol bb std)
                            (replicate (Z.to_nat bb) p)).
        { unfold calculate_bollinger_bands. rewrite Hbb2, Hstd2. reflexivity. }
        rewrite Hsame, Hbands. cbn [mbind result_bind bind].
        destruct (negb (truthy u)); [reflexivity|].
        rewrite Hsup2. cbn [InDoubles.BaseStrategy.position InDoubles.BaseStrategy.init].
        rewrite Hc, Hle. reflexivity. }
  apply (Hgen 0%Z); [lia|reflexivity|reflexivity|reflexivity|constructor|reflexivity].
Qed.

End ConstantSeries.

Section ConstantSeriesExamples.
Import Py Float64 InDoubles.ScalpingMeanReversionStrategy.

(** C6 as stated fails: with [bb_period = 2], the second candle of the
    constant series 100, 100 returns BUY and opens a long position. *)
Lemma constant_prices_buy_counterexample :
  let p := literal 100 in
  let c1 := InDoubles.BaseStrategy.mkCandle 60 "NSE:TCS-EQ" p p p p 10 in
  let c2 := InDoubles.BaseStrategy.mkCandle 120 "NSE:TCS-EQ" p p p p 10 in
  exists (st' : State) (s : Signal),
    on_candles Float64.pow (init "NSE:TCS-EQ" 2 (literal 2)) [c1; c2]
    = Ok (st', [None; Some s])
    /\ action s = "BUY"
    /\ upper s = p /\ middle s = p /\ lower s = p
    /\ InDoubles.BaseStrategy.position (super st')
       = Some {| InDoubles.BaseStrategy.side := "BUY";
                 InDoubles.BaseStrategy.entry_price := p;
                 InDoubles.BaseStrategy.quantity := 1;
                 InDoubles.BaseStrategy.entry_time := 120 |}.
Proof.
  intros p c1 c2. eexists _, _. split; [vm_compute; reflexivity|].
  repeat split.
Qed.

Lemma constant_prices_buy_at_period_witness :
  let p := literal 100 in
  let candle := InDoubles.BaseStrategy.mkCandle 60 "NSE:TCS-EQ" p p p p 10 in
  Float64.pow zero (of_int 2) = zero
  /\ Float64.pow zero (literal (5 # 10)) = zero
  /\ (1 <= 20)%Z
  /\ is_finite p = true /\ is_finite (literal 2) = true
  /\ ((20 <= 100)%Z -> mean (replicate (Z.to_nat 20) p) = Ok p)
  /\ Forall (fun c => InDoubles.BaseStrategy.close c = p) (replicate 20 candle)
  /\ exists (st' : State) (sigs : list (option Signal)),
       on_candles Float64.pow (init "NSE:TCS-EQ" 20 (literal 2)) (replicate 20 candle)
       = Ok (st', sigs)
       /\ exists s : Signal, sigs !! 19%nat = Some (Some s) /\ action s = "BUY".
Proof.
  intros p candle.
  assert (H2 : Float64.pow zero (of_int 2) = zero) by (vm_compute; reflexivity).
  assert (Hh : Float64.pow zero (literal (5 # 10)) = zero) by (vm_compute; reflexivity).
  assert (Hfin : is_finite p = true) by (vm_compute; reflexivity).
  assert (Hsfin : is_finite (literal 2) = true) by (vm_compute; reflexivity).
  assert (Hmean : (20 <= 100)%Z -> mean (replicate (Z.to_nat 20) p) = Ok p)
    by (intros _; vm_compute; reflexivity).
  assert (Hall : Forall (fun c => InDoubles.BaseStrategy.close c = p)
                   (replicate 20 candle))
    by (apply Forall_replicate; reflexivity).
  split; [exact H2|]. split; [exact Hh|]. split; [lia|]. split; [exact Hfin|].
  split; [exact Hsfin|]. split; [exact Hmean|]. split; [exact Hall|].
  destruct (constant_prices_buy_at_period Float64.pow H2 Hh "NSE:TCS-EQ" 20 (literal 2) p
              (replicate 20 candle) ltac:(lia) Hfin Hsfin Hmean Hall)
    as (st' & sigs & Hon & _ & _ & _ & Hbuy & _).
  exists st', sigs. split; [exact Hon|].
  apply (Hbuy ltac:(vm_compute; reflexivity) ltac:(lia) 19%nat);
    [reflexivity|rewrite length_replicate; lia].
Defined.

(** The bands of a constant series need not collapse.  At the price
    1234.55 with the default period 20 and width 2.0 the mean of the window
    is 1234.5499999999997, the bands are
    (1234.5500000000002, 1234.5499999999997, 1234.5499999999993), the
    close stays above the lower band, and no candle of a series of any
    length returns a signal. *)
Lemma constant_prices_without_collapse (candles : list InDoubles.BaseStrategy.Candle) :
  let p := literal (123455 # 100) in
  Forall (fun c => InDoubles.BaseStrategy.close c = p) candles ->
  calculate_bollinger_bands Float64.pow (init "NSE:TCS-EQ" 20 (literal 2))
    (replicate 20 p)
  = Ok (Some (literal (12345500000000002 # 10000000000000),
              literal (12345499999999997 # 10000000000000),
              literal (12345499999999993 # 10000000000000)))
  /\ mean (replicate 20 p) = Ok (literal (12345499999999997 # 10000000000000))
  /\ exists st' : State,
       on_candles Float64.pow (init "NSE:TCS-EQ" 20 (literal 2)) candles
       = Ok (st', replicate (length candles) None)
       /\ InDoubles.BaseStrategy.position (super st') = None.
Proof.
  intros p Hall.
  assert (Hb : calculate_bollinger_bands Float64.pow (init "NSE:TCS-EQ" 20 (literal 2))
                 (replicate 20 p)
               = Ok (Some (literal (12345500000000002 # 10000000000000),
                           literal (12345499999999997 # 10000000000000),
                           literal (12345499999999993 # 10000000000000))))
    by (vm_compute; reflexivity).
  assert (Hle : leb p (literal (12345499999999993 # 10000000000000)) = false)
    by (vm_compute; reflexivity).
  split; [exact Hb|]. split; [vm_compute; reflexivity|].
  destruct (constant_without_entry Float64.pow "NSE:TCS-EQ" 20 (literal 2) p _ _ _ candles
              ltac:(lia) Hb Hle Hall) as (st' & Hon & Hpos & _).
  exists st'. auto.
Qed.

End ConstantSeriesExamples.

(** ** Backtest driver *)

Section BacktestFacts.
Import Py.
Local Open Scope Q_scope.

(** [run] hands back the strategy exactly as the candle loop left it: no
    step after the loop touches the position or the trade log. *)
Lemma run_state_is_loop_state {S : Type} `{Strategy S}
    (strategy strategy' : S) (candles : list BaseStrategy.Candle)
    (report : gmap string Q) :
  BacktestEngine.run strategy candles = Ok (strategy', report) ->
  BacktestEngine.run_loop strategy candles = Ok strategy'.
Proof.
  unfold BacktestEngine.run. destruct candles as [|c cs].
  - intros [= <- _]. reflexivity.
  - destruct (BacktestEngine.run_loop strategy (c :: cs)) as [s1|e]; simpl; [|discriminate].
    repeat match goal with
    | |- context [mbind _ ?r] => destruct r; simpl; [|discriminate]
    end.
    intros [= <- _]. reflexivity.
Qed.

(** The sibling base class closes an open position exactly once at the end
    of a backtest: [finalize] appends one exit trade priced at the last
    candle's close, and a second [finalize] closes nothing. *)
Lemma legacy_finalize_closes_once
    (st : LegacyBaseStrategy.State) (pos : LegacyBaseStrategy.Position)
    (last_candle : BaseStrategy.Candle) :
  LegacyBaseStrategy.position st = Some pos ->
  exists (st' : LegacyBaseStrategy.State) (trade : LegacyBaseStrategy.Trade),
    LegacyBaseStrategy.finalize st last_candle = Ok (st', [trade])
    /\ LegacyBaseStrategy.trades st' = LegacyBaseStrategy.trades st ++ [trade]
    /\ LegacyBaseStrategy.trade_price trade = BaseStrategy.close last_candle
    /\ LegacyBaseStrategy.position st' = None
    /\ LegacyBaseStrategy.finalize st' last_candle = Ok (st', []).
Proof.
  intros Hpos. unfold LegacyBaseStrategy.finalize, LegacyBaseStrategy._close_position.
  rewrite Hpos. simpl. eexists _, _. split; [reflexivity|]. simpl. auto.
Qed.

(** C4: the driver on a series that leaves a position open.  The
    mean-reversion strategy with [bb_period = 2] buys on the second candle
    of 100, 100; [run] returns with that position still open, an empty
    trade log and a report of zero trades: the position is never
    force-closed. *)
Theorem run_leaves_position_open :
  let c1 := BaseStrategy.mkCandle 60 "NSE:TCS-EQ" "NSE" 100 100 100 100 10 in
  let c2 := BaseStrategy.mkCandle 120 "NSE:TCS-EQ" "NSE" 100 100 100 100 10 in
  exists (st' : ScalpingMeanReversionStrategy.State) (report : gmap string Q),
    BacktestEngine.run
      (H := ScalpingMeanReversionStrategy.strategy ScalpingMeanReversionStrategy.sqrt6)
      (ScalpingMeanReversionStrategy.init "NSE:TCS-EQ" 2 2) [c1; c2]
    = Ok (st', report)
    /\ BaseStrategy.position (ScalpingMeanReversionStrategy.super st')
       = Some {| BaseStrategy.side := "BUY";
                 BaseStrategy.entry_price := 100;
                 BaseStrategy.quantity := 1;
                 BaseStrategy.entry_time := 120 |}
    /\ BaseStrategy.trades (ScalpingMeanReversionStrategy.super st') = []
    /\ report !! "total_trades" = Some 0.
Proof.
  intros c1 c2. eexists _, _. split; [vm_compute; reflexivity|].
  repeat split.
Qed.

End BacktestFacts.

(** ** Tick aggregation *)

Section AggregatorFacts.
Import Py RealtimeTradingEngine.
Local Open Scope Q_scope.

Lemma max_is_max (h b : Q) (l : list Q) : is_max h l -> is_max (max h b) (l ++ [b]).
Proof.
  intros [Hin Hall]. unfold max. destruct (ltb h b) eqn:E.
  - apply ltb_lt in E. split; [set_solver|].
    apply Forall_app. split; [|repeat constructor; apply Qle_refl].
    eapply Forall_impl; [exact Hall|]. intros q Hq. simpl in Hq. lra.
  - apply ltb_ge in E. split; [set_solver|].
    apply Forall_app. split; [exact Hall|]. repeat constructor. exact E.
Qed.

Lemma min_is_min (h b : Q) (l : list Q) : is_min h l -> is_min (min h b) (l ++ [b]).
Proof.
  intros [Hin Hall]. unfold min. destruct (ltb b h) eqn:E.
  - apply ltb_lt in E. split; [set_solver|].
    apply Forall_app. split; [|repeat constructor; apply Qle_refl].
    eapply Forall_impl; [exact Hall|]. intros q Hq. simpl in Hq. lra.
  - apply ltb_ge in E. split; [set_solver|].
    apply Forall_app. split; [exact Hall|]. repeat constructor. exact E.
Qed.

Lemma counter_fold (l : list Z) (a : Z) :
  (0 <= a)%Z -> counter_from a l ->
  fold_left keep_or_replace l a = fold_left Z.max l a.
Proof.
  revert a. induction l as [|v l IH]; intros a Ha Hc; [reflexivity|].
  destruct Hc as [Hav Hc]. simpl.
  assert (Hk : keep_or_replace a v = v).
  { unfold keep_or_replace, truthy_int. destruct (v =? 0)%Z eqn:E; [|reflexivity].
    apply Z.eqb_eq in E. simpl. lia. }
  rewrite Hk, Z.max_r by lia. apply IH; [lia|exact Hc].
Qed.

(** The guards of [_process_single_tick] on an accepted tick. *)
Lemma well_formed_guards (eng : State) (symbol : string) (tick : Tick) :
  well_formed symbol tick -> symbol ∈ symbols eng ->
  bool_decide (tick_type tick = Some "sub") && bool_decide (tick_s tick = Some "ok") = false
  /\ extract_symbol tick = Some symbol
  /\ negb (truthy_str symbol) || negb (bool_decide (symbol ∈ symbols eng)) = false
  /\ extract_ltp tick = Some (tick_price tick)
  /\ negb (truthy_num (tick_price tick)) = false.
Proof.
  intros (Hack & Hsym & Hne & ltp & Hltp & Hnz) Hin.
  split; [|split; [exact Hsym|split; [|split]]].
  - apply andb_false_iff.
    destruct (bool_decide (tick_type tick = Some "sub")) eqn:E1; [|auto].
    destruct (bool_decide (tick_s tick = Some "ok")) eqn:E2; [|auto].
    apply bool_decide_eq_true in E1, E2. tauto.
  - apply orb_false_iff. split; apply negb_false_iff.
    + unfold truthy_str. apply negb_true_iff, String.eqb_neq. exact Hne.
    + apply bool_decide_eq_true. exact Hin.
  - unfold tick_price. rewrite Hltp. reflexivity.
  - unfold tick_price. rewrite Hltp. simpl. apply negb_false_iff.
    unfold truthy_num. apply negb_true_iff.
    destruct (Qeq_bool ltp 0) eqn:E; [|reflexivity].
    apply Qeq_bool_iff in E. contradiction.
Qed.

Lemma process_symbols (eng : State) (now : Z) (tick : Tick) :
  symbols (_process_single_tick eng now tick) = symbols eng.
Proof.
  unfold _process_single_tick. repeat case_match; reflexivity.
Qed.

(** First tick of an interval: a new candle is opened at the tick's price. *)
Lemma process_opens (eng : State) (symbol : string) (now : Z) (tick : Tick) :
  well_formed symbol tick -> symbol ∈ symbols eng ->
  (forall c : Candle, current_candles eng !! symbol = Some c ->
     timestamp c <> minute_of now) ->
  current_candles (_process_single_tick eng now tick) !! symbol
  = Some {| RealtimeTradingEngine.symbol := symbol;
            timestamp := minute_of now;
            open := tick_price tick;
            high := tick_price tick;
            low := tick_price tick;
            close := tick_price tick;
            volume := keep_or_replace 0 (tick_reported_volume tick);
            timeframe := "1m" |}.
Proof.
  intros Hwf Hin Hfresh.
  destruct (well_formed_guards eng symbol tick Hwf Hin) as (G1 & G2 & G3 & G4 & G5).
  unfold _process_single_tick. rewrite G1, G2, G3, G4, G5.
  assert (Hvol : match extract_volume tick with
                 | Some v => if truthy_int v then v else 0%Z
                 | None => 0%Z
                 end = keep_or_replace 0 (tick_reported_volume tick)).
  { unfold keep_or_replace, tick_reported_volume.
    destruct (extract_volume tick) as [v|]; reflexivity. }
  rewrite Hvol.
  destruct (current_candles eng !! symbol) as [c|] eqn:Ec.
  - specialize (Hfresh c eq_refl). apply Z.eqb_neq in Hfresh. rewrite Hfresh. simpl.
    apply lookup_insert_eq.
  - simpl. apply lookup_insert_eq.
Qed.

(** Later tick of the same interval: the in-progress candle is updated. *)
Lemma process_updates (eng : State) (symbol : string) (now : Z) (tick : Tick)
    (c : Candle) :
  well_formed symbol tick -> symbol ∈ symbols eng ->
  current_candles eng !! symbol = Some c ->
  timestamp c = minute_of now ->
  current_candles (_process_single_tick eng now tick) !! symbol
  = Some {| RealtimeTradingEngine.symbol := RealtimeTradingEngine.symbol c;
            timestamp := timestamp c;
            open := open c;
            high := max (high c) (tick_price tick);
            low := min (low c) (tick_price tick);
            close := tick_price tick;
            volume := keep_or_replace (volume c) (tick_reported_volume tick);
            timeframe := timeframe c |}.
Proof.
  intros Hwf Hin Hc Hts.
  destruct (well_formed_guards eng symbol tick Hwf Hin) as (G1 & G2 & G3 & G4 & G5).
  unfold _process_single_tick. rewrite G1, G2, G3, G4, G5, Hc.
  apply Z.eqb_eq in Hts. rewrite Hts. simpl.
  rewrite lookup_insert_eq. f_equal. f_equal.
  unfold keep_or_replace, tick_reported_volume.
  destruct (extract_volume tick) as [v|]; reflexivity.
Qed.

Lemma process_ticks_symbols (eng : State) (ticks : list (Z * Tick)) :
  symbols (process_ticks eng ticks) = symbols eng.
Proof.
  revert eng. induction ticks as [|nt ticks IH]; intros eng; [reflexivity|].
  unfold process_ticks in *. simpl. rewrite IH. apply process_symbols.
Qed.

Lemma process_ticks_snoc (eng : State) (ticks : list (Z * Tick)) (nt : Z * Tick) :
  process_ticks eng (ticks ++ [nt])
  = _process_single_tick (process_ticks eng ticks) nt.1 nt.2.
Proof.
  unfold process_ticks. rewrite fold_left_app. reflexivity.
Qed.

(** C5, amended.  For a non-empty sequence of accepted ticks of one symbol
    whose clock readings fall in one minute, starting with no in-progress
    candle for that minute, the in-progress candle has open = first price,
    close = last price, high = greatest price, low = least price.  Its
    volume is the last non-zero reported volume (each update replaces the
    volume by the reported one unless that is zero), which is
    [max previous reported] at every step when the reported volumes form a
    non-negative, non-decreasing counter. *)
Theorem candle_within_interval
    (eng : State) (symbol : string) (T : Z) (ticks : list (Z * Tick)) :
  ticks <> [] ->
  symbol ∈ symbols eng ->
  Forall (fun nt => minute_of nt.1 = T /\ well_formed symbol nt.2) ticks ->
  (forall c : Candle, current_candles eng !! symbol = Some c -> timestamp c <> T) ->
  let prices := map (fun nt => tick_price nt.2) ticks in
  let volumes := map (fun nt => tick_reported_volume nt.2) ticks in
  exists c : Candle,
    current_candles (process_ticks eng ticks) !! symbol = Some c
    /\ timestamp c = T
    /\ head prices = Some (open c)
    /\ last prices = Some (close c)
    /\ is_max (high c) prices
    /\ is_min (low c) prices
    /\ volume c = fold_left keep_or_replace volumes 0%Z
    /\ (counter_from 0 volumes -> volume c = fold_left Z.max volumes 0%Z).
Proof.
  intros Hne Hin Hall Hfresh prices volumes.
  assert (Hmain : exists c : Candle,
             current_candles (process_ticks eng ticks) !! symbol = Some c
             /\ timestamp c = T
             /\ head prices = Some (open c)
             /\ last prices = Some (close c)
             /\ is_max (high c) prices
             /\ is_min (low c) prices
             /\ volume c = fold_left keep_or_replace volumes 0%Z).
  { subst prices volumes. induction ticks as [|nt ticks IH] using rev_ind; [congruence|].
    apply Forall_app in Hall as [Hall Hnt].
    apply Forall_singleton in Hnt as [HT Hwf].
    rewrite process_ticks_snoc, !map_app. simpl map.
    destruct (decide (ticks = [])) as [->|Hne'].
    - (* the first tick opens the candle *)
      simpl. eexists. split.
      + apply process_opens; [exact Hwf|exact Hin|].
        intros c Hc. rewrite HT. apply Hfresh, Hc.
      + simpl. repeat split; try assumption; try (constructor; apply Qle_refl);
          try (repeat constructor; apply Qle_refl); set_solver.
    - destruct (IH Hne' Hall) as (c & Hc & Hts & Hop & Hcl & Hmax & Hmin & Hvol).
      eexists. split.
      + apply process_updates; [exact Hwf| |exact Hc|congruence].
        rewrite process_ticks_symbols. exact Hin.
      + cbn [timestamp open close high low volume].
        split; [exact Hts|].
        split; [destruct ticks; [congruence|exact Hop]|].
        split; [rewrite last_snoc; reflexivity|].
        split; [apply (max_is_max _ _ _ Hmax)|].
        split; [apply (min_is_min _ _ _ Hmin)|].
        rewrite fold_left_app. simpl. rewrite <- Hvol. reflexivity. }
  destruct Hmain as (c & Hc & Hts & Hop & Hcl & Hmax & Hmin & Hvol).
  exists c. repeat split; try assumption; try apply Hmax; try apply Hmin.
  intros Hcounter. rewrite Hvol. apply counter_fold; [lia|exact Hcounter].
Qed.

(** C5 as stated fails on the volume: a tick reporting 300 after one
    reporting 500 in the same minute leaves the candle's volume at 300, not
    at [max 500 300]. *)
Lemma candle_volume_counterexample :
  let t1 := simple_tick "NSE:TCS-EQ" 100 500 in
  let t2 := simple_tick "NSE:TCS-EQ" 101 300 in
  exists c1 c2 : Candle,
    current_candles (process_ticks init [(60000001%Z, t1)]) !! "NSE:TCS-EQ" = Some c1
    /\ current_candles (process_ticks init [(60000001%Z, t1); (60000002%Z, t2)])
         !! "NSE:TCS-EQ" = Some c2
    /\ volume c1 = 500%Z
    /\ volume c2 = 300%Z
    /\ volume c2 <> Z.max (volume c1) (tick_reported_volume t2).
Proof.
  intros t1 t2. eexists _, _.
  split; [vm_compute; reflexivity|]. split; [vm_compute; reflexivity|].
  simpl. repeat split. vm_compute. discriminate.
Qed.

Lemma candle_within_interval_witness :
  let t1 := simple_tick "NSE:TCS-EQ" 100 500 in
  let t2 := simple_tick "NSE:TCS-EQ" 101 300 in
  let ticks := [(60000001%Z, t1); (60000002%Z, t2)] in
  ticks <> []
  /\ "NSE:TCS-EQ" ∈ symbols init
  /\ Forall (fun nt => minute_of nt.1 = 60000000%Z /\ well_formed "NSE:TCS-EQ" nt.2) ticks
  /\ (forall c : Candle, current_candles init !! "NSE:TCS-EQ" = Some c ->
        timestamp c <> 60000000%Z)
  /\ exists c : Candle,
       current_candles (process_ticks init ticks) !! "NSE:TCS-EQ" = Some c
       /\ head [100; 101] = Some (open c)
       /\ last [100; 101] = Some (close c)
       /\ is_max (high c) [100; 101]
       /\ is_min (low c) [100; 101]
       /\ volume c = 300%Z.
Proof.
  intros t1 t2 ticks.
  assert (H1 : ticks <> []) by discriminate.
  assert (H2 : "NSE:TCS-EQ" ∈ symbols init) by (unfold init; simpl; repeat constructor).
  assert (Hwf : forall (p : Q) (v : Z), ~ p == 0 ->
                  well_formed "NSE:TCS-EQ" (simple_tick "NSE:TCS-EQ" p v)).
  { intros p v Hp. split; [intros [Hty _]; discriminate Hty|].
    split; [reflexivity|]. split; [discriminate|].
    exists p. split; [|exact Hp]. unfold extract_ltp. simpl.
    unfold truthy_num. destruct (Qeq_bool p 0) eqn:E; [|reflexivity].
    apply Qeq_bool_iff in E. contradiction. }
  assert (H3 : Forall (fun nt => minute_of nt.1 = 60000000%Z
                                 /\ well_formed "NSE:TCS-EQ" nt.2) ticks).
  { apply Forall_cons. split; [split; [reflexivity|apply Hwf; discriminate]|].
    apply Forall_cons. split; [split; [reflexivity|apply Hwf; discriminate]|].
    apply Forall_nil_2. }
  assert (H4 : forall c : Candle, current_candles init !! "NSE:TCS-EQ" = Some c ->
                 timestamp c <> 60000000%Z) by (intros c Hc; discriminate Hc).
  split; [exact H1|]. split; [exact H2|]. split; [exact H3|]. split; [exact H4|].
  destruct (candle_within_interval init "NSE:TCS-EQ" 60000000 ticks H1 H2 H3 H4)
    as (c & Hc & _ & Hop & Hcl & Hmax & Hmin & Hvol & _).
  exists c. repeat split; try assumption; try apply Hmax; try apply Hmin.
Defined.

End AggregatorFacts.

(** ** Consensus *)

Section ConsensusFacts.
Import Py.
Local Open Scope Q_scope.

(** Case analysis on the live, BUY-only gate of [dominant_signals]. *)
Ltac case_live_gate self :=
  destruct (String.eqb (AutoTrader.mode self) "live" && AutoTrader.live_buy_only self).

Lemma dominant_needs_quorum (self : AutoTrader.State) (signals : list AutoTrader.Signal) :
  AutoTrader.dominant_signals self signals <> [] ->
  ((2 <= len (AutoTrader.buy_signals signals))%Z
   /\ AutoTrader.dominant_signals self signals = AutoTrader.buy_signals signals)
  \/ ((2 <= len (AutoTrader.sell_signals signals))%Z
      /\ AutoTrader.dominant_signals self signals = AutoTrader.sell_signals signals).
Proof.
  unfold AutoTrader.dominant_signals. intros H.
  destruct (2 <=? len (AutoTrader.buy_signals signals))%Z eqn:Eb.
  - left. apply Z.leb_le in Eb. split; [exact Eb|].
    case_live_gate self; reflexivity.
  - case_live_gate self; [congruence|].
    destruct (2 <=? len (AutoTrader.sell_signals signals))%Z eqn:Es; [|congruence].
    right. apply Z.leb_le in Es. auto.
Qed.

Lemma dominant_without_quorum (self : AutoTrader.State) (signals : list AutoTrader.Signal) :
  (len (AutoTrader.buy_signals signals) < 2)%Z ->
  (len (AutoTrader.sell_signals signals) < 2)%Z ->
  AutoTrader.dominant_signals self signals = [].
Proof.
  intros Hb Hs. unfold AutoTrader.dominant_signals.
  apply Z.leb_gt in Hb, Hs. rewrite Hb, Hs.
  case_live_gate self; reflexivity.
Qed.

(** The votes counted by [scan_opportunities] are the strategies holding a
    position of that side. *)
Lemma votes_are_positions (strategies : list (string * BaseStrategy.State))
    (last_close : Q) (side : string) :
  filter (fun s => AutoTrader.side s = side)
    (AutoTrader.collect_signals strategies last_close)
  = AutoTrader.collect_signals
      (filter (fun cs => BaseStrategy.side <$> BaseStrategy.position cs.2 = Some side)
         strategies) last_close.
Proof.
  induction strategies as [|[cls st] strategies IH]; [reflexivity|].
  rewrite (filter_cons _ (cls, st)). simpl.
  destruct (BaseStrategy.position st) as [pos|] eqn:E; simpl.
  - rewrite filter_cons. simpl.
    destruct (decide (BaseStrategy.side pos = side)) as [Hs|Hs];
      destruct (decide (Some (BaseStrategy.side pos) = Some side)) as [Hs'|Hs'];
      simpl; rewrite ?E; congruence.
  - destruct (decide (None = Some side)) as [Hs'|Hs']; [discriminate|]. exact IH.
Qed.

Lemma votes_count (strategies : list (string * BaseStrategy.State))
    (last_close : Q) (side : string) :
  len (filter (fun s => AutoTrader.side s = side)
         (AutoTrader.collect_signals strategies last_close))
  = len (filter (fun cs => BaseStrategy.side <$> BaseStrategy.position cs.2 = Some side)
           strategies).
Proof.
  rewrite votes_are_positions. unfold len. f_equal.
  induction strategies as [|[cls st] strategies IH]; [reflexivity|].
  rewrite filter_cons. simpl.
  destruct (decide (BaseStrategy.side <$> BaseStrategy.position st = Some side)) as [Hs|Hs].
  - simpl. destruct (BaseStrategy.position st); [|discriminate]. simpl. congruence.
  - exact IH.
Qed.

(** The rows of a direction name exactly the strategies holding a
    position of that side. *)
Lemma holders_named (strategies : list (string * BaseStrategy.State))
    (last_close : Q) (side : string) :
  let holders := filter (fun cs => BaseStrategy.side <$> BaseStrategy.position cs.2
                                   = Some side) strategies in
  map AutoTrader.strategy (AutoTrader.collect_signals holders last_close)
  = map fst holders
  /\ Forall (fun s => AutoTrader.side s = side)
       (AutoTrader.collect_signals holders last_close).
Proof.
  cbv zeta. induction strategies as [|[cls st] strategies [IH1 IH2]];
    [split; [reflexivity|constructor]|].
  rewrite filter_cons. cbn [snd].
  destruct (decide (BaseStrategy.side <$> BaseStrategy.position st = Some side))
    as [Hs|Hs]; [|auto].
  cbn [AutoTrader.collect_signals].
  destruct (BaseStrategy.position st) as [pos|]; [|discriminate Hs].
  cbn [map fst AutoTrader.strategy]. split; [f_equal; exact IH1|].
  constructor; [|exact IH2]. cbn in Hs |- *. congruence.
Qed.

Lemma no_current_signal (o : RealtimeStrategies.StrategyObject) :
  RealtimeStrategies.current_signal o = None.
Proof. destruct o; reflexivity. Qed.

Lemma tally_without_votes (strategies : list RealtimeStrategies.StrategyObject) :
  RealtimeTradingEngine.tally (map RealtimeStrategies.current_signal strategies)
  = (0%Z, 0%Z).
Proof.
  unfold RealtimeTradingEngine.tally.
  generalize (0%Z, 0%Z). induction strategies as [|o strategies IH]; intros votes;
    [reflexivity|].
  cbn [map fold_left]. rewrite no_current_signal. destruct votes. apply IH.
Qed.

(** C9.  In [scan_opportunities] the votes are the sides of the positions
    the strategies hold: a direction is dominant only when at least two
    strategies hold it, the dominant rows are then exactly the rows of its
    holders; two BUY holders and one SELL holder give the two BUY rows, and
    the only opportunity the symbol can yield is a BUY naming the two
    holders (it does yield one on the instance below); with at most one
    holder per direction there is no dominant row and no opportunity.  In
    [check_consensus] the votes are read from [current_signal], which no
    strategy object has: the tally is always 0 to 0 and no action is ever
    handed to [execute_trade], also for two BUY holders and one SELL
    holder, which [scan_opportunities] finds BUY-dominant. *)
Theorem consensus_quorum :
  (forall (self : AutoTrader.State) (strategies : list (string * BaseStrategy.State))
          (last_close : Q),
      let holders side :=
        filter (fun cs => BaseStrategy.side <$> BaseStrategy.position cs.2 = Some side)
          strategies in
      let dominant :=
        AutoTrader.dominant_signals self
          (AutoTrader.collect_signals strategies last_close) in
      (dominant <> [] ->
       ((2 <= len (holders "BUY"))%Z
        /\ dominant = AutoTrader.collect_signals (holders "BUY") last_close)
       \/ ((2 <= len (holders "SELL"))%Z
           /\ dominant = AutoTrader.collect_signals (holders "SELL") last_close))
      /\ (len (holders "BUY") = 2%Z -> len (holders "SELL") = 1%Z ->
          len dominant = 2%Z
          /\ Forall (fun s => AutoTrader.side s = "BUY") dominant
          /\ map AutoTrader.strategy dominant = map fst (holders "BUY")
          /\ forall (symbol : string) (candles : list BaseStrategy.Candle)
                    (found : list AutoTrader.Opportunity),
               AutoTrader.scan_opportunities self [(symbol, candles, strategies)]
               = Ok found ->
               found = []
               \/ exists opp : AutoTrader.Opportunity,
                    found = [opp]
                    /\ AutoTrader.opp_symbol opp = symbol
                    /\ AutoTrader.opp_side opp = "BUY"
                    /\ AutoTrader.opp_strategies opp = map fst (holders "BUY"))
      /\ ((len (holders "BUY") <= 1)%Z -> (len (holders "SELL") <= 1)%Z ->
          dominant = []
          /\ forall (symbol : string) (candles : list BaseStrategy.Candle),
               AutoTrader.scan_opportunities self [(symbol, candles, strategies)]
               = Ok []))
  /\ (let long := Some {| BaseStrategy.side := "BUY"; BaseStrategy.entry_price := 100;
                          BaseStrategy.quantity := 1; BaseStrategy.entry_time := 60 |} in
      let short := Some {| BaseStrategy.side := "SELL"; BaseStrategy.entry_price := 105;
                           BaseStrategy.quantity := 1; BaseStrategy.entry_time := 60 |} in
      let holding name pos :=
        BaseStrategy.set_position (BaseStrategy.init "NSE:TCS-EQ" name) pos in
      let strategies :=
        [RealtimeStrategies.EmaCrossover
           (EmaCrossoverStrategy.set_super (EmaCrossoverStrategy.init "NSE:TCS-EQ" 9 21)
              (holding "ema_crossover" long));
         RealtimeStrategies.SwingTrend
           (SwingTrendStrategy.set_super (SwingTrendStrategy.init "NSE:TCS-EQ" 14 50)
              (holding "swing_trend" long));
         RealtimeStrategies.ScalpingMeanReversion
           (ScalpingMeanReversionStrategy.set_super
              (ScalpingMeanReversionStrategy.init "NSE:TCS-EQ" 20 2)
              (holding "scalping_mean_reversion" short))] in
      let candle := BaseStrategy.mkCandle 6000 "NSE:TCS-EQ" "NSE" 110 110 110 110 10 in
      (exists opp : AutoTrader.Opportunity,
          AutoTrader.scan_opportunities (AutoTrader.init "paper")
            [("NSE:TCS-EQ", replicate 100 candle, RealtimeStrategies.rows strategies)]
          = Ok [opp]
          /\ AutoTrader.opp_side opp = "BUY"
          /\ AutoTrader.opp_strategies opp = ["EmaCrossoverStrategy"; "SwingTrendStrategy"]
          /\ AutoTrader.opp_qty opp = 45%Z
          /\ AutoTrader.opp_net_pnl opp == 402)
      /\ RealtimeStrategies.check_consensus ∅ "NSE:TCS-EQ" strategies = None)
  /\ (forall (active_positions : gset string) (symbol : string)
             (strategies : list RealtimeStrategies.StrategyObject),
        RealtimeTradingEngine.tally (map RealtimeStrategies.current_signal strategies)
        = (0%Z, 0%Z)
        /\ RealtimeStrategies.check_consensus active_positions symbol strategies = None).
Proof.
  split; [|split].
  - intros self strategies last_close holders dominant.
    assert (Hrows : forall side : string,
               filter (fun s => AutoTrader.side s = side)
                 (AutoTrader.collect_signals strategies last_close)
               = AutoTrader.collect_signals (holders side) last_close)
      by (intros side; apply votes_are_positions).
    assert (Hcount : forall side : string,
               len (filter (fun s => AutoTrader.side s = side)
                      (AutoTrader.collect_signals strategies last_close))
               = len (holders side))
      by (intros side; apply votes_count).
    split; [|split].
    + intros Hne. destruct (dominant_needs_quorum _ _ Hne) as [[Hq Hd]|[Hq Hd]].
      * left. unfold AutoTrader.buy_signals in Hq, Hd.
        rewrite Hcount in Hq. rewrite Hrows in Hd. auto.
      * right. unfold AutoTrader.sell_signals in Hq, Hd.
        rewrite Hcount in Hq. rewrite Hrows in Hd. auto.
    + intros Hb Hs.
      assert (Hd : dominant = AutoTrader.collect_signals (holders "BUY") last_close).
      { unfold dominant, AutoTrader.dominant_signals, AutoTrader.buy_signals.
        rewrite Hcount, Hb, Hrows. cbn [Z.leb Z.compare Pos.compare Pos.compare_cont].
        case_live_gate self; reflexivity. }
      destruct (holders_named strategies last_close "BUY") as [Hnames Hsides].
      fold (holders "BUY") in Hnames, Hsides.
      assert (Hlen : len dominant = 2%Z).
      { rewrite Hd, <- Hrows, Hcount. exact Hb. }
      split; [exact Hlen|]. split; [rewrite Hd; exact Hsides|].
      split; [rewrite Hd; exact Hnames|].
      intros symbol candles found. cbn [AutoTrader.scan_opportunities].
      destruct (last candles) as [last_candle|]; [|intros [= <-]; auto].
      destruct (len candles <? 100)%Z; [intros [= <-]; auto|].
      destruct (AutoTrader.evaluate self symbol
                  (AutoTrader.collect_signals strategies (BaseStrategy.close last_candle))
                  (BaseStrategy.close last_candle)) as [[opp|]|e] eqn:E;
        cbn [mbind result_bind bind]; intros [= <-]; auto.
      right. exists opp. split; [reflexivity|].
      assert (Hd' : AutoTrader.dominant_signals self
                      (AutoTrader.collect_signals strategies
                         (BaseStrategy.close last_candle))
                    = AutoTrader.collect_signals (holders "BUY")
                        (BaseStrategy.close last_candle)).
      { unfold AutoTrader.dominant_signals, AutoTrader.buy_signals.
        rewrite (votes_count strategies (BaseStrategy.close last_candle) "BUY").
        fold (holders "BUY"). rewrite Hb.
        rewrite (votes_are_positions strategies (BaseStrategy.close last_candle) "BUY").
        cbn [Z.leb Z.compare Pos.compare Pos.compare_cont].
        case_live_gate self; reflexivity. }
      destruct (holders_named strategies (BaseStrategy.close last_candle) "BUY")
        as [Hnames' Hsides'].
      fold (holders "BUY") in Hnames', Hsides'.
      unfold AutoTrader.evaluate in E. rewrite Hd' in E.
      destruct (AutoTrader.collect_signals (holders "BUY")
                  (BaseStrategy.close last_candle)) as [|first rest] eqn:Erows;
        [discriminate E|].
      apply Forall_cons in Hsides' as [Hfirst _].
      destruct (2 <=? len (first :: rest))%Z; [|discriminate E].
      destruct (div (sum (map AutoTrader.entry (first :: rest)))
                  (inject_Z (len (first :: rest)))) as [avg_entry|]; [|discriminate E].
      cbn [mbind result_bind bind] in E.
      destruct (if String.eqb (AutoTrader.side first) "BUY"
                then r ← div (BaseStrategy.close last_candle - avg_entry) avg_entry;
                     Ok (r * 100)
                else r ← div (avg_entry - BaseStrategy.close last_candle) avg_entry;
                     Ok (r * 100)) as [move_pct|]; [|discriminate E].
      cbn [mbind result_bind bind] in E.
      destruct (div (AutoTrader.position_size self) (BaseStrategy.close last_candle))
        as [q|]; [|discriminate E].
      cbn [mbind result_bind bind] in E.
      match type of E with
      | (if ?c then _ else _) = _ => destruct c; [|discriminate E]
      end.
      injection E as <-. cbn. auto.
    + intros Hb Hs.
      assert (Hd : dominant = []).
      { apply dominant_without_quorum;
          unfold AutoTrader.buy_signals, AutoTrader.sell_signals;
          rewrite Hcount; lia. }
      split; [exact Hd|]. intros symbol candles. cbn [AutoTrader.scan_opportunities].
      destruct (last candles) as [last_candle|]; [|reflexivity].
      destruct (len candles <? 100)%Z; [reflexivity|].
      assert (Hd' : AutoTrader.dominant_signals self
                      (AutoTrader.collect_signals strategies
                         (BaseStrategy.close last_candle)) = []).
      { apply dominant_without_quorum;
          unfold AutoTrader.buy_signals, AutoTrader.sell_signals;
          rewrite votes_count; fold (holders "BUY"); fold (holders "SELL"); lia. }
      unfold AutoTrader.evaluate. rewrite Hd'. reflexivity.
  - cbv zeta. split.
    + eexists. split; [vm_compute; reflexivity|]. repeat split.
    + reflexivity.
  - intros active_positions symbol strategies.
    pose proof (tally_without_votes strategies) as Ht. split; [exact Ht|].
    unfold RealtimeStrategies.check_consensus, RealtimeTradingEngine.check_consensus.
    rewrite Ht. reflexivity.
Qed.

End ConsensusFacts.

(** * Further properties *)

(** ** Risk manager: accounting and risk limits *)

Section RiskManagerAccounting.
Import Py RiskManager.
Local Open Scope Q_scope.

Lemma apply_op_accounting (rm : State) (op : Op) :
  current_capital rm
  = fold_left Qplus (map trade_pnl (closed_trades rm)) (initial_capital rm) ->
  current_capital (apply_op rm op)
  = fold_left Qplus (map trade_pnl (closed_trades (apply_op rm op)))
      (initial_capital (apply_op rm op))
  /\ initial_capital (apply_op rm op) = initial_capital rm.
Proof.
  intros Hinv. destruct op as [symbol side entry_price quantity | symbol exit_price].
  - split; [exact Hinv|reflexivity].
  - unfold apply_op, close_position.
    destruct (open_positions rm !! symbol) as [pos|]; [|split; [exact Hinv|reflexivity]].
    cbn [fst set_closed_trades set_capital set_open_positions
         closed_trades current_capital initial_capital].
    split; [|reflexivity].
    rewrite map_app, fold_left_app. cbn [map fold_left trade_pnl].
    rewrite Hinv. reflexivity.
Qed.

Lemma apply_ops_accounting (ops : list Op) (rm : State) :
  current_capital rm
  = fold_left Qplus (map trade_pnl (closed_trades rm)) (initial_capital rm) ->
  current_capital (apply_ops rm ops)
  = fold_left Qplus (map trade_pnl (closed_trades (apply_ops rm ops)))
      (initial_capital (apply_ops rm ops))
  /\ initial_capital (apply_ops rm ops) = initial_capital rm.
Proof.
  revert rm. induction ops as [|op ops IH]; intros rm Hinv;
    [split; [exact Hinv|reflexivity]|].
  destruct (apply_op_accounting rm op Hinv) as [Hstep Hinit].
  unfold apply_ops in *. cbn [fold_left].
  destruct (IH (apply_op rm op) Hstep) as [H1 H2].
  split; [exact H1|]. rewrite H2. exact Hinit.
Qed.

(** X1.  Capital is moved by closes only, by one addition per closed
    trade: after any sequence of [open_position] and [close_position]
    calls on a fresh manager, the current capital is the initial capital
    with the PnL of the closed trades added to it one after the other, in
    the order of the trade log. *)
Theorem capital_accumulates_realized_pnl
    (initial_capital max_risk_per_trade max_portfolio_risk
     stop_loss_pct take_profit_pct : Q) (ops : list Op) :
  let rm := apply_ops (init initial_capital max_risk_per_trade max_portfolio_risk
                         stop_loss_pct take_profit_pct) ops in
  current_capital rm
  = fold_left Qplus (map trade_pnl (closed_trades rm)) initial_capital
  /\ RiskManager.initial_capital rm = initial_capital.
Proof.
  intros rm. subst rm.
  destruct (apply_ops_accounting ops
              (init initial_capital max_risk_per_trade max_portfolio_risk
                 stop_loss_pct take_profit_pct)) as [Hcap Hinit].
  - reflexivity.
  - rewrite Hinit in Hcap. split; [exact Hcap|exact Hinit].
Qed.

(** X2.  With a positive entry price and positive fractions the stop-loss
    and take-profit levels bracket the entry: stop below and target above
    for BUY, mirrored for every other side string. *)
Theorem levels_bracket_entry (rm : State) (entry_price : Q) (side : string) :
  0 < entry_price -> 0 < stop_loss_pct rm -> 0 < take_profit_pct rm ->
  (side = "BUY" ->
     calculate_stop_loss rm entry_price side < entry_price
     /\ entry_price < calculate_take_profit rm entry_price side)
  /\ (side <> "BUY" ->
      calculate_take_profit rm entry_price side < entry_price
      /\ entry_price < calculate_stop_loss rm entry_price side).
Proof.
  intros He Hs Ht. unfold calculate_stop_loss, calculate_take_profit. split.
  - intros ->. simpl. split; nra.
  - intros Hne. apply String.eqb_neq in Hne. rewrite Hne. split; nra.
Qed.

Lemma levels_bracket_entry_witness :
  0 < 100 /\ 0 < stop_loss_pct default /\ 0 < take_profit_pct default
  /\ calculate_stop_loss default 100 "BUY" < 100
  /\ 100 < calculate_take_profit default 100 "BUY"
  /\ calculate_take_profit default 100 "SELL" < 100
  /\ 100 < calculate_stop_loss default 100 "SELL".
Proof.
  assert (H1 : 0 < 100) by reflexivity.
  assert (H2 : 0 < stop_loss_pct default) by reflexivity.
  assert (H3 : 0 < take_profit_pct default) by reflexivity.
  split; [exact H1|]. split; [exact H2|]. split; [exact H3|].
  destruct (levels_bracket_entry default 100 "BUY" H1 H2 H3) as [Hb _].
  destruct (levels_bracket_entry default 100 "SELL" H1 H2 H3) as [_ Hs].
  specialize (Hb eq_refl). specialize (Hs ltac:(discriminate)). tauto.
Defined.

Lemma inject_Z_nonneg (z : Z) : (0 <= z)%Z -> 0 <= inject_Z z.
Proof. intros H. unfold Qle. simpl. lia. Qed.

(** X3.  With a positive entry price and positive fractions, a freshly
    opened position is never at its stop-loss and at its take-profit at the
    same price, and it is at neither at its own entry price. *)
Theorem stop_loss_excludes_take_profit
    (rm : State) (symbol side : string) (entry_price price : Q) (quantity : Z) :
  0 < entry_price -> 0 < stop_loss_pct rm -> 0 < take_profit_pct rm ->
  let rm1 := open_position rm symbol side entry_price quantity in
  (check_stop_loss rm1 symbol price = true -> check_take_profit rm1 symbol price = false)
  /\ check_stop_loss rm1 symbol entry_price = false
  /\ check_take_profit rm1 symbol entry_price = false.
Proof.
  intros He Hs Ht rm1. subst rm1.
  unfold check_stop_loss, check_take_profit, open_position. simpl.
  rewrite lookup_insert_eq. simpl.
  unfold calculate_stop_loss, calculate_take_profit.
  destruct (String.eqb side "BUY"); split; try split.
  - intros H. apply Qle_bool_iff in H.
    destruct (Qle_bool _ price) eqn:E; [|reflexivity]. apply Qle_bool_iff in E. nra.
  - destruct (Qle_bool entry_price _) eqn:E; [|reflexivity]. apply Qle_bool_iff in E. nra.
  - destruct (Qle_bool _ entry_price) eqn:E; [|reflexivity]. apply Qle_bool_iff in E. nra.
  - intros H. apply Qle_bool_iff in H.
    destruct (Qle_bool price _) eqn:E; [|reflexivity]. apply Qle_bool_iff in E. nra.
  - destruct (Qle_bool _ entry_price) eqn:E; [|reflexivity]. apply Qle_bool_iff in E. nra.
  - destruct (Qle_bool entry_price _) eqn:E; [|reflexivity]. apply Qle_bool_iff in E. nra.
Qed.

Lemma stop_loss_excludes_take_profit_witness :
  let rm1 := open_position default "NSE:TCS-EQ" "BUY" 100 10 in
  0 < 100 /\ 0 < stop_loss_pct default /\ 0 < take_profit_pct default
  /\ check_stop_loss rm1 "NSE:TCS-EQ" 98 = true
  /\ check_take_profit rm1 "NSE:TCS-EQ" 98 = false.
Proof.
  intros rm1.
  assert (H1 : 0 < 100) by reflexivity.
  assert (H2 : 0 < stop_loss_pct default) by reflexivity.
  assert (H3 : 0 < take_profit_pct default) by reflexivity.
  assert (H4 : check_stop_loss rm1 "NSE:TCS-EQ" 98 = true) by (vm_compute; reflexivity).
  split; [exact H1|]. split; [exact H2|]. split; [exact H3|]. split; [exact H4|].
  exact (proj1 (stop_loss_excludes_take_profit default "NSE:TCS-EQ" "BUY" 100 98 10
                  H1 H2 H3) H4).
Defined.

(** X4.  Closing a freshly opened position at a price where its stop-loss
    is hit never realizes a gain, and closing it where its take-profit is
    hit never realizes a loss (non-negative entry price, fractions and
    quantity). *)
Theorem risk_exit_sign
    (rm : State) (symbol side : string) (entry_price price : Q) (quantity : Z) :
  0 <= entry_price -> 0 <= stop_loss_pct rm -> 0 <= take_profit_pct rm ->
  (0 <= quantity)%Z ->
  let rm1 := open_position rm symbol side entry_price quantity in
  (check_stop_loss rm1 symbol price = true ->
     exists (trade : Trade) (rm2 : State),
       close_position rm1 symbol price = (rm2, Some trade)
       /\ trade_pnl trade <= 0
       /\ current_capital rm2 <= current_capital rm)
  /\ (check_take_profit rm1 symbol price = true ->
      exists (trade : Trade) (rm2 : State),
        close_position rm1 symbol price = (rm2, Some trade)
        /\ 0 <= trade_pnl trade
        /\ current_capital rm <= current_capital rm2).
Proof.
  intros He Hs Ht Hq rm1. subst rm1. apply inject_Z_nonneg in Hq.
  unfold check_stop_loss, check_take_profit, close_position, open_position. simpl.
  rewrite lookup_insert_eq. simpl. unfold realized_pnl. simpl.
  unfold calculate_stop_loss, calculate_take_profit.
  destruct (String.eqb side "BUY"); split; intros H; apply Qle_bool_iff in H;
    eexists _, _; (split; [reflexivity|]); simpl.
  - assert (price - entry_price <= 0) by nra. split; nra.
  - assert (0 <= price - entry_price) by nra. split; nra.
  - assert (entry_price - price <= 0) by nra. split; nra.
  - assert (0 <= entry_price - price) by nra. split; nra.
Qed.

Lemma risk_exit_sign_witness :
  let rm1 := open_position default "NSE:TCS-EQ" "BUY" 100 10 in
  0 <= 100 /\ 0 <= stop_loss_pct default /\ 0 <= take_profit_pct default
  /\ (0 <= 10)%Z
  /\ check_stop_loss rm1 "NSE:TCS-EQ" 97 = true
  /\ exists (trade : Trade) (rm2 : State),
       close_position rm1 "NSE:TCS-EQ" 97 = (rm2, Some trade)
       /\ trade_pnl trade <= 0
       /\ current_capital rm2 <= current_capital default.
Proof.
  intros rm1.
  assert (H1 : 0 <= 100) by discriminate.
  assert (H2 : 0 <= stop_loss_pct default) by discriminate.
  assert (H3 : 0 <= take_profit_pct default) by discriminate.
  assert (H4 : (0 <= 10)%Z) by lia.
  assert (H5 : check_stop_loss rm1 "NSE:TCS-EQ" 97 = true) by (vm_compute; reflexivity).
  split; [exact H1|]. split; [exact H2|]. split; [exact H3|]. split; [exact H4|].
  split; [exact H5|].
  exact (proj1 (risk_exit_sign default "NSE:TCS-EQ" "BUY" 100 97 10 H1 H2 H3 H4) H5).
Defined.

(** X6.  Opening a position for a symbol that has none and closing it
    again restores the manager: everything but the capital and the trade
    log is as before, the capital has moved by the trade's PnL and the log
    has grown by that one trade. *)
Theorem open_close_round_trip
    (rm : State) (symbol side : string) (entry_price exit_price : Q) (quantity : Z) :
  open_positions rm !! symbol = None ->
  exists trade : Trade,
    close_position (open_position rm symbol side entry_price quantity) symbol exit_price
    = (set_closed_trades (set_capital rm (current_capital rm + trade_pnl trade))
         (closed_trades rm ++ [trade]),
       Some trade)
    /\ trade_symbol trade = symbol
    /\ trade_entry trade = entry_price
    /\ trade_exit trade = exit_price
    /\ trade_quantity trade = quantity.
Proof.
  intros Hnone. unfold close_position, open_position. simpl.
  rewrite lookup_insert_eq. cbv zeta.
  lazymatch goal with
  | |- exists trade : Trade, (_, Some ?t) = _ /\ _ => exists t
  end.
  split; [|simpl; auto].
  unfold set_closed_trades, set_capital, set_open_positions. simpl.
  rewrite delete_insert_eq, delete_id by exact Hnone. reflexivity.
Qed.

Lemma open_close_round_trip_witness :
  open_positions default !! "NSE:TCS-EQ" = None
  /\ exists trade : Trade,
       close_position (open_position default "NSE:TCS-EQ" "BUY" 100 10) "NSE:TCS-EQ" 110
       = (set_closed_trades (set_capital default (current_capital default + trade_pnl trade))
            [trade],
          Some trade).
Proof.
  assert (H : open_positions default !! "NSE:TCS-EQ" = None) by reflexivity.
  split; [exact H|].
  destruct (open_close_round_trip default "NSE:TCS-EQ" "BUY" 100 110 10 H)
    as (trade & Heq & _).
  exists trade. exact Heq.
Defined.



Lemma filter_disjoint_length {A : Type} (P R : A -> Prop)
    `{forall x, Decision (P x)} `{forall x, Decision (R x)} (l : list A) :
  (forall x : A, P x -> R x -> False) ->
  (length (filter P l) + length (filter R l) <= length l)%nat.
Proof.
  intros Hdis. induction l as [|x l IH]; [reflexivity|].
  rewrite !filter_cons.
  destruct (decide (P x)) as [Hp|Hp]; destruct (decide (R x)) as [Hr|Hr]; simpl; try lia.
  exfalso. exact (Hdis x Hp Hr).
Qed.

(** The report of [get_stats] for a non-empty history, with every guarded
    division carried out. *)
Lemma get_stats_nonempty_value (rm : State) :
  closed_trades rm <> [] ->
  exists avg_win avg_loss profit_factor : Q,
    get_stats rm
    = Ok (<["total_trades" := inject_Z (len (closed_trades rm))]>
         (<["winning_trades" :=
              inject_Z (len (filter (fun t => ltb 0 (trade_pnl t) = true) (closed_trades rm)))]>
         (<["losing_trades" :=
              inject_Z (len (filter (fun t => ltb (trade_pnl t) 0 = true) (closed_trades rm)))]>
         (<["win_rate" :=
              inject_Z (len (filter (fun t => ltb 0 (trade_pnl t) = true) (closed_trades rm)))
              / inject_Z (len (closed_trades rm)) * 100]>
         (<["total_pnl" := sum (map trade_pnl (closed_trades rm))]>
         (<["avg_win" := avg_win]>
         (<["avg_loss" := avg_loss]>
         (<["profit_factor" := profit_factor]>
         (<["final_capital" := current_capital rm]> ∅))))))))).
Proof.
  intros Hne. unfold get_stats.
  destruct (closed_trades rm) as [|t l] eqn:Hl; [congruence|].
  set (wins := filter _ (t :: l)). set (losses := filter _ (t :: l)).
  assert (Hw : exists x, match wins with
                         | [] => Ok 0
                         | _ :: _ => div (sum (map trade_pnl wins)) (inject_Z (len wins))
                         end = Ok x).
  { destruct wins as [|w ws]; [eauto|].
    rewrite div_ok by apply inject_len_nonzero. eauto. }
  assert (Hlo : exists x, match losses with
                          | [] => Ok 0
                          | _ :: _ => div (sum (map trade_pnl losses)) (inject_Z (len losses))
                          end = Ok x).
  { destruct losses as [|w ws]; [eauto|].
    rewrite div_ok by apply inject_len_nonzero. eauto. }
  assert (Hpf : exists x,
             (if ltb 0 (Qabs (sum (map trade_pnl losses)))
              then div (sum (map trade_pnl wins)) (Qabs (sum (map trade_pnl losses)))
              else Ok 0) = Ok x).
  { destruct (ltb 0 (Qabs (sum (map trade_pnl losses)))) eqn:E; [|eauto].
    apply ltb_lt in E. rewrite div_ok by (apply Qnot_eq_sym, Qlt_not_eq, E). eauto. }
  assert (Hwr : (if (0 <? len (t :: l))%Z
                 then r ← div (inject_Z (len wins)) (inject_Z (len (t :: l))); Ok (r * 100)
                 else Ok 0)
                = Ok (inject_Z (len wins) / inject_Z (len (t :: l)) * 100)).
  { assert (E : (0 <? len (t :: l))%Z = true) by (apply Z.ltb_lt; unfold len; simpl; lia).
    rewrite E, div_ok by apply inject_len_nonzero. reflexivity. }
  destruct Hw as [aw Haw]. destruct Hlo as [al Hal]. destruct Hpf as [pf Hpf].
  exists aw, al, pf. rewrite Haw, Hal, Hpf, Hwr. reflexivity.
Qed.

(** X8.  For a non-empty history [get_stats] reports the number of closed
    trades, winning and losing counts that together do not exceed it, a
    win rate between 0 and 100, the PnL sum and the current capital. *)
Theorem get_stats_counts_consistent (rm : State) :
  closed_trades rm <> [] ->
  exists (stats : gmap string Q) (wins losses : Z) (win_rate : Q),
    get_stats rm = Ok stats
    /\ stats !! "total_trades" = Some (inject_Z (len (closed_trades rm)))
    /\ stats !! "winning_trades" = Some (inject_Z wins)
    /\ stats !! "losing_trades" = Some (inject_Z losses)
    /\ (0 <= wins)%Z /\ (0 <= losses)%Z
    /\ (wins + losses <= len (closed_trades rm))%Z
    /\ stats !! "win_rate" = Some win_rate
    /\ 0 <= win_rate /\ win_rate <= 100
    /\ stats !! "total_pnl" = Some (sum (map trade_pnl (closed_trades rm)))
    /\ stats !! "final_capital" = Some (current_capital rm).
Proof.
  intros Hne. destruct (get_stats_nonempty_value rm Hne) as (aw & al & pf & Hst).
  set (wins := filter (fun t => ltb 0 (trade_pnl t) = true) (closed_trades rm)) in *.
  set (losses := filter (fun t => ltb (trade_pnl t) 0 = true) (closed_trades rm)) in *.
  assert (Hsum : (length wins + length losses <= length (closed_trades rm))%nat).
  { apply filter_disjoint_length. intros t Hp Hn.
    apply ltb_lt in Hp, Hn. lra. }
  assert (Htot : 0 < inject_Z (len (closed_trades rm))).
  { destruct (closed_trades rm); [congruence|]. unfold len, Qlt. simpl. lia. }
  assert (Hwn : 0 <= inject_Z (len wins)) by (apply inject_Z_nonneg; unfold len; lia).
  assert (Hwt : inject_Z (len wins) <= inject_Z (len (closed_trades rm))).
  { rewrite <- Zle_Qle. unfold len. lia. }
  eexists _, (len wins), (len losses), _. split; [exact Hst|].
  split; [reflexivity|]. split; [reflexivity|]. split; [reflexivity|].
  split; [unfold len; lia|]. split; [unfold len; lia|]. split; [unfold len; lia|].
  split; [reflexivity|].
  split; [|split; [|split; reflexivity]].
  - apply Qmult_le_0_compat; [|discriminate].
    apply Qle_shift_div_l; [exact Htot|]. lra.
  - assert (H1 : inject_Z (len wins) / inject_Z (len (closed_trades rm)) <= 1).
    { apply Qle_shift_div_r; [exact Htot|]. lra. }
    lra.
Qed.

Lemma get_stats_counts_consistent_witness :
  let rm := (close_position (open_position default "NSE:TCS-EQ" "BUY" 100 10)
               "NSE:TCS-EQ" 110).1 in
  closed_trades rm <> []
  /\ exists stats : gmap string Q,
       get_stats rm = Ok stats
       /\ stats !! "total_trades" = Some (inject_Z 1)
       /\ stats !! "final_capital" = Some (current_capital rm).
Proof.
  intros rm.
  assert (H : closed_trades rm <> []) by discriminate.
  split; [exact H|].
  destruct (get_stats_counts_consistent rm H)
    as (stats & wins & losses & wr & Hst & Htt & _ & _ & _ & _ & _ & _ & _ & _ & _ & Hfc).
  exists stats. split; [exact Hst|]. split; [exact Htt|exact Hfc].
Defined.

End RiskManagerAccounting.

(** ** Moving averages of the strategy base class *)

Section MovingAverageFacts.
Import Py.
Local Open Scope Q_scope.

Lemma fold_sum_bounds (lo hi : Q) (l : list Q) (a : Q) :
  Forall (fun x => lo <= x /\ x <= hi) l ->
  a + inject_Z (len l) * lo <= fold_left Qplus l a
  /\ fold_left Qplus l a <= a + inject_Z (len l) * hi.
Proof.
  revert a. induction l as [|x l IH]; intros a Hall.
  - unfold len. cbn [length fold_left]. change (inject_Z (Z.of_nat 0)) with 0. lra.
  - apply Forall_cons in Hall as [[Hlo Hhi] Hall]. simpl fold_left.
    destruct (IH (a + x) Hall) as [H1 H2].
    pose proof (inject_len_cons x l) as Hlen.
    split; nra.
Qed.

Lemma mean_bounds (lo hi : Q) (l : list Q) :
  l <> [] ->
  Forall (fun x => lo <= x /\ x <= hi) l ->
  lo <= sum l / inject_Z (len l) /\ sum l / inject_Z (len l) <= hi.
Proof.
  intros Hne Hall. destruct (fold_sum_bounds lo hi l 0 Hall) as [H1 H2].
  fold (sum l) in H1, H2.
  assert (Hpos : 0 < inject_Z (len l)).
  { destruct l; [congruence|]. unfold len, Qlt. simpl. lia. }
  split.
  - apply Qle_shift_div_l; [exact Hpos|]. lra.
  - apply Qle_shift_div_r; [exact Hpos|]. lra.
Qed.

Lemma slice_to_Forall {A : Type} (P : A -> Prop) (i : Z) (l : list A) :
  Forall P l -> Forall P (slice_to i l).
Proof.
  intros H. unfold slice_to. destruct (i <? 0)%Z; apply Forall_take, H.
Qed.

Lemma slice_to_length {A : Type} (n : Z) (l : list A) :
  (0 <= n <= len l)%Z -> len (slice_to n l) = n.
Proof.
  intros Hn. unfold slice_to.
  destruct (n <? 0)%Z eqn:E; [apply Z.ltb_lt in E; lia|].
  unfold len in *. rewrite length_take. lia.
Qed.

Lemma ema_fold_bounds (lo hi m : Q) (rest : list Q) (ema : Q) :
  0 <= m -> m <= 1 ->
  lo <= ema /\ ema <= hi ->
  Forall (fun x => lo <= x /\ x <= hi) rest ->
  lo <= fold_left (fun ema value => (value - ema) * m + ema) rest ema
  /\ fold_left (fun ema value => (value - ema) * m + ema) rest ema <= hi.
Proof.
  intros Hm0 Hm1. revert ema. induction rest as [|v rest IH]; intros ema He Hall.
  - exact He.
  - apply Forall_cons in Hall as [[Hlo Hhi] Hall]. simpl. apply IH; [|exact Hall].
    destruct He as [He1 He2].
    assert (0 <= m * (v - lo)) by (apply Qmult_le_0_compat; lra).
    assert (0 <= (1 - m) * (ema - lo)) by (apply Qmult_le_0_compat; lra).
    assert (0 <= m * (hi - v)) by (apply Qmult_le_0_compat; lra).
    assert (0 <= (1 - m) * (hi - ema)) by (apply Qmult_le_0_compat; lra).
    split; lra.
Qed.

Lemma inject_Z_pos (z : Z) : (1 <= z)%Z -> 0 < inject_Z z.
Proof. intros H. unfold Qlt. simpl. lia. Qed.

Lemma inject_Z_nonzero (z : Z) : (1 <= z)%Z -> ~ inject_Z z == 0.
Proof. intros H. unfold Qeq. simpl. lia. Qed.

(** The value of [_calculate_ema] once every division is carried out. *)
Lemma ema_value (values : list Q) (period : Z) :
  (1 <= period)%Z ->
  BaseStrategy._calculate_ema values period
  = if (len values <? period)%Z then Ok None
    else Ok (Some (fold_left
                     (fun ema value => (value - ema) * (2 / inject_Z (period + 1)) + ema)
                     (slice_from period values)
                     (sum (slice_to period values) / inject_Z period))).
Proof.
  intros Hp. unfold BaseStrategy._calculate_ema.
  destruct (len values <? period)%Z; [reflexivity|].
  rewrite (div_ok 2) by (apply inject_Z_nonzero; lia).
  rewrite (div_ok _ (inject_Z period)) by (apply inject_Z_nonzero; lia).
  reflexivity.
Qed.

Lemma ema_bounds (values : list Q) (period : Z) (lo hi : Q) :
  (1 <= period <= len values)%Z ->
  Forall (fun x => lo <= x /\ x <= hi) values ->
  exists e : Q,
    BaseStrategy._calculate_ema values period = Ok (Some e) /\ lo <= e /\ e <= hi.
Proof.
  intros Hp Hall. rewrite ema_value by lia.
  assert (E : (len values <? period)%Z = false) by (apply Z.ltb_ge; lia).
  rewrite E. eexists. split; [reflexivity|].
  assert (Hlen : len (slice_to period values) = period) by (apply slice_to_length; lia).
  assert (Hseed := mean_bounds lo hi (slice_to period values)).
  rewrite Hlen in Hseed.
  apply ema_fold_bounds.
  - apply Qlt_le_weak, Qlt_shift_div_l; [apply inject_Z_pos; lia|]. lra.
  - apply Qle_shift_div_r; [apply inject_Z_pos; lia|].
    rewrite Qmult_1_l. rewrite <- (Zle_Qle 2). lia.
  - apply Hseed; [|apply slice_to_Forall, Hall].
    intros Hnil. rewrite Hnil in Hlen. unfold len in Hlen. simpl in Hlen. lia.
  - apply slice_from_Forall, Hall.
Qed.

(** X10.  [_calculate_ema] returns [None] exactly when there are fewer
    than [period] values.  Otherwise it raises [ZeroDivisionError] for the
    periods 0 and -1 (the seed mean divides by [period], the multiplier by
    [period + 1]) and returns a value for every other period: with a
    period of at least 1 it never raises. *)
Theorem ema_none_value_or_raise (values : list Q) (period : Z) :
  ((len values < period)%Z -> BaseStrategy._calculate_ema values period = Ok None)
  /\ ((period <= len values)%Z ->
      (period = 0%Z \/ period = (-1)%Z ->
       BaseStrategy._calculate_ema values period = Raise ZeroDivisionError)
      /\ (period <> 0%Z -> period <> (-1)%Z ->
          exists e : Q, BaseStrategy._calculate_ema values period = Ok (Some e))).
Proof.
  unfold BaseStrategy._calculate_ema. split.
  - intros Hshort. apply Z.ltb_lt in Hshort. rewrite Hshort. reflexivity.
  - intros Hlong.
    assert (E : (len values <? period)%Z = false) by (apply Z.ltb_ge; lia).
    rewrite E. split.
    + intros [-> | ->]; reflexivity.
    + intros H0 H1.
      assert (Hn1 : ~ inject_Z (period + 1) == 0) by (unfold Qeq; simpl; lia).
      assert (Hn0 : ~ inject_Z period == 0) by (unfold Qeq; simpl; lia).
      rewrite (div_ok 2 _ Hn1). cbn [mbind result_bind bind].
      rewrite (div_ok _ _ Hn0). cbn [mbind result_bind bind].
      eexists. reflexivity.
Qed.

(** X11.  [_calculate_sma] returns [None] exactly when there are fewer than
    [period] values.  Otherwise it raises [ZeroDivisionError] for the
    period 0, whatever the values, and returns a value for every other
    period: with a period of at least 1 it never raises. *)
Theorem sma_none_value_or_raise (values : list Q) (period : Z) :
  ((len values < period)%Z -> BaseStrategy._calculate_sma values period = Ok None)
  /\ ((period <= len values)%Z ->
      (period = 0%Z ->
       BaseStrategy._calculate_sma values period = Raise ZeroDivisionError)
      /\ (period <> 0%Z ->
          exists r : Q, BaseStrategy._calculate_sma values period = Ok (Some r)))
  /\ BaseStrategy._calculate_sma values 0 = Raise ZeroDivisionError.
Proof.
  unfold BaseStrategy._calculate_sma. split; [|split].
  - intros Hshort. apply Z.ltb_lt in Hshort. rewrite Hshort. reflexivity.
  - intros Hlong.
    assert (E : (len values <? period)%Z = false) by (apply Z.ltb_ge; lia).
    rewrite E. split.
    + intros ->. reflexivity.
    + intros H0.
      assert (Hn0 : ~ inject_Z period == 0) by (unfold Qeq; simpl; lia).
      rewrite (div_ok _ _ Hn0). cbn [mbind result_bind bind].
      eexists. reflexivity.
  - assert (E : (len values <? 0)%Z = false) by (apply Z.ltb_ge; unfold len; lia).
    rewrite E. reflexivity.
Qed.

End MovingAverageFacts.

(** ** EMA crossover strategy *)

Section EmaCrossoverFacts.
Import Py EmaCrossoverStrategy.
Local Open Scope Q_scope.

Lemma ema_history_step_fields (st : State) (close : Q) :
  let st2 := ema_history_step st close in
  fast_period st2 = fast_period st
  /\ slow_period st2 = slow_period st
  /\ super st2 = super st
  /\ prev_fast_ema st2 = prev_fast_ema st
  /\ prev_slow_ema st2 = prev_slow_ema st
  /\ price_history st2
     = (if (Z.max (fast_period st) (slow_period st) * 3
            <? len (price_history st ++ [close]))%Z
        then slice_from (- Z.max (fast_period st) (slow_period st) * 3)
               (price_history st ++ [close])
        else price_history st ++ [close]).
Proof.
  unfold ema_history_step. simpl.
  destruct (_ <? _)%Z; simpl; repeat split; reflexivity.
Qed.

Lemma ema_on_candle_unfold (st : State) (candle : BaseStrategy.Candle) :
  on_candle st candle
  = (let st2 := ema_history_step st (BaseStrategy.close candle) in
     fast_ema ← BaseStrategy._calculate_ema (price_history st2) (fast_period st2);
     slow_ema ← BaseStrategy._calculate_ema (price_history st2) (slow_period st2);
     match fast_ema, slow_ema with
     | Some fast_ema, Some slow_ema =>
         match prev_fast_ema st2, prev_slow_ema st2 with
         | Some prev_fast, Some prev_slow =>
             if truthy_num prev_fast && truthy_num prev_slow then
               if Qle_bool prev_fast prev_slow && ltb slow_ema fast_ema
               then Ok (set_prev (set_super st2
                                    (BaseStrategy._handle_buy_signal (super st2) candle 1))
                          fast_ema slow_ema,
                        Some {| action := "BUY"; price := BaseStrategy.close candle |})
               else if Qle_bool prev_slow prev_fast && ltb fast_ema slow_ema
               then Ok (set_prev (set_super st2
                                    (BaseStrategy._handle_sell_signal (super st2) candle 1))
                          fast_ema slow_ema,
                        Some {| action := "SELL"; price := BaseStrategy.close candle |})
               else Ok (set_prev st2 fast_ema slow_ema, None)
             else Ok (set_prev st2 fast_ema slow_ema, None)
         | _, _ => Ok (set_prev st2 fast_ema slow_ema, None)
         end
     | _, _ => Ok (st2, None)
     end).
Proof. reflexivity. Qed.

Lemma ema_option (values : list Q) (period : Z) (lo hi : Q) :
  (1 <= period)%Z ->
  Forall (fun x => lo <= x /\ x <= hi) values ->
  ((len values < period)%Z /\ BaseStrategy._calculate_ema values period = Ok None)
  \/ ((period <= len values)%Z
      /\ exists e : Q,
           BaseStrategy._calculate_ema values period = Ok (Some e) /\ lo <= e /\ e <= hi).
Proof.
  intros Hp Hall. destruct (Z_lt_le_dec (len values) period) as [Hs|Hl].
  - left. split; [exact Hs|]. rewrite ema_value by exact Hp.
    apply Z.ltb_lt in Hs. rewrite Hs. reflexivity.
  - right. split; [exact Hl|]. apply ema_bounds; [lia|exact Hall].
Qed.

Lemma ema_option_any (values : list Q) (period : Z) :
  (1 <= period)%Z ->
  ((len values < period)%Z /\ BaseStrategy._calculate_ema values period = Ok None)
  \/ ((period <= len values)%Z
      /\ exists e : Q, BaseStrategy._calculate_ema values period = Ok (Some e)).
Proof.
  intros Hp. rewrite ema_value by exact Hp.
  destruct (len values <? period)%Z eqn:E.
  - left. apply Z.ltb_lt in E. auto.
  - right. apply Z.ltb_ge in E. eauto.
Qed.

(** The state a warming-up strategy is in after [k] candles. *)
Lemma ema_warm_up_step (symbol : string) (fast slow k : Z) (st : State)
    (candle : BaseStrategy.Candle) :
  (1 <= fast)%Z -> (1 <= slow)%Z -> (0 <= k < Z.max fast slow)%Z ->
  fast_period st = fast -> slow_period st = slow ->
  len (price_history st) = k ->
  super st = BaseStrategy.init symbol "ema_crossover" ->
  prev_fast_ema st = None ->
  exists st' : State,
    on_candle st candle = Ok (st', None)
    /\ fast_period st' = fast /\ slow_period st' = slow
    /\ len (price_history st') = (k + 1)%Z
    /\ super st' = BaseStrategy.init symbol "ema_crossover"
    /\ ((k + 1 < Z.max fast slow)%Z -> prev_fast_ema st' = None).
Proof.
  intros Hf Hs Hk Hfast Hslow Hlen Hsup Hprev.
  rewrite ema_on_candle_unfold.
  destruct (ema_history_step_fields st (BaseStrategy.close candle))
    as (Hf2 & Hs2 & Hsup2 & Hpf2 & Hps2 & Hh2).
  set (st2 := ema_history_step st (BaseStrategy.close candle)) in *.
  cbv zeta. rewrite Hfast, Hslow in Hh2.
  assert (Hcap : (Z.max fast slow * 3 <? len (price_history st ++ [BaseStrategy.close candle]))%Z
                 = false).
  { apply Z.ltb_ge. rewrite len_app_one. lia. }
  rewrite Hcap in Hh2.
  assert (Hlen2 : len (price_history st2) = (k + 1)%Z).
  { rewrite Hh2, len_app_one. lia. }
  rewrite Hf2, Hs2, Hfast, Hslow.
  destruct (ema_option_any (price_history st2) fast Hf) as [[Hlf ->]|[Hlf [ef ->]]];
    destruct (ema_option_any (price_history st2) slow Hs) as [[Hls ->]|[Hls [es ->]]];
    simpl.
  - exists st2. repeat split; try congruence.
  - exists st2. repeat split; try congruence.
  - exists st2. repeat split; try congruence.
  - rewrite Hpf2, Hprev. eexists. split; [reflexivity|]. simpl.
    repeat split; try congruence. intros Hlt. lia.
Qed.

(** X12.  Warm-up of the EMA crossover strategy: with both periods at
    least 1, none of the first [max fast_period slow_period] candles
    returns a signal, whatever their prices, and the strategy is still
    flat with an empty trade log after them. *)
Theorem ema_crossover_warm_up
    (symbol : string) (fast slow : Z) (candles : list BaseStrategy.Candle) :
  (1 <= fast)%Z -> (1 <= slow)%Z ->
  (len candles <= Z.max fast slow)%Z ->
  exists st' : State,
    on_candles (init symbol fast slow) candles
    = Ok (st', replicate (length candles) None)
    /\ BaseStrategy.position (super st') = None
    /\ BaseStrategy.trades (super st') = [].
Proof.
  intros Hf Hs Hn.
  assert (H : forall (candles : list BaseStrategy.Candle) (k : Z) (st : State),
             (0 <= k)%Z -> (k + len candles <= Z.max fast slow)%Z ->
             fast_period st = fast -> slow_period st = slow ->
             len (price_history st) = k ->
             super st = BaseStrategy.init symbol "ema_crossover" ->
             ((k < Z.max fast slow)%Z -> prev_fast_ema st = None) ->
             exists st' : State,
               on_candles st candles = Ok (st', replicate (length candles) None)
               /\ super st' = BaseStrategy.init symbol "ema_crossover").
  { clear candles Hn. induction candles as [|c cs IH];
      intros k st Hk Hkn Hfast Hslow Hlen Hsup Hprev.
    - exists st. split; [reflexivity|exact Hsup].
    - assert (Hc : len (c :: cs) = (len cs + 1)%Z) by (unfold len; simpl length; lia).
      assert (Hcs : (0 <= len cs)%Z) by (unfold len; lia).
      destruct (ema_warm_up_step symbol fast slow k st c Hf Hs ltac:(lia)
                  Hfast Hslow Hlen Hsup (Hprev ltac:(lia)))
        as (st1 & Hon & Hf1 & Hs1 & Hl1 & Hsup1 & Hp1).
      destruct (IH (k + 1)%Z st1 ltac:(lia) ltac:(lia) Hf1 Hs1 Hl1 Hsup1 Hp1)
        as (st2 & Hons & Hsup2).
      exists st2. simpl. rewrite Hon. simpl. rewrite Hons. simpl.
      split; [reflexivity|exact Hsup2]. }
  destruct (H candles 0%Z (init symbol fast slow)) as (st' & Hon & Hsup);
    try reflexivity; try lia.
  exists st'. split; [exact Hon|]. rewrite Hsup. split; reflexivity.
Qed.

Lemma ema_crossover_warm_up_witness :
  let c := fun (t : Z) (p : Q) => BaseStrategy.mkCandle t "NSE:TCS-EQ" "NSE" p p p p 10 in
  let candles := [c 60%Z 100; c 120%Z 90; c 180%Z 120] in
  (1 <= 2)%Z /\ (1 <= 3)%Z /\ (len candles <= Z.max 2 3)%Z
  /\ exists st' : State,
       on_candles (init "NSE:TCS-EQ" 2 3) candles = Ok (st', [None; None; None])
       /\ BaseStrategy.position (super st') = None.
Proof.
  intros c candles.
  assert (H1 : (1 <= 2)%Z) by lia.
  assert (H2 : (1 <= 3)%Z) by lia.
  assert (H3 : (len candles <= Z.max 2 3)%Z) by (unfold len; simpl; lia).
  split; [exact H1|]. split; [exact H2|]. split; [exact H3|].
  destruct (ema_crossover_warm_up "NSE:TCS-EQ" 2 3 candles H1 H2 H3)
    as (st' & Hon & Hpos & _).
  exists st'. split; [exact Hon|exact Hpos].
Defined.

(** The state a strategy is in while it is fed a constant series. *)
Lemma ema_constant_step (symbol : string) (fast slow : Z) (p : Q) (st : State)
    (candle : BaseStrategy.Candle) :
  (1 <= fast)%Z -> (1 <= slow)%Z ->
  BaseStrategy.close candle == p ->
  fast_period st = fast -> slow_period st = slow ->
  Forall (fun x => x == p) (price_history st) ->
  super st = BaseStrategy.init symbol "ema_crossover" ->
  (forall x : Q, prev_fast_ema st = Some x -> x == p) ->
  (forall x : Q, prev_slow_ema st = Some x -> x == p) ->
  exists st' : State,
    on_candle st candle = Ok (st', None)
    /\ fast_period st' = fast /\ slow_period st' = slow
    /\ Forall (fun x => x == p) (price_history st')
    /\ super st' = BaseStrategy.init symbol "ema_crossover"
    /\ (forall x : Q, prev_fast_ema st' = Some x -> x == p)
    /\ (forall x : Q, prev_slow_ema st' = Some x -> x == p).
Proof.
  intros Hf Hs Hc Hfast Hslow Hall Hsup Hpf Hps.
  rewrite ema_on_candle_unfold.
  destruct (ema_history_step_fields st (BaseStrategy.close candle))
    as (Hf2 & Hs2 & Hsup2 & Hpf2 & Hps2 & Hh2).
  set (st2 := ema_history_step st (BaseStrategy.close candle)) in *.
  cbv zeta.
  assert (Hall2 : Forall (fun x => x == p) (price_history st2)).
  { rewrite Hh2.
    assert (Forall (fun x => x == p) (price_history st ++ [BaseStrategy.close candle])).
    { apply Forall_app. split; [exact Hall|]. repeat constructor. exact Hc. }
    destruct (_ <? _)%Z; [apply slice_from_Forall|]; assumption. }
  assert (Hbnd : Forall (fun x => p <= x /\ x <= p) (price_history st2)).
  { eapply Forall_impl; [exact Hall2|]. intros x Hx. simpl in Hx. rewrite Hx.
    split; apply Qle_refl. }
  rewrite Hf2, Hs2, Hfast, Hslow.
  destruct (ema_option (price_history st2) fast p p Hf Hbnd)
    as [[Hlf ->]|[Hlf (ef & -> & Hef1 & Hef2)]];
    destruct (ema_option (price_history st2) slow p p Hs Hbnd)
    as [[Hls ->]|[Hls (es & -> & Hes1 & Hes2)]];
    simpl.
  1-3: exists st2; rewrite Hpf2, Hps2; repeat split; try congruence; assumption.
  assert (Hef : ef == p) by (apply Qle_antisym; assumption).
  assert (Hes : es == p) by (apply Qle_antisym; assumption).
  assert (E1 : ltb es ef = false) by (apply ltb_ge; rewrite Hef, Hes; apply Qle_refl).
  assert (E2 : ltb ef es = false) by (apply ltb_ge; rewrite Hef, Hes; apply Qle_refl).
  rewrite E1, E2.
  exists (set_prev st2 ef es). split.
  - destruct (prev_fast_ema st2) as [pf|]; [|reflexivity].
    destruct (prev_slow_ema st2) as [ps|]; [|reflexivity].
    destruct (truthy_num pf), (truthy_num ps), (Qle_bool pf ps), (Qle_bool ps pf);
      reflexivity.
  - simpl. repeat split; try congruence; try assumption.
Qed.

(** X13.  On a constant price series the EMA crossover strategy never
    returns a signal and never opens a position, whatever the length of
    the series (both periods at least 1): the two averages coincide. *)
Theorem ema_crossover_constant_never_trades
    (symbol : string) (fast slow : Z) (p : Q) (candles : list BaseStrategy.Candle) :
  (1 <= fast)%Z -> (1 <= slow)%Z ->
  Forall (fun c => BaseStrategy.close c == p) candles ->
  exists st' : State,
    on_candles (init symbol fast slow) candles
    = Ok (st', replicate (length candles) None)
    /\ BaseStrategy.position (super st') = None
    /\ BaseStrategy.trades (super st') = [].
Proof.
  intros Hf Hs Hall.
  assert (H : forall st : State,
             fast_period st = fast -> slow_period st = slow ->
             Forall (fun x => x == p) (price_history st) ->
             super st = BaseStrategy.init symbol "ema_crossover" ->
             (forall x : Q, prev_fast_ema st = Some x -> x == p) ->
             (forall x : Q, prev_slow_ema st = Some x -> x == p) ->
             exists st' : State,
               on_candles st candles = Ok (st', replicate (length candles) None)
               /\ super st' = BaseStrategy.init symbol "ema_crossover").
  { induction Hall as [|c cs Hc Hcs IH]; intros st Hfast Hslow Hh Hsup Hpf Hps.
    - exists st. split; [reflexivity|exact Hsup].
    - destruct (ema_constant_step symbol fast slow p st c Hf Hs Hc Hfast Hslow Hh Hsup Hpf Hps)
        as (st1 & Hon & Hf1 & Hs1 & Hh1 & Hsup1 & Hpf1 & Hps1).
      destruct (IH st1 Hf1 Hs1 Hh1 Hsup1 Hpf1 Hps1) as (st2 & Hons & Hsup2).
      exists st2. simpl. rewrite Hon. simpl. rewrite Hons. simpl.
      split; [reflexivity|exact Hsup2]. }
  destruct (H (init symbol fast slow)) as (st' & Hon & Hsup);
    try reflexivity; try constructor; try discriminate.
  exists st'. split; [exact Hon|]. rewrite Hsup. split; reflexivity.
Qed.

Lemma ema_crossover_constant_never_trades_witness :
  let c := fun t : Z => BaseStrategy.mkCandle t "NSE:TCS-EQ" "NSE" 100 100 100 100 10 in
  let candles := [c 60%Z; c 120%Z; c 180%Z; c 240%Z] in
  (1 <= 1)%Z /\ (1 <= 2)%Z
  /\ Forall (fun c => BaseStrategy.close c == 100) candles
  /\ exists st' : State,
       on_candles (init "NSE:TCS-EQ" 1 2) candles = Ok (st', [None; None; None; None])
       /\ BaseStrategy.position (super st') = None.
Proof.
  intros c candles.
  assert (H1 : (1 <= 1)%Z) by lia.
  assert (H2 : (1 <= 2)%Z) by lia.
  assert (H3 : Forall (fun c => BaseStrategy.close c == 100) candles)
    by (repeat constructor).
  split; [exact H1|]. split; [exact H2|]. split; [exact H3|].
  destruct (ema_crossover_constant_never_trades "NSE:TCS-EQ" 1 2 100 candles H1 H2 H3)
    as (st' & Hon & Hpos & _).
  exists st'. split; [exact Hon|exact Hpos].
Defined.

End EmaCrossoverFacts.

(** ** Swing trend strategy *)

Section SwingTrendFacts.
Import Py SwingTrendStrategy.
Local Open Scope Q_scope.

Lemma sum_nonneg (l : list Q) : Forall (fun x => 0 <= x) l -> 0 <= sum l.
Proof.
  intros Hall. unfold sum.
  assert (H : forall a : Q, 0 <= a -> 0 <= fold_left Qplus l a).
  { induction Hall as [|x l Hx Hl IH]; intros a Ha; [exact Ha|].
    simpl. apply IH. lra. }
  apply H. apply Qle_refl.
Qed.

Lemma gains_nonneg (prices : list Q) : Forall (fun x => 0 <= x) (gains prices).
Proof.
  unfold gains. apply Forall_map, Forall_forall. intros d _. simpl.
  destruct (ltb 0 d) eqn:E; [apply ltb_lt in E; lra|apply Qle_refl].
Qed.

Lemma losses_nonneg (prices : list Q) : Forall (fun x => 0 <= x) (losses prices).
Proof.
  unfold losses. apply Forall_map, Forall_forall. intros d _. simpl.
  destruct (ltb 0 d); [apply Qle_refl|apply Qabs_nonneg].
Qed.

Lemma losses_zero (prices : list Q) :
  nondecreasing prices -> Forall (fun x => x == 0) (losses prices).
Proof.
  unfold losses. induction prices as [|a [|b rest] IH]; intros Hnd;
    [constructor|constructor|].
  destruct Hnd as [Hab Hnd]. cbn [diffs map]. constructor; [|apply IH, Hnd].
  destruct (ltb 0 (b - a)) eqn:E; [reflexivity|].
  apply ltb_ge in E. assert (Hz : b - a == 0) by lra.
  transitivity (Qabs 0); [apply Qabs_wd, Hz|reflexivity].
Qed.

(** The averages of [calculate_rsi] once the history is long enough. *)
Lemma rsi_value (prices : list Q) (period : Z) :
  (1 <= period)%Z -> (period + 1 <= len prices)%Z ->
  calculate_rsi prices period
  = (let avg_gain := sum (slice_from (- period) (gains prices)) / inject_Z period in
     let avg_loss := sum (slice_from (- period) (losses prices)) / inject_Z period in
     if Qeq_bool avg_loss 0 then Ok 100
     else rs ← div avg_gain avg_loss; r ← div 100 (1 + rs); Ok (100 - r)).
Proof.
  intros Hp Hlen. unfold calculate_rsi.
  assert (E : (len prices <? period + 1)%Z = false) by (apply Z.ltb_ge; lia).
  rewrite E, !div_ok by (apply inject_Z_nonzero; lia). reflexivity.
Qed.

(** X14.  With a period of at least 1, [calculate_rsi] never raises and
    returns a value between 0 and 100; it is 50 while the history has fewer
    than [period + 1] prices. *)
Theorem rsi_within_range (prices : list Q) (period : Z) :
  (1 <= period)%Z ->
  exists r : Q,
    calculate_rsi prices period = Ok r
    /\ 0 <= r /\ r <= 100
    /\ ((len prices < period + 1)%Z -> r = 50).
Proof.
  intros Hp. destruct (Z_lt_le_dec (len prices) (period + 1)) as [Hshort|Hlong].
  - exists 50. unfold calculate_rsi. apply Z.ltb_lt in Hshort. rewrite Hshort.
    repeat split; discriminate.
  - rewrite rsi_value by assumption. cbv zeta.
    set (g := sum (slice_from (- period) (gains prices)) / inject_Z period).
    set (l := sum (slice_from (- period) (losses prices)) / inject_Z period).
    assert (Hpos : 0 < inject_Z period) by (apply inject_Z_pos, Hp).
    assert (Hg : 0 <= g).
    { apply Qle_shift_div_l; [exact Hpos|]. rewrite Qmult_0_l.
      apply sum_nonneg, slice_from_Forall, gains_nonneg. }
    assert (Hl : 0 <= l).
    { apply Qle_shift_div_l; [exact Hpos|]. rewrite Qmult_0_l.
      apply sum_nonneg, slice_from_Forall, losses_nonneg. }
    destruct (Qeq_bool l 0) eqn:E.
    + exists 100. repeat split; try discriminate. intros Hs. lia.
    + assert (Hlnz : ~ l == 0) by (intros H0; apply Qeq_bool_iff in H0; congruence).
      assert (Hlpos : 0 < l) by (apply Qnot_le_lt; intros Hle; apply Hlnz; lra).
      rewrite (div_ok g l Hlnz). simpl.
      assert (Hrs : 0 <= g / l).
      { apply Qle_shift_div_l; [exact Hlpos|]. lra. }
      assert (Hd : 0 < 1 + g / l) by lra.
      rewrite div_ok by (apply Qnot_eq_sym, Qlt_not_eq, Hd). simpl.
      exists (100 - 100 / (1 + g / l)). split; [reflexivity|].
      assert (H0 : 0 <= 100 / (1 + g / l)).
      { apply Qle_shift_div_l; [exact Hd|]. lra. }
      assert (H100 : 100 / (1 + g / l) <= 100).
      { apply Qle_shift_div_r; [exact Hd|]. lra. }
      split; [lra|]. split; [lra|]. intros Hs. lia.
Qed.

Lemma rsi_within_range_witness :
  (1 <= 2)%Z
  /\ exists r : Q,
       calculate_rsi [10; 11; 12] 2 = Ok r /\ r = 100
       /\ calculate_rsi [10; 11] 2 = Ok 50.
Proof.
  split; [lia|].
  destruct (rsi_within_range [10; 11; 12] 2 ltac:(lia)) as (r & Hr & _).
  exists r. split; [exact Hr|]. split; [|reflexivity].
  assert (Hv : calculate_rsi [10; 11; 12] 2 = Ok 100) by reflexivity.
  congruence.
Defined.

Lemma rsi_nondecreasing (prices : list Q) (period : Z) :
  (1 <= period)%Z -> nondecreasing prices ->
  calculate_rsi prices period = Ok 50 \/ calculate_rsi prices period = Ok 100.
Proof.
  intros Hp Hnd. destruct (Z_lt_le_dec (len prices) (period + 1)) as [Hshort|Hlong].
  - left. unfold calculate_rsi. apply Z.ltb_lt in Hshort. rewrite Hshort. reflexivity.
  - right. rewrite rsi_value by assumption. cbv zeta.
    assert (Hz : sum (slice_from (- period) (losses prices)) / inject_Z period == 0).
    { rewrite (sum_constant 0) by (apply slice_from_Forall, losses_zero, Hnd).
      field. apply inject_Z_nonzero, Hp. }
    apply Qeq_bool_iff in Hz. rewrite Hz. reflexivity.
Qed.

Lemma nondecreasing_tail (a : Q) (l : list Q) : nondecreasing (a :: l) -> nondecreasing l.
Proof. destruct l; simpl; tauto. Qed.

Lemma nondecreasing_drop_app (n : nat) (l r : list Q) :
  nondecreasing (l ++ r) -> nondecreasing (drop n l ++ r).
Proof.
  revert l. induction n as [|n IH]; intros l H; [exact H|].
  destruct l as [|a l]; [exact H|]. simpl. apply IH.
  apply (nondecreasing_tail a). exact H.
Qed.

Lemma nondecreasing_prefix (l r : list Q) : nondecreasing (l ++ r) -> nondecreasing l.
Proof.
  induction l as [|a [|b l] IH]; intros H; [exact I|exact I|].
  destruct H as [Hab H]. split; [exact Hab|]. apply IH. exact H.
Qed.

Lemma slice_from_nondecreasing_app (i : Z) (l r : list Q) :
  nondecreasing (l ++ r) -> nondecreasing (slice_from i l ++ r).
Proof.
  intros H. unfold slice_from. destruct (i <? 0)%Z; apply nondecreasing_drop_app, H.
Qed.

Lemma swing_rising_step (symbol : string) (st : State) (candle : BaseStrategy.Candle)
    (rest : list Q) :
  (1 <= rsi_period st)%Z -> ma_period st <> 0%Z ->
  super st = BaseStrategy.init symbol "swing_trend" ->
  nondecreasing (price_history st ++ BaseStrategy.close candle :: rest) ->
  exists st' : State,
    on_candle st candle = Ok (st', None)
    /\ rsi_period st' = rsi_period st /\ ma_period st' = ma_period st
    /\ super st' = BaseStrategy.init symbol "swing_trend"
    /\ nondecreasing (price_history st' ++ rest).
Proof.
  intros Hr Hm Hsup Hnd. unfold on_candle. cbv zeta.
  set (st1 := set_price_history st (price_history st ++ [BaseStrategy.close candle])).
  set (st2 := if (200 <? len (price_history st1))%Z
              then set_price_history st1 (slice_from (-200) (price_history st1))
              else st1).
  assert (Hfields : rsi_period st2 = rsi_period st /\ ma_period st2 = ma_period st
                    /\ super st2 = super st).
  { unfold st2, st1. destruct (200 <? _)%Z; simpl; auto. }
  destruct Hfields as (Hr2 & Hm2 & Hsup2).
  assert (Hnd2 : nondecreasing (price_history st2 ++ rest)).
  { assert (H1 : nondecreasing ((price_history st ++ [BaseStrategy.close candle]) ++ rest))
      by (rewrite <- app_assoc; exact Hnd).
    unfold st2, st1. simpl. destruct (200 <? _)%Z; simpl;
      [apply slice_from_nondecreasing_app|]; exact H1. }
  assert (Hrsi : calculate_rsi (price_history st2) (rsi_period st2) = Ok 50
                 \/ calculate_rsi (price_history st2) (rsi_period st2) = Ok 100).
  { apply rsi_nondecreasing; [lia|]. eapply nondecreasing_prefix, Hnd2. }
  assert (Hma : exists m : Q, calculate_ma (price_history st2) (ma_period st2) = Ok m).
  { unfold calculate_ma.
    destruct (len (price_history st2) <? ma_period st2)%Z; [eexists; reflexivity|].
    assert (Hnz : ~ inject_Z (ma_period st2) == 0).
    { rewrite Hm2. intros H0. unfold Qeq in H0. simpl in H0. lia. }
    rewrite (div_ok _ _ Hnz). eexists. reflexivity. }
  destruct Hma as [m Hma].
  exists st2. split.
  - destruct Hrsi as [-> | ->]; simpl; rewrite Hma; simpl;
      rewrite Hsup2, Hsup; reflexivity.
  - rewrite Hsup2. auto.
Qed.

(** X15.  On a series whose closes never go down the swing strategy never
    buys: every candle returns no signal and the strategy stays flat with
    an empty trade log (RSI period at least 1, MA period not 0), because
    the RSI is 50 or 100 throughout. *)
Theorem swing_never_buys_on_rising
    (symbol : string) (rsi_period ma_period : Z) (candles : list BaseStrategy.Candle) :
  (1 <= rsi_period)%Z -> ma_period <> 0%Z ->
  nondecreasing (map BaseStrategy.close candles) ->
  exists st' : State,
    on_candles (init symbol rsi_period ma_period) candles
    = Ok (st', replicate (length candles) None)
    /\ BaseStrategy.position (super st') = None
    /\ BaseStrategy.trades (super st') = [].
Proof.
  intros Hr Hm Hnd.
  assert (H : forall (candles : list BaseStrategy.Candle) (st : State),
             SwingTrendStrategy.rsi_period st = rsi_period ->
             SwingTrendStrategy.ma_period st = ma_period ->
             super st = BaseStrategy.init symbol "swing_trend" ->
             nondecreasing (price_history st ++ map BaseStrategy.close candles) ->
             exists st' : State,
               on_candles st candles = Ok (st', replicate (length candles) None)
               /\ super st' = BaseStrategy.init symbol "swing_trend").
  { clear candles Hnd. induction candles as [|c cs IH]; intros st Hrp Hmp Hsup Hnd.
    - exists st. split; [reflexivity|exact Hsup].
    - destruct (swing_rising_step symbol st c (map BaseStrategy.close cs))
        as (st1 & Hon & Hr1 & Hm1 & Hsup1 & Hnd1);
        [lia|congruence|exact Hsup|exact Hnd|].
      destruct (IH st1 ltac:(congruence) ltac:(congruence) Hsup1 Hnd1)
        as (st2 & Hons & Hsup2).
      exists st2. simpl. rewrite Hon. simpl. rewrite Hons. simpl.
      split; [reflexivity|exact Hsup2]. }
  destruct (H candles (init symbol rsi_period ma_period)) as (st' & Hon & Hsup);
    try reflexivity; [exact Hnd|].
  exists st'. split; [exact Hon|]. rewrite Hsup. split; reflexivity.
Qed.

Lemma swing_never_buys_on_rising_witness :
  let c := fun (t : Z) (p : Q) => BaseStrategy.mkCandle t "NSE:TCS-EQ" "NSE" p p p p 10 in
  let candles := [c 60%Z 100; c 120%Z 100; c 180%Z 101; c 240%Z 105] in
  (1 <= 2)%Z /\ 3%Z <> 0%Z
  /\ nondecreasing (map BaseStrategy.close candles)
  /\ exists st' : State,
       on_candles (init "NSE:TCS-EQ" 2 3) candles = Ok (st', [None; None; None; None])
       /\ BaseStrategy.position (super st') = None.
Proof.
  intros c candles.
  assert (H1 : (1 <= 2)%Z) by lia.
  assert (H2 : 3%Z <> 0%Z) by lia.
  assert (H3 : nondecreasing (map BaseStrategy.close candles)).
  { simpl. repeat split; discriminate. }
  split; [exact H1|]. split; [exact H2|]. split; [exact H3|].
  destruct (swing_never_buys_on_rising "NSE:TCS-EQ" 2 3 candles H1 H2 H3)
    as (st' & Hon & Hpos & _).
  exists st'. split; [exact Hon|exact Hpos].
Defined.

End SwingTrendFacts.

(** ** Tick aggregation: dropped ticks, rollover, isolation, candle shape *)

Section AggregatorMoreFacts.
Import Py RealtimeTradingEngine.
Local Open Scope Q_scope.

(** X16.  A tick is dropped without any change of state when it is a
    subscription acknowledgement, when it resolves to no symbol, to the
    empty symbol or to a symbol the engine does not trade, or when it
    carries no price or the price 0. *)
Theorem unusable_tick_is_dropped (eng : State) (now : Z) (tick : Tick) :
  (tick_type tick = Some "sub" /\ tick_s tick = Some "ok")
  \/ extract_symbol tick = None
  \/ (exists s : string, extract_symbol tick = Some s
                         /\ (s = EmptyString \/ s ∉ symbols eng))
  \/ extract_ltp tick = None
  \/ (exists p : Q, extract_ltp tick = Some p /\ p == 0) ->
  _process_single_tick eng now tick = eng.
Proof.
  intros H. unfold _process_single_tick.
  destruct (bool_decide (tick_type tick = Some "sub")
            && bool_decide (tick_s tick = Some "ok")) eqn:Eack; [reflexivity|].
  destruct H as [[H1 H2]|H].
  { rewrite (bool_decide_eq_true_2 _ H1), (bool_decide_eq_true_2 _ H2) in Eack.
    discriminate. }
  destruct (extract_symbol tick) as [s|] eqn:Es; [|reflexivity].
  destruct (negb (truthy_str s) || negb (bool_decide (s ∈ symbols eng))) eqn:Eg;
    [reflexivity|].
  apply orb_false_iff in Eg as [Eg1 Eg2].
  apply negb_false_iff in Eg1, Eg2. apply bool_decide_eq_true in Eg2.
  unfold truthy_str in Eg1. apply negb_true_iff, String.eqb_neq in Eg1.
  destruct H as [H|[(s' & Hs' & [H|H])|H]]; try discriminate.
  - injection Hs' as <-. contradiction.
  - injection Hs' as <-. contradiction.
  - destruct H as [H|(p & Hp & Hz)].
    + rewrite H. reflexivity.
    + rewrite Hp. unfold truthy_num. apply Qeq_bool_iff in Hz. rewrite Hz. reflexivity.
Qed.

Lemma unusable_tick_is_dropped_witness :
  let tick := simple_tick "NSE:SBIN-EQ" 100 500 in
  (exists s : string, extract_symbol tick = Some s
                      /\ (s = EmptyString \/ s ∉ symbols init))
  /\ _process_single_tick init 60000001 tick = init.
Proof.
  intros tick.
  assert (H : exists s : string, extract_symbol tick = Some s
                                 /\ (s = EmptyString \/ s ∉ symbols init)).
  { exists "NSE:SBIN-EQ". split; [reflexivity|]. right.
    intros Hin. apply list_elem_of_In in Hin. simpl in Hin.
    repeat (destruct Hin as [Hin|Hin]; [discriminate Hin|]). exact Hin. }
  split; [exact H|].
  apply (unusable_tick_is_dropped init 60000001 tick). right. right. left. exact H.
Defined.

(** X17.  Rollover: an accepted tick whose minute differs from the
    in-progress candle's hands exactly that candle to [on_candle_close]
    when the event loop is set, drops it without any event when the loop
    is not set, and in both cases opens a new candle at the tick's price. *)
Theorem rollover_closes_candle
    (eng : State) (symbol : string) (now : Z) (tick : Tick) (c : Candle) :
  well_formed symbol tick -> symbol ∈ symbols eng ->
  current_candles eng !! symbol = Some c ->
  timestamp c <> minute_of now ->
  let eng' := _process_single_tick eng now tick in
  closed eng' = (if loop eng then closed eng ++ [(symbol, c)] else closed eng)
  /\ exists c' : Candle,
       current_candles eng' !! symbol = Some c'
       /\ timestamp c' = minute_of now
       /\ open c' = tick_price tick /\ high c' = tick_price tick
       /\ low c' = tick_price tick /\ close c' = tick_price tick.
Proof.
  intros Hwf Hin Hc Hts eng'. subst eng'. split.
  - destruct (well_formed_guards eng symbol tick Hwf Hin) as (G1 & G2 & G3 & G4 & G5).
    unfold _process_single_tick. rewrite G1, G2, G3, G4, G5, Hc.
    apply Z.eqb_neq in Hts. rewrite Hts. simpl. destruct (loop eng); reflexivity.
  - eexists. split.
    + apply process_opens; [exact Hwf|exact Hin|]. intros c0 Hc0. congruence.
    + simpl. auto.
Qed.

Lemma rollover_closes_candle_witness :
  let t1 := simple_tick "NSE:TCS-EQ" 100 500 in
  let t2 := simple_tick "NSE:TCS-EQ" 101 600 in
  let eng := _process_single_tick init 60000001 t1 in
  exists c : Candle,
    well_formed "NSE:TCS-EQ" t2 /\ "NSE:TCS-EQ" ∈ symbols eng
    /\ current_candles eng !! "NSE:TCS-EQ" = Some c
    /\ timestamp c <> minute_of 120000001
    /\ closed (_process_single_tick eng 120000001 t2) = closed eng.
Proof.
  intros t1 t2 eng.
  assert (Hwf : well_formed "NSE:TCS-EQ" t2).
  { split; [intros [Hty _]; discriminate Hty|].
    split; [reflexivity|]. split; [discriminate|].
    exists 101. split; [reflexivity|discriminate]. }
  assert (Hin : "NSE:TCS-EQ" ∈ symbols eng).
  { unfold eng. rewrite process_symbols. apply list_elem_of_In. simpl. auto. }
  eexists.
  assert (Hc : current_candles eng !! "NSE:TCS-EQ"
               = Some {| symbol := "NSE:TCS-EQ"; timestamp := 60000000; open := 100;
                         high := 100; low := 100; close := 100; volume := 500;
                         timeframe := "1m" |}) by (vm_compute; reflexivity).
  split; [exact Hwf|]. split; [exact Hin|]. split; [exact Hc|].
  assert (Hts : timestamp {| symbol := "NSE:TCS-EQ"; timestamp := 60000000; open := 100;
                             high := 100; low := 100; close := 100; volume := 500;
                             timeframe := "1m" |} <> minute_of 120000001)
    by (vm_compute; discriminate).
  split; [exact Hts|].
  exact (proj1 (rollover_closes_candle eng "NSE:TCS-EQ" 120000001 t2 _ Hwf Hin Hc Hts)).
Defined.

(** X18.  Symbols are aggregated independently: a tick never changes the
    in-progress candle of a symbol other than the one it resolves to, and
    every candle it closes is closed under that symbol. *)
Theorem tick_touches_one_symbol (eng : State) (now : Z) (tick : Tick) (other : string) :
  extract_symbol tick <> Some other ->
  current_candles (_process_single_tick eng now tick) !! other
  = current_candles eng !! other
  /\ exists added : list (string * Candle),
       closed (_process_single_tick eng now tick) = closed eng ++ added
       /\ Forall (fun sc => extract_symbol tick = Some sc.1) added.
Proof.
  intros Hne. unfold _process_single_tick.
  destruct (bool_decide (tick_type tick = Some "sub")
            && bool_decide (tick_s tick = Some "ok"));
    [split; [reflexivity|exists []; rewrite app_nil_r; auto]|].
  destruct (extract_symbol tick) as [s|];
    [|split; [reflexivity|exists []; rewrite app_nil_r; auto]].
  destruct (negb (truthy_str s) || negb (bool_decide (s ∈ symbols eng)));
    [split; [reflexivity|exists []; rewrite app_nil_r; auto]|].
  destruct (extract_ltp tick) as [ltp|];
    [|split; [reflexivity|exists []; rewrite app_nil_r; auto]].
  destruct (negb (truthy_num ltp));
    [split; [reflexivity|exists []; rewrite app_nil_r; auto]|].
  assert (Hs : s <> other) by congruence.
  destruct (current_candles eng !! s) as [c|]; simpl.
  - destruct (negb (RealtimeTradingEngine.timestamp c =? minute_of now)%Z); simpl.
    + split; [apply lookup_insert_ne, Hs|].
      destruct (loop eng).
      * exists [(s, c)]. split; [reflexivity|]. repeat constructor.
      * exists []. rewrite app_nil_r. auto.
    + split; [apply lookup_insert_ne, Hs|]. exists []. rewrite app_nil_r. auto.
  - split; [apply lookup_insert_ne, Hs|]. exists []. rewrite app_nil_r. auto.
Qed.

Lemma tick_touches_one_symbol_witness :
  let t1 := simple_tick "NSE:TCS-EQ" 100 500 in
  let t2 := simple_tick "NSE:INFY-EQ" 1500 20 in
  let eng := _process_single_tick init 60000001 t1 in
  extract_symbol t2 <> Some "NSE:TCS-EQ"
  /\ current_candles (_process_single_tick eng 120000001 t2) !! "NSE:TCS-EQ"
     = current_candles eng !! "NSE:TCS-EQ".
Proof.
  intros t1 t2 eng.
  assert (H : extract_symbol t2 <> Some "NSE:TCS-EQ") by discriminate.
  split; [exact H|].
  exact (proj1 (tick_touches_one_symbol eng 120000001 t2 "NSE:TCS-EQ" H)).
Defined.

Lemma max_ge_l (a b : Q) : a <= max a b.
Proof. unfold max. destruct (ltb a b) eqn:E; [apply ltb_lt in E; lra|apply Qle_refl]. Qed.

Lemma max_ge_r (a b : Q) : b <= max a b.
Proof. unfold max. destruct (ltb a b) eqn:E; [apply Qle_refl|apply ltb_ge in E; exact E]. Qed.

Lemma min_le_l (a b : Q) : min a b <= a.
Proof. unfold min. destruct (ltb b a) eqn:E; [apply ltb_lt in E; lra|apply Qle_refl]. Qed.

Lemma min_le_r (a b : Q) : min a b <= b.
Proof. unfold min. destruct (ltb b a) eqn:E; [apply Qle_refl|apply ltb_ge in E; exact E]. Qed.

Lemma minute_of_idem (t : Z) : minute_of (minute_of t) = minute_of t.
Proof.
  unfold minute_of.
  assert (H : ((t - t mod 60000000) mod 60000000 = 0)%Z).
  { rewrite Zminus_mod_idemp_r, Z.sub_diag. reflexivity. }
  rewrite H. lia.
Qed.

Lemma process_keeps_sane (eng : State) (now : Z) (tick : Tick) :
  candles_sane eng -> candles_sane (_process_single_tick eng now tick).
Proof.
  intros [Hcur Hclosed]. unfold _process_single_tick.
  destruct (bool_decide (tick_type tick = Some "sub")
            && bool_decide (tick_s tick = Some "ok")); [split; assumption|].
  destruct (extract_symbol tick) as [s|]; [|split; assumption].
  destruct (negb (truthy_str s) || negb (bool_decide (s ∈ symbols eng)));
    [split; assumption|].
  destruct (extract_ltp tick) as [ltp|]; [|split; assumption].
  destruct (negb (truthy_num ltp)); [split; assumption|].
  assert (Hnew : forall (v : Z) (s' : string) (c' : Candle),
             <[s := {| symbol := s; timestamp := minute_of now; open := ltp; high := ltp;
                       low := ltp; close := ltp; volume := v; timeframe := "1m" |}]>
               (current_candles eng) !! s' = Some c' ->
             candle_sane s' c').
  { intros v s' c' Hl. destruct (decide (s = s')) as [<-|Hne].
    - rewrite lookup_insert_eq in Hl. injection Hl as <-.
      unfold candle_sane. simpl.
      repeat split; try apply Qle_refl. apply minute_of_idem.
    - rewrite lookup_insert_ne in Hl by exact Hne. apply Hcur, Hl. }
  destruct (current_candles eng !! s) as [c|] eqn:Ec; cbn [current_candles closed].
  - destruct (negb (RealtimeTradingEngine.timestamp c =? minute_of now)%Z);
      cbn [current_candles closed].
    + split; [intros s' c' Hl; cbn [current_candles] in Hl; eapply Hnew, Hl|].
      cbn [closed]. destruct (loop eng); [|exact Hclosed].
      apply Forall_app. split; [exact Hclosed|].
      constructor; [simpl; apply Hcur, Ec|constructor].
    + split; [|exact Hclosed]. intros s' c' Hl. cbn [current_candles] in Hl.
      destruct (decide (s = s')) as [<-|Hne].
      * rewrite lookup_insert_eq in Hl. injection Hl as <-.
        destruct (Hcur s c Ec) as (H1 & H2 & H3 & H4 & H5 & H6).
        unfold candle_sane. simpl.
        pose proof (max_ge_l (high c) ltp). pose proof (max_ge_r (high c) ltp).
        pose proof (min_le_l (low c) ltp). pose proof (min_le_r (low c) ltp).
        repeat split; try assumption; lra.
      * rewrite lookup_insert_ne in Hl by exact Hne. apply Hcur, Hl.
  - split; [intros s' c' Hl; cbn [current_candles] in Hl; eapply Hnew, Hl|exact Hclosed].
Qed.

(** X19.  Whatever ticks arrive, in whatever order and at whatever clock
    readings, every in-progress candle and every candle handed to
    [on_candle_close] carries the symbol it is filed under, starts on a
    minute boundary and has low <= open <= high and low <= close <= high. *)
Theorem candles_stay_well_shaped (loop : bool) (ticks : list (Z * Tick)) :
  let eng := process_ticks
               {| symbols := symbols init; current_candles := ∅;
                  last_tick_time := ∅; loop := loop; closed := [] |} ticks in
  (forall (s : string) (c : Candle),
      current_candles eng !! s = Some c -> candle_sane s c)
  /\ Forall (fun sc => candle_sane sc.1 sc.2) (closed eng).
Proof.
  intros eng. subst eng.
  assert (H : forall (ticks : list (Z * Tick)) (eng : State),
             candles_sane eng -> candles_sane (process_ticks eng ticks)).
  { clear. induction ticks as [|nt ticks IH]; intros eng Hs; [exact Hs|].
    unfold process_ticks in *. simpl. apply IH, process_keeps_sane, Hs. }
  apply H. split; [intros s c Hl; discriminate Hl|constructor].
Qed.

End AggregatorMoreFacts.

(** ** Order execution of the real-time engine *)

Section ExecuteTradeFacts.
Import Py RealtimeTradingEngine.
Local Open Scope Q_scope.

Variable place_order : Order -> result string.

(** X20.  A call of [execute_trade] changes nothing when the price is 0
    (the division error is caught), when the action is neither BUY nor
    SELL, when a SELL finds no position for the symbol, or when the engine
    is not in paper mode and the broker call raises. *)
Theorem execute_trade_without_effect
    (self : Trader) (entry_now log_now : Z) (symbol action : string) (price : Q) :
  price == 0
  \/ (action <> "BUY" /\ action <> "SELL")
  \/ (action = "SELL" /\ active_positions self !! symbol = None)
  \/ (mode self <> "paper" /\ forall o : Order, raises (place_order o)) ->
  execute_trade place_order self entry_now log_now symbol action price = self.
Proof.
  intros H. unfold execute_trade.
  destruct (div (position_size self) price) as [q|e] eqn:Ed; [|reflexivity].
  destruct H as [H|H].
  { unfold div in Ed. apply Qeq_bool_iff in H. rewrite H in Ed. discriminate. }
  destruct (String.eqb (mode self) "live" && live_buy_only self && String.eqb action "SELL");
    [reflexivity|].
  destruct H as [[Hb Hs]|[[-> Hnone]|[Hmode Hraise]]].
  - apply String.eqb_neq in Hb, Hs. rewrite Hb, Hs. reflexivity.
  - simpl. rewrite Hnone. reflexivity.
  - apply String.eqb_neq in Hmode. rewrite Hmode.
    destruct (String.eqb action "BUY").
    + specialize (Hraise (market_order symbol (Z.max 1 (int q)) 1)).
      destruct (place_order _); [contradiction|reflexivity].
    + destruct (String.eqb action "SELL"); [|reflexivity].
      destruct (active_positions self !! symbol) as [position|]; [|reflexivity].
      specialize (Hraise (market_order symbol (qty position) (-1))).
      destruct (place_order _); [contradiction|reflexivity].
Qed.

(** X21.  In live mode with [live_buy_only] set, a SELL is ignored, so no
    call of [execute_trade] ever releases a held position, and the trade
    log only grows. *)
Theorem live_buy_only_never_releases
    (self : Trader) (entry_now log_now : Z) (symbol action : string) (price : Q) :
  mode self = "live" -> live_buy_only self = true ->
  let self' := execute_trade place_order self entry_now log_now symbol action price in
  (action = "SELL" -> self' = self)
  /\ (forall held : string,
        is_Some (active_positions self !! held) ->
        is_Some (active_positions self' !! held))
  /\ trade_log self `prefix_of` trade_log self'.
Proof.
  intros Hmode Hbuy self'. subst self'. unfold execute_trade.
  rewrite Hmode, Hbuy. simpl.
  destruct (div (position_size self) price) as [q|e];
    [|repeat split; auto; reflexivity].
  destruct (String.eqb action "SELL") eqn:Es.
  - repeat split; auto; reflexivity.
  - split; [intros ->; discriminate Es|].
    destruct (String.eqb action "BUY"); [|split; auto; reflexivity].
    destruct (place_order _) as [resp|e]; [|split; auto; reflexivity].
    simpl. split.
    + intros held Hheld. destruct (decide (symbol = held)) as [<-|Hne].
      * rewrite lookup_insert_eq. eauto.
      * rewrite lookup_insert_ne by exact Hne. exact Hheld.
    + apply prefix_app_r. reflexivity.
Qed.

Lemma paper_buy_value
    (self : Trader) (t1 t2 : Z) (symbol : string) (buy : Q) :
  mode self = "paper" -> ~ buy == 0 ->
  execute_trade place_order self t1 t2 symbol "BUY" buy
  = set_trades self
      (<[symbol := {| qty := Z.max 1 (Qfloor (position_size self / buy));
                      entry_price := buy; entry_time := t1; order := None |}]>
         (active_positions self))
      (trade_log self ++
         [{| log_time := t2; log_symbol := symbol; log_side := "BUY";
             log_qty := Z.max 1 (Qfloor (position_size self / buy));
             log_price := buy; log_mode := mode self; log_pnl := 0 |}]).
Proof.
  intros Hmode Hbuy. unfold execute_trade.
  rewrite (div_ok _ _ Hbuy), Hmode, max_one_int_floor. reflexivity.
Qed.

Lemma paper_sell_value
    (self : Trader) (t3 t4 : Z) (symbol : string) (sell : Q) (position : ActivePosition) :
  mode self = "paper" -> ~ sell == 0 ->
  active_positions self !! symbol = Some position ->
  execute_trade place_order self t3 t4 symbol "SELL" sell
  = set_trades self (delete symbol (active_positions self))
      (trade_log self ++
         [{| log_time := t4; log_symbol := symbol; log_side := "SELL";
             log_qty := qty position; log_price := sell; log_mode := mode self;
             log_pnl := (sell - entry_price position) * inject_Z (qty position) |}]).
Proof.
  intros Hmode Hsell Hpos. unfold execute_trade.
  rewrite (div_ok _ _ Hsell), Hmode, Hpos. reflexivity.
Qed.

(** X22.  Paper round trip: a BUY for a symbol with no position followed by
    a SELL of it (non-zero prices) restores the position map, and appends
    exactly an entry with PnL 0 and an exit whose PnL is
    [(sell - buy) * qty] for the quantity
    [max 1 (floor (position_size / buy))] bought. *)
Theorem paper_round_trip
    (self : Trader) (t1 t2 t3 t4 : Z) (symbol : string) (buy sell : Q) :
  mode self = "paper" ->
  active_positions self !! symbol = None ->
  ~ buy == 0 -> ~ sell == 0 ->
  let bought := execute_trade place_order self t1 t2 symbol "BUY" buy in
  let sold := execute_trade place_order bought t3 t4 symbol "SELL" sell in
  let quantity := Z.max 1 (Qfloor (position_size self / buy)) in
  active_positions bought !! symbol
  = Some {| qty := quantity; entry_price := buy; entry_time := t1; order := None |}
  /\ active_positions sold = active_positions self
  /\ exists e1 e2 : LogEntry,
       trade_log sold = trade_log self ++ [e1; e2]
       /\ log_side e1 = "BUY" /\ log_pnl e1 = 0
       /\ log_side e2 = "SELL" /\ log_qty e2 = quantity
       /\ log_pnl e2 = (sell - buy) * inject_Z quantity.
Proof.
  intros Hmode Hnone Hbuy Hsell bought sold quantity.
  assert (Hb := paper_buy_value self t1 t2 symbol buy Hmode Hbuy).
  fold bought quantity in Hb.
  assert (Hheld : active_positions bought !! symbol
                  = Some {| qty := quantity; entry_price := buy;
                            entry_time := t1; order := None |}).
  { rewrite Hb. cbn [active_positions set_trades]. apply lookup_insert_eq. }
  assert (Hs := paper_sell_value bought t3 t4 symbol sell _
                  ltac:(rewrite Hb; exact Hmode) Hsell Hheld).
  fold sold in Hs.
  split; [exact Hheld|]. split.
  - rewrite Hs. cbn [active_positions set_trades]. rewrite Hb.
    cbn [active_positions set_trades]. rewrite delete_insert_eq. apply delete_id, Hnone.
  - eexists _, _. split.
    + rewrite Hs. cbn [trade_log set_trades]. rewrite Hb.
      cbn [trade_log set_trades]. rewrite <- app_assoc. reflexivity.
    + cbn [log_side log_pnl log_qty qty entry_price]. auto.
Qed.

End ExecuteTradeFacts.

Section ExecuteTradeExamples.
Import Py RealtimeTradingEngine.
Local Open Scope Q_scope.

Lemma execute_trade_without_effect_witness :
  let self := {| mode := "paper"; position_size := 5000; live_buy_only := true;
                 active_positions := ∅; trade_log := [] |} in
  0 == 0
  /\ execute_trade (fun _ => Ok "ok") self 1 2 "NSE:TCS-EQ" "BUY" 0 = self.
Proof.
  intros self. split; [reflexivity|].
  apply (execute_trade_without_effect (fun _ => Ok "ok") self 1 2 "NSE:TCS-EQ" "BUY" 0).
  left. reflexivity.
Defined.

Lemma live_buy_only_never_releases_witness :
  let held := {| qty := 2; entry_price := 2500; entry_time := 1; order := Some "ok" |} in
  let self := {| mode := "live"; position_size := 5000; live_buy_only := true;
                 active_positions := <["NSE:TCS-EQ" := held]> ∅; trade_log := [] |} in
  mode self = "live" /\ live_buy_only self = true
  /\ execute_trade (fun _ => Ok "ok") self 3 4 "NSE:TCS-EQ" "SELL" 2600 = self.
Proof.
  intros held self.
  assert (H1 : mode self = "live") by reflexivity.
  assert (H2 : live_buy_only self = true) by reflexivity.
  split; [exact H1|]. split; [exact H2|].
  exact (proj1 (live_buy_only_never_releases (fun _ => Ok "ok") self 3 4
                  "NSE:TCS-EQ" "SELL" 2600 H1 H2) eq_refl).
Defined.

Lemma paper_round_trip_witness :
  let self := {| mode := "paper"; position_size := 5000; live_buy_only := true;
                 active_positions := ∅; trade_log := [] |} in
  let bought := execute_trade (fun _ => Ok "ok") self 1 2 "NSE:TCS-EQ" "BUY" 2000 in
  let sold := execute_trade (fun _ => Ok "ok") bought 3 4 "NSE:TCS-EQ" "SELL" 2100 in
  mode self = "paper" /\ active_positions self !! "NSE:TCS-EQ" = None
  /\ ~ 2000 == 0 /\ ~ 2100 == 0
  /\ active_positions sold = active_positions self
  /\ exists e1 e2 : LogEntry,
       trade_log sold = [e1; e2] /\ log_pnl e2 = (2100 - 2000) * inject_Z 2.
Proof.
  intros self bought sold.
  assert (H1 : mode self = "paper") by reflexivity.
  assert (H2 : active_positions self !! "NSE:TCS-EQ" = None) by reflexivity.
  assert (H3 : ~ 2000 == 0) by discriminate.
  assert (H4 : ~ 2100 == 0) by discriminate.
  split; [exact H1|]. split; [exact H2|]. split; [exact H3|]. split; [exact H4|].
  destruct (paper_round_trip (fun _ => Ok "ok") self 1 2 3 4 "NSE:TCS-EQ" 2000 2100
              H1 H2 H3 H4) as (_ & Hmap & e1 & e2 & Hlog & _ & _ & _ & _ & Hpnl).
  split; [exact Hmap|]. exists e1, e2. split; [exact Hlog|exact Hpnl].
Defined.

End ExecuteTradeExamples.

(** ** Auto trader: opportunities and position taking *)

Section AutoTraderFacts.
Import Py AutoTrader.
Local Open Scope Q_scope.

Lemma dominant_side (self : State) (signals : list Signal) (s : Signal) :
  s ∈ dominant_signals self signals ->
  (side s = "BUY" \/ side s = "SELL")
  /\ (String.eqb (mode self) "live" && live_buy_only self = true -> side s = "BUY").
Proof.
  unfold dominant_signals, buy_signals, sell_signals. intros Hin.
  destruct (String.eqb (mode self) "live" && live_buy_only self).
  - destruct (2 <=? _)%Z; [|inversion Hin].
    apply list_elem_of_filter in Hin as [Hs _]. auto.
  - split; [|discriminate].
    destruct (2 <=? len (filter (fun s => side s = "BUY") signals))%Z.
    + apply list_elem_of_filter in Hin as [Hs _]. auto.
    + destruct (2 <=? _)%Z; [|inversion Hin].
      apply list_elem_of_filter in Hin as [Hs _]. auto.
Qed.

Lemma div_inv (a b q : Q) : div a b = Ok q -> ~ b == 0 /\ q = a / b.
Proof.
  unfold div. destruct (Qeq_bool b 0) eqn:E; [discriminate|].
  intros [= <-]. split; [|reflexivity].
  intros H. apply Qeq_bool_iff in H. congruence.
Qed.

(** X23.  Every opportunity [evaluate] returns is for the symbol and price
    it was given, has side BUY or SELL (always BUY in live mode with
    [live_buy_only]), names at least two strategies, has the quantity
    [int (position_size / current_price)], and a net PnL that is the gross
    PnL minus the brokerage and exceeds [min_net_profit]. *)
Theorem opportunity_is_qualified
    (self : State) (symbol : string) (signals : list Signal) (current_price : Q)
    (opp : Opportunity) :
  evaluate self symbol signals current_price = Ok (Some opp) ->
  opp_symbol opp = symbol
  /\ opp_current opp = current_price
  /\ (opp_side opp = "BUY" \/ opp_side opp = "SELL")
  /\ (String.eqb (mode self) "live" && live_buy_only self = true -> opp_side opp = "BUY")
  /\ (2 <= length (opp_strategies opp))%nat
  /\ ~ current_price == 0
  /\ opp_qty opp = int (position_size self / current_price)
  /\ opp_net_pnl opp
     = Qabs (current_price - opp_entry opp) * inject_Z (opp_qty opp) - brokerage self
  /\ min_net_profit self < opp_net_pnl opp.
Proof.
  unfold evaluate.
  destruct (dominant_signals self signals) as [|first rest] eqn:Ed; [discriminate|].
  destruct (2 <=? len (first :: rest))%Z eqn:El; [|discriminate].
  assert (Hside := dominant_side self signals first ltac:(rewrite Ed; left)).
  destruct (div (sum (map entry (first :: rest))) (inject_Z (len (first :: rest))))
    as [avg_entry|e]; [|discriminate].
  cbn [mbind result_bind bind].
  set (mv := if String.eqb (side first) "BUY" then _ else _).
  destruct mv as [move_pct|e]; [|discriminate].
  cbn [mbind result_bind bind].
  destruct (div (position_size self) current_price) as [q|e] eqn:Eq; [|discriminate].
  cbn [mbind result_bind bind].
  apply div_inv in Eq as [Hcp ->].
  match goal with
  | |- (if ?c then _ else _) = _ -> _ => destruct c eqn:Ec; [|discriminate]
  end.
  intros [= <-]. cbn [opp_symbol opp_current opp_side opp_strategies opp_qty
                      opp_net_pnl opp_entry].
  apply andb_true_iff in Ec as [_ Hnet]. apply ltb_lt in Hnet.
  apply Z.leb_le in El. unfold len in El.
  split; [reflexivity|]. split; [reflexivity|]. split; [apply Hside|].
  split; [apply Hside|].
  split; [simpl length in *; rewrite ?length_map; lia|].
  split; [exact Hcp|]. split; [reflexivity|]. split; [reflexivity|exact Hnet].
Qed.

Lemma opportunity_is_qualified_witness :
  let signals := [ {| strategy := "EmaCrossoverStrategy"; side := "BUY";
                      entry := 100; current := 110 |};
                   {| strategy := "SwingTrendStrategy"; side := "BUY";
                      entry := 100; current := 110 |} ] in
  exists opp : Opportunity,
    evaluate (init "paper") "NSE:TCS-EQ" signals 110 = Ok (Some opp)
    /\ opp_symbol opp = "NSE:TCS-EQ"
    /\ opp_qty opp = int (position_size (init "paper") / 110)
    /\ min_net_profit (init "paper") < opp_net_pnl opp.
Proof.
  intros signals.
  assert (H : exists opp : Opportunity,
             evaluate (init "paper") "NSE:TCS-EQ" signals 110 = Ok (Some opp))
    by (eexists; vm_compute; reflexivity).
  destruct H as [opp H]. exists opp. split; [exact H|].
  destruct (opportunity_is_qualified (init "paper") "NSE:TCS-EQ" signals 110 opp H)
    as (H1 & _ & _ & _ & _ & _ & H7 & _ & H9).
  split; [exact H1|]. split; [exact H7|exact H9].
Defined.

Lemma sum_pos (l : list Q) : l <> [] -> Forall (fun x => 0 < x) l -> 0 < sum l.
Proof.
  intros Hne Hall. unfold sum.
  assert (Hge : forall (l : list Q) (a : Q),
             Forall (fun x => 0 < x) l -> 0 < a -> 0 < fold_left Qplus l a).
  { clear. induction l as [|x l IH]; intros a Hall Ha; [exact Ha|].
    apply Forall_cons in Hall as [Hx Hall]. simpl. apply IH; [exact Hall|lra]. }
  destruct l as [|x l]; [congruence|].
  apply Forall_cons in Hall as [Hx Hall]. simpl. apply Hge; [exact Hall|lra].
Qed.

Lemma dominant_subset (self : State) (signals : list Signal) (s : Signal) :
  s ∈ dominant_signals self signals -> s ∈ signals.
Proof.
  unfold dominant_signals, buy_signals, sell_signals. intros Hin.
  repeat match type of Hin with
  | context [if ?c then _ else _] => destruct c
  end;
  try (apply list_elem_of_filter in Hin as [_ Hin]; exact Hin); inversion Hin.
Qed.

(** X24.  With positive entry prices, [evaluate] raises exactly when a
    dominant direction exists and the current price is 0: a non-zero
    current price never raises, and a zero one raises
    [ZeroDivisionError] as soon as two strategies agree. *)
Theorem evaluate_raises_on_zero_price
    (self : State) (symbol : string) (signals : list Signal) (current_price : Q) :
  Forall (fun s => 0 < entry s) signals ->
  (~ current_price == 0 -> ~ raises (evaluate self symbol signals current_price))
  /\ (current_price == 0 -> dominant_signals self signals <> [] ->
      evaluate self symbol signals current_price = Raise ZeroDivisionError)
  /\ (dominant_signals self signals = [] ->
      evaluate self symbol signals current_price = Ok None).
Proof.
  intros Hpos. unfold evaluate.
  destruct (dominant_signals self signals) as [|first rest] eqn:Ed.
  { repeat split; simpl; tauto. }
  assert (Hlen : (2 <=? len (first :: rest))%Z = true).
  { apply Z.leb_le.
    destruct (dominant_needs_quorum self signals ltac:(rewrite Ed; discriminate))
      as [[H1 H2]|[H1 H2]]; rewrite Ed in H2; rewrite H2; exact H1. }
  rewrite Hlen.
  assert (Hdom : Forall (fun x => 0 < x) (map entry (first :: rest))).
  { apply Forall_map, Forall_forall. intros s Hs. simpl.
    rewrite Forall_forall in Hpos. apply Hpos, (dominant_subset self).
    rewrite Ed. exact Hs. }
  assert (Hsum := sum_pos (map entry (first :: rest)) ltac:(discriminate) Hdom).
  assert (Hn : 0 < inject_Z (len (first :: rest))) by (unfold len, Qlt; simpl; lia).
  rewrite (div_ok (sum (map entry (first :: rest))) (inject_Z (len (first :: rest))))
    by (apply Qnot_eq_sym, Qlt_not_eq, Hn).
  cbn [mbind result_bind bind].
  set (avg_entry := sum (map entry (first :: rest)) / inject_Z (len (first :: rest))).
  assert (Havg : 0 < avg_entry).
  { unfold avg_entry. apply Qlt_shift_div_l; [exact Hn|]. lra. }
  assert (Hanz : ~ avg_entry == 0) by (apply Qnot_eq_sym, Qlt_not_eq, Havg).
  rewrite !(div_ok _ avg_entry Hanz).
  assert (Hmv : exists move_pct : Q,
             (if String.eqb (side first) "BUY"
              then Ok ((current_price - avg_entry) / avg_entry)
                   ≫= (fun r => Ok (r * 100))
              else Ok ((avg_entry - current_price) / avg_entry)
                   ≫= (fun r => Ok (r * 100)))
             = Ok move_pct).
  { destruct (String.eqb (side first) "BUY"); eexists; reflexivity. }
  destruct Hmv as [move_pct ->]. cbn [mbind result_bind bind].
  split; [|split; [|discriminate]].
  - intros Hcp. rewrite (div_ok _ _ Hcp). cbn [mbind result_bind bind].
    match goal with
    | |- ~ raises (if ?c then _ else _) => destruct c; simpl; tauto
    end.
  - intros Hcp _. unfold div. apply Qeq_bool_iff in Hcp. rewrite Hcp. reflexivity.
Qed.

Lemma evaluate_raises_on_zero_price_witness :
  let signals := [ {| strategy := "EmaCrossoverStrategy"; side := "BUY";
                      entry := 100; current := 0 |};
                   {| strategy := "SwingTrendStrategy"; side := "BUY";
                      entry := 100; current := 0 |} ] in
  Forall (fun s => 0 < entry s) signals
  /\ evaluate (init "paper") "NSE:TCS-EQ" signals 0 = Raise ZeroDivisionError.
Proof.
  intros signals.
  assert (H : Forall (fun s => 0 < entry s) signals) by (repeat constructor).
  split; [exact H|].
  destruct (evaluate_raises_on_zero_price (init "paper") "NSE:TCS-EQ" signals 0 H)
    as (_ & Hz & _).
  apply Hz; [reflexivity|]. vm_compute. discriminate.
Defined.

Lemma take_keeps_existing (opportunities : list Opportunity)
    (active : gmap string Opportunity) (s : string) (o : Opportunity) :
  active !! s = Some o -> (take_opportunities active opportunities).1 !! s = Some o.
Proof.
  revert active. induction opportunities as [|opp rest IH]; intros active Hs; [exact Hs|].
  simpl. destruct (bool_decide (opp_symbol opp ∈ dom active)) eqn:E; [apply IH, Hs|].
  apply bool_decide_eq_false in E.
  specialize (IH (<[opp_symbol opp := opp]> active)).
  destruct (take_opportunities (<[opp_symbol opp := opp]> active) rest) as [a pl].
  simpl in *. apply IH. rewrite lookup_insert_ne; [exact Hs|].
  intros <-. apply E, elem_of_dom. eauto.
Qed.

(** X25.  Position taking is fire-once: the loop of [run] hands an
    opportunity to [place_order] only if its symbol has no recorded
    position, so the placed symbols are pairwise distinct and were all
    absent before; recorded positions are never overwritten or removed;
    and every opportunity's symbol is recorded afterwards. *)
Theorem positions_taken_once
    (active : gmap string Opportunity) (opportunities : list Opportunity) :
  let result := take_opportunities active opportunities in
  (forall (s : string) (o : Opportunity), active !! s = Some o -> result.1 !! s = Some o)
  /\ (forall o : Opportunity, o ∈ opportunities -> opp_symbol o ∈ dom result.1)
  /\ NoDup (map opp_symbol result.2)
  /\ (forall o : Opportunity, o ∈ result.2 ->
        o ∈ opportunities /\ active !! opp_symbol o = None
        /\ result.1 !! opp_symbol o = Some o).
Proof.
  intros result. subst result. split; [intros s o; apply take_keeps_existing|].
  revert active. induction opportunities as [|opp rest IH]; intros active.
  { simpl. split; [intros o Ho; inversion Ho|]. split; [constructor|].
    intros o Ho. inversion Ho. }
  simpl. destruct (bool_decide (opp_symbol opp ∈ dom active)) eqn:E.
  - apply bool_decide_eq_true in E. destruct (IH active) as (H1 & H2 & H3).
    split; [|split; [exact H2|]].
    + intros o Ho. apply elem_of_cons in Ho as [->|Ho]; [|apply H1, Ho].
      apply elem_of_dom in E as [o' Ho']. apply elem_of_dom.
      exists o'. apply take_keeps_existing, Ho'.
    + intros o Ho. destruct (H3 o Ho) as (Ha & Hb & Hc).
      split; [right; exact Ha|]. split; assumption.
  - apply bool_decide_eq_false in E.
    assert (Hnone : active !! opp_symbol opp = None)
      by (apply not_elem_of_dom; exact E).
    destruct (IH (<[opp_symbol opp := opp]> active)) as (H1 & H2 & H3).
    pose proof (take_keeps_existing rest (<[opp_symbol opp := opp]> active)
                  (opp_symbol opp) opp (lookup_insert_eq _ _ _)) as Hkept.
    destruct (take_opportunities (<[opp_symbol opp := opp]> active) rest) as [a pl].
    simpl in *. split; [|split].
    + intros o Ho. apply elem_of_cons in Ho as [->|Ho]; [|apply H1, Ho].
      apply elem_of_dom. eauto.
    + constructor; [|exact H2]. intros Hin. apply list_elem_of_fmap in Hin as (o & Heq & Ho).
      destruct (H3 o Ho) as (_ & Hb & _). rewrite <- Heq in Hb.
      rewrite lookup_insert_eq in Hb. discriminate.
    + intros o Ho. apply elem_of_cons in Ho as [->|Ho].
      * split; [left|]. split; [exact Hnone|exact Hkept].
      * destruct (H3 o Ho) as (Ha & Hb & Hc). split; [right; exact Ha|].
        split; [|exact Hc].
        destruct (decide (opp_symbol opp = opp_symbol o)) as [Heq|Hne].
        -- rewrite Heq, lookup_insert_eq in Hb. discriminate.
        -- rewrite lookup_insert_ne in Hb by exact Hne. exact Hb.
Qed.

End AutoTraderFacts.

(** ** Paper trading engine *)

Section PaperTradingFacts.
Import Py.
Local Open Scope Q_scope.

Lemma stats_final_capital (rm : RiskManager.State) :
  exists stats : gmap string Q,
    RiskManager.get_stats rm = Ok stats
    /\ get stats "final_capital" (RiskManager.current_capital rm)
       = RiskManager.current_capital rm.
Proof.
  destruct (RiskManager.closed_trades rm) as [|t l] eqn:E.
  - unfold RiskManager.get_stats. rewrite E. eexists. split; [reflexivity|].
    reflexivity.
  - destruct (get_stats_nonempty_value rm) as (aw & al & pf & Hst); [congruence|].
    eexists. split; [exact Hst|]. reflexivity.
Qed.

(** X26.  The final capital [stop] reports is the manager's current
    capital whether or not any trade was closed (the fallback covers the
    key missing from the empty report), the return is
    [(current - initial) / initial * 100], and [stop] raises
    [ZeroDivisionError] exactly when the initial capital is 0. *)
Theorem stop_reports_current_capital (rm : RiskManager.State) :
  (~ RiskManager.initial_capital rm == 0 ->
   exists summary : PaperTradingEngine.Summary,
     PaperTradingEngine.stop rm = Ok summary
     /\ PaperTradingEngine.final_capital summary = RiskManager.current_capital rm
     /\ PaperTradingEngine.return_pct summary
        = (RiskManager.current_capital rm - RiskManager.initial_capital rm)
          / RiskManager.initial_capital rm * 100)
  /\ (RiskManager.initial_capital rm == 0 ->
      PaperTradingEngine.stop rm = Raise ZeroDivisionError).
Proof.
  destruct (stats_final_capital rm) as (stats & Hst & Hfc).
  unfold PaperTradingEngine.stop. rewrite Hst. cbn [mbind result_bind bind].
  rewrite Hfc. split.
  - intros Hnz. rewrite (div_ok _ _ Hnz). cbn [mbind result_bind bind].
    eexists. split; [reflexivity|]. split; reflexivity.
  - intros Hz. unfold div. apply Qeq_bool_iff in Hz. rewrite Hz. reflexivity.
Qed.

(** X27.  The paper trading loop never opens a position in the risk
    manager: a poll can only close the polled symbol's position, and a
    manager that holds none for that symbol is left exactly as it was, with
    its capital and its trade log. *)
Theorem poll_never_opens {S : Type} `{Strategy S}
    (strategy : S) (rm : RiskManager.State) (symbol : string)
    (candles : list BaseStrategy.Candle) :
  let rm' := (PaperTradingEngine.poll_once strategy rm symbol candles).1 in
  (forall s : string,
      is_Some (RiskManager.open_positions rm' !! s) ->
      is_Some (RiskManager.open_positions rm !! s))
  /\ (forall s : string, s <> symbol ->
        RiskManager.open_positions rm' !! s = RiskManager.open_positions rm !! s)
  /\ (RiskManager.open_positions rm !! symbol = None -> rm' = rm).
Proof.
  intros rm'. subst rm'. unfold PaperTradingEngine.poll_once.
  assert (Hclose : forall price : Q,
             let rm' := (RiskManager.close_position rm symbol price).1 in
             (forall s : string,
                 is_Some (RiskManager.open_positions rm' !! s) ->
                 is_Some (RiskManager.open_positions rm !! s))
             /\ (forall s : string, s <> symbol ->
                   RiskManager.open_positions rm' !! s
                   = RiskManager.open_positions rm !! s)
             /\ (RiskManager.open_positions rm !! symbol = None -> rm' = rm)).
  { intros price. unfold RiskManager.close_position.
    destruct (RiskManager.open_positions rm !! symbol) as [pos|] eqn:E; simpl.
    - split; [|split].
      + intros s. destruct (decide (symbol = s)) as [<-|Hne].
        * rewrite lookup_delete_eq. intros [x Hx]. discriminate.
        * rewrite lookup_delete_ne by exact Hne. auto.
      + intros s Hne. apply lookup_delete_ne. congruence.
      + discriminate.
    - auto. }
  destruct (last candles) as [latest|]; [|simpl; auto].
  destruct (RiskManager.check_stop_loss rm symbol (BaseStrategy.close latest));
    [apply Hclose|].
  destruct (RiskManager.check_take_profit rm symbol (BaseStrategy.close latest));
    [apply Hclose|].
  simpl. auto.
Qed.

End PaperTradingFacts.

(** ** Backtest report *)

Section BacktestReportFacts.
Import Py.
Local Open Scope Q_scope.

Lemma base_get_stats_value (st : BaseStrategy.State) :
  exists (stats : gmap string Q) (win_rate avg_win avg_loss : Q),
    BaseStrategy.get_stats st = Ok stats
    /\ stats !! "total_trades" = Some (inject_Z (len (BaseStrategy.trades st)))
    /\ stats !! "total_pnl"
       = Some (sum (map BaseStrategy.trade_pnl (BaseStrategy.trades st)))
    /\ stats !! "win_rate" = Some win_rate
    /\ stats !! "winning_trades"
       = Some (inject_Z (len (filter (fun t => ltb 0 (BaseStrategy.trade_pnl t) = true)
                                (BaseStrategy.trades st))))
    /\ stats !! "losing_trades"
       = Some (inject_Z (len (filter (fun t => ltb (BaseStrategy.trade_pnl t) 0 = true)
                                (BaseStrategy.trades st))))
    /\ stats !! "avg_win" = Some avg_win
    /\ stats !! "avg_loss" = Some avg_loss.
Proof.
  unfold BaseStrategy.get_stats.
  destruct (BaseStrategy.trades st) as [|t l] eqn:Hl.
  { eexists _, _, _, _. split; [reflexivity|]. repeat split; reflexivity. }
  set (wins := filter _ (t :: l)). set (losses := filter _ (t :: l)).
  assert (Hw : exists x, match wins with
                         | [] => Ok 0
                         | _ :: _ => div (sum (map BaseStrategy.trade_pnl wins))
                                         (inject_Z (len wins))
                         end = Ok x).
  { destruct wins as [|w ws]; [eauto|].
    rewrite div_ok by apply inject_len_nonzero. eauto. }
  assert (Hlo : exists x, match losses with
                          | [] => Ok 0
                          | _ :: _ => div (sum (map BaseStrategy.trade_pnl losses))
                                          (inject_Z (len losses))
                          end = Ok x).
  { destruct losses as [|w ws]; [eauto|].
    rewrite div_ok by apply inject_len_nonzero. eauto. }
  assert (Hwr : exists x,
             (if (0 <? len (t :: l))%Z
              then r ← div (inject_Z (len wins)) (inject_Z (len (t :: l))); Ok (r * 100)
              else Ok 0) = Ok x).
  { destruct (0 <? len (t :: l))%Z; [|eauto].
    rewrite div_ok by apply inject_len_nonzero. simpl. eauto. }
  destruct Hw as [aw ->]. destruct Hlo as [al ->]. destruct Hwr as [wr ->].
  eexists _, wr, aw, al. split; [reflexivity|]. repeat split; reflexivity.
Qed.

(** X28.  On a non-empty candle list [run] fails only if the candle loop
    fails: when the loop completes, [run] returns a report (no key is
    missing, no division is by zero) whose [total_trades] is the length of
    the strategy's trade log and whose [pnl] is the sum of its PnLs; when
    the loop raises, [run] raises the same exception. *)
Theorem run_reports_trade_log {S : Type} `{Strategy S}
    (strategy : S) (candles : list BaseStrategy.Candle) :
  candles <> [] ->
  (forall s' : S,
      BacktestEngine.run_loop strategy candles = Ok s' ->
      exists report : gmap string Q,
        BacktestEngine.run strategy candles = Ok (s', report)
        /\ report !! "total_trades"
           = Some (inject_Z (len (BaseStrategy.trades (base s'))))
        /\ report !! "pnl"
           = Some (sum (map BaseStrategy.trade_pnl (BaseStrategy.trades (base s'))))
        /\ is_Some (report !! "win_rate")
        /\ is_Some (report !! "avg_win") /\ is_Some (report !! "avg_loss"))
  /\ (forall e : exn,
        BacktestEngine.run_loop strategy candles = Raise e ->
        BacktestEngine.run strategy candles = Raise e).
Proof.
  intros Hne. unfold BacktestEngine.run.
  destruct candles as [|c cs]; [congruence|]. split.
  - intros s' Hloop. rewrite Hloop. cbn [mbind result_bind bind].
    destruct (base_get_stats_value (base s'))
      as (stats & wr & aw & al & Hst & H1 & H2 & H3 & H4 & H5 & H6 & H7).
    rewrite Hst. cbn [mbind result_bind bind].
    unfold getitem, get. rewrite H1, H2, H3, H4, H5, H6, H7.
    cbn [mbind result_bind bind default].
    eexists. split; [reflexivity|]. repeat split; eauto.
  - intros e Hloop. rewrite Hloop. reflexivity.
Qed.

Lemma run_reports_trade_log_witness :
  let c1 := BaseStrategy.mkCandle 60 "NSE:TCS-EQ" "NSE" 100 100 100 100 10 in
  let c2 := BaseStrategy.mkCandle 120 "NSE:TCS-EQ" "NSE" 100 100 100 100 10 in
  let c3 := BaseStrategy.mkCandle 180 "NSE:TCS-EQ" "NSE" 100 100 100 100 10 in
  [c1; c2; c3] <> []
  /\ exists (st' : ScalpingMeanReversionStrategy.State) (report : gmap string Q),
       BacktestEngine.run
         (H := ScalpingMeanReversionStrategy.strategy ScalpingMeanReversionStrategy.sqrt6)
         (ScalpingMeanReversionStrategy.init "NSE:TCS-EQ" 2 2) [c1; c2; c3]
       = Ok (st', report)
       /\ report !! "total_trades"
          = Some (inject_Z (len (BaseStrategy.trades
                                   (ScalpingMeanReversionStrategy.super st')))).
Proof.
  intros c1 c2 c3.
  assert (Hne : [c1; c2; c3] <> []) by discriminate.
  split; [exact Hne|].
  assert (Hloop : exists st' : ScalpingMeanReversionStrategy.State,
             BacktestEngine.run_loop
               (H := ScalpingMeanReversionStrategy.strategy
                       ScalpingMeanReversionStrategy.sqrt6)
               (ScalpingMeanReversionStrategy.init "NSE:TCS-EQ" 2 2) [c1; c2; c3]
             = Ok st') by (eexists; vm_compute; reflexivity).
  destruct Hloop as [st' Hloop].
  destruct (run_reports_trade_log
              (H := ScalpingMeanReversionStrategy.strategy
                      ScalpingMeanReversionStrategy.sqrt6)
              (ScalpingMeanReversionStrategy.init "NSE:TCS-EQ" 2 2) [c1; c2; c3] Hne)
    as [Hok _].
  destruct (Hok st' Hloop) as (report & Hrun & Htt & _).
  exists st', report. split; [exact Hrun|exact Htt].
Defined.

(** X29.  [finalize] of the dataclass-based base class always leaves the
    strategy flat: with an open position it appends exactly one exit trade,
    priced at the last candle's close, on the opposite side, with PnL
    [(close - entry) * quantity] for a long and [(entry - close) * quantity]
    for a short; with no position it changes nothing; in both cases a
    second [finalize] returns no trade. *)
Theorem finalize_flattens_once
    (st : LegacyBaseStrategy.State) (last_candle : BaseStrategy.Candle) :
  exists (st' : LegacyBaseStrategy.State) (closed : list LegacyBaseStrategy.Trade),
    LegacyBaseStrategy.finalize st last_candle = Ok (st', closed)
    /\ LegacyBaseStrategy.position st' = None
    /\ LegacyBaseStrategy.trades st' = LegacyBaseStrategy.trades st ++ closed
    /\ LegacyBaseStrategy.finalize st' last_candle = Ok (st', [])
    /\ match LegacyBaseStrategy.position st with
       | None => st' = st /\ closed = []
       | Some pos =>
           exists trade : LegacyBaseStrategy.Trade,
             closed = [trade]
             /\ LegacyBaseStrategy.trade_is_entry trade = false
             /\ LegacyBaseStrategy.trade_price trade = BaseStrategy.close last_candle
             /\ LegacyBaseStrategy.trade_quantity trade
                = LegacyBaseStrategy.pos_quantity pos
             /\ LegacyBaseStrategy.trade_side trade
                <> LegacyBaseStrategy.pos_side pos
             /\ LegacyBaseStrategy.trade_pnl trade
                == match LegacyBaseStrategy.pos_side pos with
                   | LegacyBaseStrategy.BUY =>
                       (BaseStrategy.close last_candle
                        - LegacyBaseStrategy.pos_entry_price pos)
                       * inject_Z (LegacyBaseStrategy.pos_quantity pos)
                   | LegacyBaseStrategy.SELL =>
                       (LegacyBaseStrategy.pos_entry_price pos
                        - BaseStrategy.close last_candle)
                       * inject_Z (LegacyBaseStrategy.pos_quantity pos)
                   end
       end.
Proof.
  unfold LegacyBaseStrategy.finalize, LegacyBaseStrategy._close_position.
  destruct (LegacyBaseStrategy.position st) as [pos|] eqn:Hpos.
  - cbn [mbind result_bind bind]. eexists _, _. split; [reflexivity|].
    cbn [LegacyBaseStrategy.position LegacyBaseStrategy.trades].
    split; [reflexivity|]. split; [reflexivity|]. split; [reflexivity|].
    eexists. split; [reflexivity|].
    cbn [LegacyBaseStrategy.trade_is_entry LegacyBaseStrategy.trade_price
         LegacyBaseStrategy.trade_quantity LegacyBaseStrategy.trade_side
         LegacyBaseStrategy.trade_pnl].
    split; [reflexivity|]. split; [reflexivity|]. split; [reflexivity|].
    unfold LegacyBaseStrategy.unrealized_pnl, LegacyBaseStrategy.direction.
    destruct (LegacyBaseStrategy.pos_side pos); simpl; split;
      try discriminate; ring.
  - exists st, []. rewrite Hpos, app_nil_r. repeat split; reflexivity.
Qed.

End BacktestReportFacts.

(** ** Bollinger bands *)

Section BollingerFacts.
Import Py.
Local Open Scope Q_scope.

Lemma square_nonneg (a : Q) : 0 <= a ^ 2.
Proof.
  assert (H : a ^ 2 == a * a) by (simpl; ring).
  rewrite H. destruct (Qlt_le_dec a 0) as [Hneg|Hpos].
  - assert (H' : a * a == (- a) * (- a)) by ring.
    rewrite H'. apply Qmult_le_0_compat; lra.
  - apply Qmult_le_0_compat; exact Hpos.
Qed.

(** X30.  Once the history holds [bb_period] prices the bands exist and
    are ordered, [lower <= middle <= upper], for a non-negative width
    factor and any square root that is non-negative on non-negative
    numbers.  With fewer prices there are no bands. *)
Theorem bollinger_bands_ordered (sqrt : Q -> Q)
    (st : ScalpingMeanReversionStrategy.State) (prices : list Q) :
  (forall v : Q, 0 <= v -> 0 <= sqrt v) ->
  0 <= ScalpingMeanReversionStrategy.bb_std st ->
  (1 <= ScalpingMeanReversionStrategy.bb_period st)%Z ->
  if (len prices <? ScalpingMeanReversionStrategy.bb_period st)%Z
  then ScalpingMeanReversionStrategy.calculate_bollinger_bands sqrt st prices = Ok None
  else
    exists upper middle lower : Q,
      ScalpingMeanReversionStrategy.calculate_bollinger_bands sqrt st prices
      = Ok (Some (upper, middle, lower))
      /\ lower <= middle /\ middle <= upper.
Proof.
  intros Hsqrt Hstd Hper.
  unfold ScalpingMeanReversionStrategy.calculate_bollinger_bands.
  destruct (len prices <? ScalpingMeanReversionStrategy.bb_period st)%Z eqn:E;
    [reflexivity|].
  apply Z.ltb_ge in E.
  rewrite (slice_from_neg_length (ScalpingMeanReversionStrategy.bb_period st) prices)
    by lia.
  pose proof (inject_Z_nonzero _ Hper) as Hnz.
  rewrite (div_ok _ _ Hnz). cbn [mbind result_bind bind].
  rewrite (div_ok _ _ Hnz). cbn [mbind result_bind bind].
  eexists _, _, _. split; [reflexivity|].
  match goal with
  | |- context [sqrt ?v] =>
      assert (Hs : 0 <= sqrt v);
      [apply Hsqrt | set (s := sqrt v) in *]
  end.
  { apply Qle_shift_div_l; [apply inject_Z_pos; exact Hper|].
    rewrite Qmult_0_l. apply sum_nonneg.
    apply List.Forall_map. apply Forall_true. intros x. cbv beta.
    apply square_nonneg. }
  assert (Hw : 0 <= ScalpingMeanReversionStrategy.bb_std st * s)
    by (apply Qmult_le_0_compat; assumption).
  set (w := ScalpingMeanReversionStrategy.bb_std st * s) in *.
  split.
  - apply Qle_minus_iff. ring_simplify. exact Hw.
  - apply Qle_minus_iff. ring_simplify. exact Hw.
Qed.

Lemma bollinger_bands_ordered_witness :
  let st := ScalpingMeanReversionStrategy.init "NSE:TCS-EQ" 2 2 in
  (forall v : Q, 0 <= v -> 0 <= ScalpingMeanReversionStrategy.sqrt6 v)
  /\ 0 <= ScalpingMeanReversionStrategy.bb_std st
  /\ (1 <= ScalpingMeanReversionStrategy.bb_period st)%Z
  /\ exists upper middle lower : Q,
       ScalpingMeanReversionStrategy.calculate_bollinger_bands
         ScalpingMeanReversionStrategy.sqrt6 st [90; 98; 102]
       = Ok (Some (upper, middle, lower))
       /\ lower <= middle /\ middle <= upper.
Proof.
  intros st.
  assert (H1 : forall v : Q, 0 <= v -> 0 <= ScalpingMeanReversionStrategy.sqrt6 v).
  { intros v _. unfold ScalpingMeanReversionStrategy.sqrt6, Qle.
    cbn [Qnum Qden]. rewrite Z.mul_0_l, Z.mul_1_r. apply Z.sqrt_nonneg. }
  assert (H2 : 0 <= ScalpingMeanReversionStrategy.bb_std st)
    by (vm_compute; discriminate).
  assert (H3 : (1 <= ScalpingMeanReversionStrategy.bb_period st)%Z)
    by (vm_compute; discriminate).
  split; [exact H1|]. split; [exact H2|]. split; [exact H3|].
  pose proof (bollinger_bands_ordered ScalpingMeanReversionStrategy.sqrt6 st
                [90; 98; 102] H1 H2 H3) as H.
  change (len [90; 98; 102] <? ScalpingMeanReversionStrategy.bb_period st)%Z
    with false in H.
  exact H.
Defined.

End BollingerFacts.
